(** * WC Audio Player: a shallow embedding of the composition core

    The development follows the TypeScript sources
    [src/core/controls.ts], [src/core/keyboard.ts],
    [src/core/accessibility.ts], [src/core/player.ts],
    [src/core/time.ts] and [src/plugins/analytics.ts].

    Conventions of the embedding.
    - A JavaScript [number] is a rational ([Q]); [===] on numbers is
      numeric equality ([Qeq_bool]).  The rounding of binary64 is outside
      the model, so the properties proved of numbers are those of order
      and clamping, which rounding preserves, and exact values only where
      no rounding occurs: at the ends of a clamp ([0], [1], the duration
      itself), on values that are stored and read back, and on integers
      below 2^53.  NaN and the infinities appear where the code tests for
      them ([jsnumber]).
    - An optional value ([T | undefined], a [null] reference) is an
      [option]; a key of an object that is spread is a [Key], which tells
      an absent key from one written [undefined].
    - Mutable objects become explicit state: one record per player
      closure ([Instance]), one for what every player on the page shares
      ([World]), threaded through every operation.
    - The [?.] operator is a [match] on the optional engine reference. *)

From Stdlib Require Import QArith Qminmax Qround Lqa ZArith Lia List Bool String Ascii.
From Stdlib Require Import DecimalString DecimalN.
Import ListNotations.

Local Open Scope Q_scope.

(** ** JavaScript numbers *)

Definition number : Type := Q.

(** Truthiness of a number: every number but zero. *)
Definition truthy (x : number) : bool := negb (Qeq_bool x 0).

(** [x || d] where [x] is a possibly absent number. *)
Definition orNumber (x : option number) (d : number) : number :=
  match x with
  | Some v => if truthy v then v else d
  | None => d
  end.

(** [x || d] where [x] is a possibly absent object (objects and arrays are
    always truthy). *)
Definition orObject {A : Type} (x : option A) (d : A) : A :=
  match x with
  | Some v => v
  | None => d
  end.

(** [x ?? d]. *)
Definition nullish {A : Type} (x : option A) (d : A) : A :=
  match x with
  | Some v => v
  | None => d
  end.

(** [x !== false] for an optional boolean key. *)
Definition notFalse (x : option bool) : bool :=
  match x with
  | Some false => false
  | _ => true
  end.

(** [Math.max(0, Math.min(1, x))]. *)
Definition clamp01 (x : number) : number := Qmax 0 (Qmin 1 x).

(** [Array.prototype.indexOf] on numbers, [-1] when absent. *)
Fixpoint indexOfFrom (i : Z) (x : number) (l : list number) : Z :=
  match l with
  | [] => (-1)%Z
  | y :: l' => if Qeq_bool y x then i else indexOfFrom (i + 1)%Z x l'
  end.

Definition indexOf (l : list number) (x : number) : Z := indexOfFrom 0%Z x l.

(** [l[i]] for an integer index; [None] is [undefined]. *)
Definition at_index (l : list number) (i : Z) : option number :=
  if (i <? 0)%Z then None else nth_error l (Z.to_nat i).

(** [Array.prototype.includes] on strings. *)
Definition includes (l : list string) (s : string) : bool :=
  existsb (String.eqb s) l.

(** ** Feature configuration ([types.ts]) *)

(** A feature toggle as the caller writes it:
    [boolean | Config | undefined]. *)
Inductive Feature (A : Type) : Type :=
| FeatureFalse
| FeatureTrue
| FeatureUndefined
| FeatureObject (config : A).

Arguments FeatureFalse {A}.
Arguments FeatureTrue {A}.
Arguments FeatureUndefined {A}.
Arguments FeatureObject {A} config.

(** A key of a configuration object: absent, written with the value
    [undefined], or written with a value.  Reading the key gives
    [undefined] in the first two cases alike; an object spread tells them
    apart, since it copies a key written [undefined]. *)
Inductive Key (A : Type) : Type :=
| KeyAbsent
| KeyUndefined
| KeyValue (value : A).

Arguments KeyAbsent {A}.
Arguments KeyUndefined {A}.
Arguments KeyValue {A} value.

(** [config.key]. *)
Definition readKey {A : Type} (k : Key A) : option A :=
  match k with
  | KeyValue v => Some v
  | KeyAbsent | KeyUndefined => None
  end.

(** The configuration objects as callers pass them.  The interfaces
    declare [enabled] mandatory, yet the README passes objects without it
    ([skip: { seconds: 15 }]), so every key is optional here.  The speed
    and skip normalizers only read the keys ([!== false], [||]), so one
    [None] stands for a key that is absent or written [undefined]; the
    keyboard and analytics normalizers spread the object, so their keys
    are [Key]s. *)
Record SpeedConfig : Type := mkSpeedConfig {
  speed_enabled : option bool;
  speed_options : option (list number);
  speed_defaultSpeed : option number
}.

Record SkipConfig : Type := mkSkipConfig {
  skip_enabled : option bool;
  skip_seconds : option number
}.

Record KeyboardConfig : Type := mkKeyboardConfig {
  kb_enabled : Key bool;
  kb_playPause : Key (list string);
  kb_skipBack : Key (list string);
  kb_skipForward : Key (list string);
  kb_speedUp : Key (list string);
  kb_speedDown : Key (list string);
  kb_mute : Key (list string);
  kb_jumpStart : Key (list string);
  kb_jumpEnd : Key (list string);
  kb_showHints : Key bool
}.

(** An analytics tracker is a function of the host page; it is identified
    by a name and its calls are logged in the [World]. *)
Definition AnalyticsTracker : Type := nat.

Record AnalyticsConfig : Type := mkAnalyticsConfig {
  an_enabled : Key bool;
  an_tracker : Key AnalyticsTracker;
  an_trackView : Key bool;
  an_trackPlay : Key bool;
  an_trackPause : Key bool;
  an_trackComplete : Key bool;
  an_trackSpeedChange : Key bool;
  an_trackSkip : Key bool
}.

(** [Required<...>]: a configuration with every field populated. *)
Record RequiredSpeedConfig : Type := mkRequiredSpeedConfig {
  rspeed_enabled : bool;
  rspeed_options : list number;
  rspeed_defaultSpeed : number
}.

Record RequiredSkipConfig : Type := mkRequiredSkipConfig {
  rskip_enabled : bool;
  rskip_seconds : number
}.

Record RequiredKeyboardConfig : Type := mkRequiredKeyboardConfig {
  rkb_enabled : bool;
  rkb_playPause : list string;
  rkb_skipBack : list string;
  rkb_skipForward : list string;
  rkb_speedUp : list string;
  rkb_speedDown : list string;
  rkb_mute : list string;
  rkb_jumpStart : list string;
  rkb_jumpEnd : list string;
  rkb_showHints : bool
}.

(** What [normalizeKeyboardConfig] returns.  Its declared type is
    [Required<KeyboardConfig>], but the spread copies a key the caller
    wrote as [undefined], so a field can hold [undefined] ([None]). *)
Record NormalizedKeyboardConfig : Type := mkNormalizedKeyboardConfig {
  nkb_enabled : option bool;
  nkb_playPause : option (list string);
  nkb_skipBack : option (list string);
  nkb_skipForward : option (list string);
  nkb_speedUp : option (list string);
  nkb_speedDown : option (list string);
  nkb_mute : option (list string);
  nkb_jumpStart : option (list string);
  nkb_jumpEnd : option (list string);
  nkb_showHints : option bool
}.

(** What [normalizeAnalyticsConfig] returns.  [enabled] is always a
    boolean; [DEFAULT_ANALYTICS_CONFIG] stores
    [undefined as unknown as AnalyticsTracker] under [tracker]; a flag
    the caller wrote as [undefined] stays [undefined] ([None]). *)
Record NormalizedAnalyticsConfig : Type := mkNormalizedAnalyticsConfig {
  nac_enabled : bool;
  nac_tracker : option AnalyticsTracker;
  nac_trackView : option bool;
  nac_trackPlay : option bool;
  nac_trackPause : option bool;
  nac_trackComplete : option bool;
  nac_trackSpeedChange : option bool;
  nac_trackSkip : option bool
}.

(** Truthiness of a flag that may hold [undefined]. *)
Definition truthyFlag (b : option bool) : bool :=
  match b with
  | Some true => true
  | _ => false
  end.

(** The plugin reads its normalized configuration in conditions only
    ([if (!normalizedConfig.enabled)], [normalizedConfig.trackPlay && ...],
    [normalizedConfig.tracker || ...]): [ran_x] is the field [x] as such a
    condition reads it. *)
Definition ran_enabled (c : NormalizedAnalyticsConfig) : bool :=
  nac_enabled c.

Definition ran_tracker (c : NormalizedAnalyticsConfig)
  : option AnalyticsTracker :=
  nac_tracker c.

Definition ran_trackView (c : NormalizedAnalyticsConfig) : bool :=
  truthyFlag (nac_trackView c).

Definition ran_trackPlay (c : NormalizedAnalyticsConfig) : bool :=
  truthyFlag (nac_trackPlay c).

Definition ran_trackPause (c : NormalizedAnalyticsConfig) : bool :=
  truthyFlag (nac_trackPause c).

Definition ran_trackComplete (c : NormalizedAnalyticsConfig) : bool :=
  truthyFlag (nac_trackComplete c).

Definition ran_trackSpeedChange (c : NormalizedAnalyticsConfig) : bool :=
  truthyFlag (nac_trackSpeedChange c).

Definition ran_trackSkip (c : NormalizedAnalyticsConfig) : bool :=
  truthyFlag (nac_trackSkip c).

(** ** Normalizers ([controls.ts], [keyboard.ts], [analytics.ts]) *)

Definition DEFAULT_SPEED_OPTIONS : list number :=
  [1 # 2; 3 # 4; 1; 5 # 4; 3 # 2; 7 # 4; 2].

Definition DEFAULT_SKIP_SECONDS : number := 15.

Definition normalizeSpeedConfig (config : Feature SpeedConfig)
  : RequiredSpeedConfig :=
  match config with
  | FeatureFalse =>
      {| rspeed_enabled := false;
         rspeed_options := DEFAULT_SPEED_OPTIONS;
         rspeed_defaultSpeed := 1 |}
  | FeatureTrue | FeatureUndefined =>
      {| rspeed_enabled := true;
         rspeed_options := DEFAULT_SPEED_OPTIONS;
         rspeed_defaultSpeed := 1 |}
  | FeatureObject c =>
      {| rspeed_enabled := notFalse (speed_enabled c);
         rspeed_options := orObject (speed_options c) DEFAULT_SPEED_OPTIONS;
         rspeed_defaultSpeed := orNumber (speed_defaultSpeed c) 1 |}
  end.

Definition normalizeSkipConfig (config : Feature SkipConfig)
  : RequiredSkipConfig :=
  match config with
  | FeatureFalse =>
      {| rskip_enabled := false; rskip_seconds := DEFAULT_SKIP_SECONDS |}
  | FeatureTrue | FeatureUndefined =>
      {| rskip_enabled := true; rskip_seconds := DEFAULT_SKIP_SECONDS |}
  | FeatureObject c =>
      {| rskip_enabled := notFalse (skip_enabled c);
         rskip_seconds := orNumber (skip_seconds c) DEFAULT_SKIP_SECONDS |}
  end.

Definition DEFAULT_KEYBOARD_CONFIG : RequiredKeyboardConfig :=
  {| rkb_enabled := true;
     rkb_playPause := [" "; "k"; "K"]%string;
     rkb_skipBack := ["j"; "J"; "ArrowLeft"]%string;
     rkb_skipForward := ["l"; "L"; "ArrowRight"]%string;
     rkb_speedUp := ["ArrowUp"]%string;
     rkb_speedDown := ["ArrowDown"]%string;
     rkb_mute := ["m"; "M"]%string;
     rkb_jumpStart := ["0"; "Home"]%string;
     rkb_jumpEnd := ["End"]%string;
     rkb_showHints := true |}.

(** [{ ...d, ...c }] at one key, [d] being the default under that key: a
    key present in [c] replaces the default, also when its value is
    [undefined]. *)
Definition spread {A : Type} (d : A) (c : Key A) : option A :=
  match c with
  | KeyAbsent => Some d
  | KeyUndefined => None
  | KeyValue v => Some v
  end.

(** A fully populated configuration as a value of the normalizer. *)
Definition populated (d : RequiredKeyboardConfig) : NormalizedKeyboardConfig :=
  {| nkb_enabled := Some (rkb_enabled d);
     nkb_playPause := Some (rkb_playPause d);
     nkb_skipBack := Some (rkb_skipBack d);
     nkb_skipForward := Some (rkb_skipForward d);
     nkb_speedUp := Some (rkb_speedUp d);
     nkb_speedDown := Some (rkb_speedDown d);
     nkb_mute := Some (rkb_mute d);
     nkb_jumpStart := Some (rkb_jumpStart d);
     nkb_jumpEnd := Some (rkb_jumpEnd d);
     nkb_showHints := Some (rkb_showHints d) |}.

Definition normalizeKeyboardConfig (config : Feature KeyboardConfig)
  : NormalizedKeyboardConfig :=
  let d := DEFAULT_KEYBOARD_CONFIG in
  match config with
  | FeatureFalse =>
      {| nkb_enabled := Some false;
         nkb_playPause := Some (rkb_playPause d);
         nkb_skipBack := Some (rkb_skipBack d);
         nkb_skipForward := Some (rkb_skipForward d);
         nkb_speedUp := Some (rkb_speedUp d);
         nkb_speedDown := Some (rkb_speedDown d);
         nkb_mute := Some (rkb_mute d);
         nkb_jumpStart := Some (rkb_jumpStart d);
         nkb_jumpEnd := Some (rkb_jumpEnd d);
         nkb_showHints := Some (rkb_showHints d) |}
  | FeatureTrue | FeatureUndefined => populated d
  | FeatureObject c =>
      {| nkb_enabled := spread (rkb_enabled d) (kb_enabled c);
         nkb_playPause := spread (rkb_playPause d) (kb_playPause c);
         nkb_skipBack := spread (rkb_skipBack d) (kb_skipBack c);
         nkb_skipForward := spread (rkb_skipForward d) (kb_skipForward c);
         nkb_speedUp := spread (rkb_speedUp d) (kb_speedUp c);
         nkb_speedDown := spread (rkb_speedDown d) (kb_speedDown c);
         nkb_mute := spread (rkb_mute d) (kb_mute c);
         nkb_jumpStart := spread (rkb_jumpStart d) (kb_jumpStart c);
         nkb_jumpEnd := spread (rkb_jumpEnd d) (kb_jumpEnd c);
         nkb_showHints := spread (rkb_showHints d) (kb_showHints c) |}
  end.

Definition DEFAULT_ANALYTICS_CONFIG : NormalizedAnalyticsConfig :=
  {| nac_enabled := true;
     nac_tracker := None;
     nac_trackView := Some true;
     nac_trackPlay := Some true;
     nac_trackPause := Some true;
     nac_trackComplete := Some true;
     nac_trackSpeedChange := Some true;
     nac_trackSkip := Some true |}.

Definition normalizeAnalyticsConfig (config : Feature AnalyticsConfig)
  : NormalizedAnalyticsConfig :=
  let d := DEFAULT_ANALYTICS_CONFIG in
  match config with
  | FeatureFalse =>
      {| nac_enabled := false;
         nac_tracker := nac_tracker d;
         nac_trackView := nac_trackView d;
         nac_trackPlay := nac_trackPlay d;
         nac_trackPause := nac_trackPause d;
         nac_trackComplete := nac_trackComplete d;
         nac_trackSpeedChange := nac_trackSpeedChange d;
         nac_trackSkip := nac_trackSkip d |}
  | FeatureTrue | FeatureUndefined => d
  | FeatureObject c =>
      {| nac_enabled := notFalse (readKey (an_enabled c));
         nac_tracker := readKey (an_tracker c);
         nac_trackView := spread true (an_trackView c);
         nac_trackPlay := spread true (an_trackPlay c);
         nac_trackPause := spread true (an_trackPause c);
         nac_trackComplete := spread true (an_trackComplete c);
         nac_trackSpeedChange := spread true (an_trackSpeedChange c);
         nac_trackSkip := spread true (an_trackSkip c) |}
  end.

(** ** Player state ([types.ts], [createInitialState]) *)

Record PlayerState : Type := mkPlayerState {
  isReady : bool;
  isPlaying : bool;
  isMuted : bool;
  currentSpeed : number;
  previousVolume : number;
  currentTime : number;
  duration : number;
  hasTrackedView : bool;
  hasTrackedPlay : bool;
  hasTrackedComplete : bool
}.

Definition createInitialState : PlayerState :=
  {| isReady := false;
     isPlaying := false;
     isMuted := false;
     currentSpeed := 1;
     previousVolume := 1;
     currentTime := 0;
     duration := 0;
     hasTrackedView := false;
     hasTrackedPlay := false;
     hasTrackedComplete := false |}.

Definition set_isReady (b : bool) (s : PlayerState) : PlayerState :=
  mkPlayerState b (isPlaying s) (isMuted s) (currentSpeed s)
    (previousVolume s) (currentTime s) (duration s) (hasTrackedView s)
    (hasTrackedPlay s) (hasTrackedComplete s).

Definition set_isPlaying (b : bool) (s : PlayerState) : PlayerState :=
  mkPlayerState (isReady s) b (isMuted s) (currentSpeed s)
    (previousVolume s) (currentTime s) (duration s) (hasTrackedView s)
    (hasTrackedPlay s) (hasTrackedComplete s).

Definition set_isMuted (b : bool) (s : PlayerState) : PlayerState :=
  mkPlayerState (isReady s) (isPlaying s) b (currentSpeed s)
    (previousVolume s) (currentTime s) (duration s) (hasTrackedView s)
    (hasTrackedPlay s) (hasTrackedComplete s).

Definition set_currentSpeed (x : number) (s : PlayerState) : PlayerState :=
  mkPlayerState (isReady s) (isPlaying s) (isMuted s) x
    (previousVolume s) (currentTime s) (duration s) (hasTrackedView s)
    (hasTrackedPlay s) (hasTrackedComplete s).

Definition set_previousVolume (x : number) (s : PlayerState) : PlayerState :=
  mkPlayerState (isReady s) (isPlaying s) (isMuted s) (currentSpeed s)
    x (currentTime s) (duration s) (hasTrackedView s)
    (hasTrackedPlay s) (hasTrackedComplete s).

Definition set_currentTime (x : number) (s : PlayerState) : PlayerState :=
  mkPlayerState (isReady s) (isPlaying s) (isMuted s) (currentSpeed s)
    (previousVolume s) x (duration s) (hasTrackedView s)
    (hasTrackedPlay s) (hasTrackedComplete s).

Definition set_duration (x : number) (s : PlayerState) : PlayerState :=
  mkPlayerState (isReady s) (isPlaying s) (isMuted s) (currentSpeed s)
    (previousVolume s) (currentTime s) x (hasTrackedView s)
    (hasTrackedPlay s) (hasTrackedComplete s).

(** ** The AudioEngine (wavesurfer.js)

    The engine is an external collaborator.  It is modelled by the
    interface the player relies on: the transport calls update the
    corresponding properties, the getters read them back, [seekTo] takes a
    progress in [[0,1]] and moves the position to that fraction of the
    duration.  Every call received is also logged, most recent first. *)

Inductive EngineCall : Type :=
| CallPlay
| CallPause
| CallPlayPause
| CallSeekTo (progress : number)
| CallSetVolume (volume : number)
| CallSetPlaybackRate (rate : number)
| CallDestroy.

Record AudioEngine : Type := mkAudioEngine {
  eng_playing : bool;
  eng_currentTime : number;
  eng_duration : number;
  eng_volume : number;
  eng_playbackRate : number;
  eng_calls : list EngineCall
}.

Definition engine_do (c : EngineCall) (ws : AudioEngine) : AudioEngine :=
  let log := c :: eng_calls ws in
  match c with
  | CallPlay =>
      mkAudioEngine true (eng_currentTime ws) (eng_duration ws)
        (eng_volume ws) (eng_playbackRate ws) log
  | CallPause =>
      mkAudioEngine false (eng_currentTime ws) (eng_duration ws)
        (eng_volume ws) (eng_playbackRate ws) log
  | CallPlayPause =>
      mkAudioEngine (negb (eng_playing ws)) (eng_currentTime ws)
        (eng_duration ws) (eng_volume ws) (eng_playbackRate ws) log
  | CallSeekTo progress =>
      mkAudioEngine (eng_playing ws) (eng_duration ws * progress)
        (eng_duration ws) (eng_volume ws) (eng_playbackRate ws) log
  | CallSetVolume volume =>
      mkAudioEngine (eng_playing ws) (eng_currentTime ws) (eng_duration ws)
        volume (eng_playbackRate ws) log
  | CallSetPlaybackRate rate =>
      mkAudioEngine (eng_playing ws) (eng_currentTime ws) (eng_duration ws)
        (eng_volume ws) rate log
  | CallDestroy =>
      mkAudioEngine false (eng_currentTime ws) (eng_duration ws)
        (eng_volume ws) (eng_playbackRate ws) log
  end.

(** A freshly created engine: nothing loaded yet. *)
Definition WaveSurfer_create : AudioEngine :=
  mkAudioEngine false 0 0 1 1 [].

(** The events of the engine the player subscribes to. *)
Inductive EngineEvent : Type :=
| EvReady
| EvPlay
| EvPause
| EvFinish
| EvSeeking
| EvAudioprocess
| EvError.

(** ** The page: document, module state, analytics sinks *)

Record Element : Type := mkElement {
  node : nat;
  tagName : string;
  elementId : string;
  classList : list string;
  isContentEditable : bool
}.

(** One call of an analytics tracker.  [None] as sink is the development
    logger [devLog]; the payload keeps the numeric datum of the event
    (speed, seconds or position), titles and URLs are left out. *)
Record TrackCall : Type := mkTrackCall {
  track_sink : option AnalyticsTracker;
  track_event : string;
  track_data : option number
}.

(** The variables captured by one [analyticsPlugin(...)] closure. *)
Record AnalyticsVars : Type := mkAnalyticsVars {
  av_hasTrackedView : bool;
  av_hasTrackedPlay : bool;
  av_hasTrackedComplete : bool;
  av_tracker : option AnalyticsTracker
}.

Definition initialAnalyticsVars : AnalyticsVars :=
  mkAnalyticsVars false false false None.

Record World : Type := mkWorld {
  body : list Element;
  activeElement : option Element;
  (** [announcerElement], the module variable of [accessibility.ts] *)
  announcerElement : option nat;
  (** supply of node identities for [document.createElement] *)
  nextNode : nat;
  (** messages handed to the live region, most recent first *)
  announced : list string;
  (** the tracker [detectTracker()] finds on [window], if any *)
  detectedTracker : option AnalyticsTracker;
  (** closure variables of the analytics plugins, by closure *)
  analyticsVars : list (nat * AnalyticsVars);
  (** tracker calls, most recent first *)
  tracked : list TrackCall
}.

(** The lifecycle callbacks of the options, logged when invoked (an
    absent callback makes the invocation a no-op). *)
Inductive Callback : Type :=
| OnReady
| OnPlay
| OnPause (position : number)
| OnFinish
| OnSeek (position : number)
| OnError (message : string).

(** The only cleanup function [initializePlayer] ever registers is the one
    [setupKeyboardShortcuts] returns: either the no-op of a disabled
    configuration or the removal of the keydown listener. *)
Inductive CleanupFn : Type :=
| CleanupNoop
| CleanupKeydown.

Inductive ContainerArg : Type :=
| ContainerSelector (selector : string)
| ContainerElement (element : nat).

(** The keys of the options the composition core reads; URLs, colors and
    metadata only reach the engine and the rendering.  A feature key is
    [None] when [options.features] does not have it (or is itself
    absent), and [Some FeatureUndefined] when it is written with the
    value [undefined]. *)
Record WCAudioPlayerOptions : Type := mkOptions {
  opt_container : ContainerArg;
  opt_peaksUrl : option string;
  opt_keyboard : option (Feature KeyboardConfig);
  opt_speed : option (Feature SpeedConfig);
  opt_skip : option (Feature SkipConfig)
}.

(** [{ ...DEFAULT_FEATURES, ...options.features }] at one of the keys
    [keyboard], [speed], [skip], whose default is [true]: a key the
    caller wrote replaces the default, also when its value is
    [undefined]. *)
Definition mergedFeature {A : Type} (key : option (Feature A)) : Feature A :=
  match key with
  | Some f => f
  | None => FeatureTrue
  end.

(** What one [createPlayer] closure holds. *)
Record Instance : Type := mkInstance {
  state : PlayerState;
  wavesurfer : option AudioEngine;
  container : nat;
  options : WCAudioPlayerOptions;
  speedConfig : RequiredSpeedConfig;
  skipConfig : RequiredSkipConfig;
  cleanupFns : list CleanupFn;
  (** the keydown listener this player attached to the document *)
  keydownListener : option NormalizedKeyboardConfig;
  (** callbacks of the options invoked so far, most recent first *)
  invoked : list Callback
}.

Record Env : Type := mkEnv {
  inst : Instance;
  world : World
}.

Definition with_inst (f : Instance -> Instance) (e : Env) : Env :=
  mkEnv (f (inst e)) (world e).

Definition with_world (f : World -> World) (e : Env) : Env :=
  mkEnv (inst e) (f (world e)).

Definition upd_state (f : PlayerState -> PlayerState) (i : Instance)
  : Instance :=
  mkInstance (f (state i)) (wavesurfer i) (container i) (options i)
    (speedConfig i) (skipConfig i) (cleanupFns i) (keydownListener i)
    (invoked i).

Definition set_wavesurfer (ws : option AudioEngine) (i : Instance)
  : Instance :=
  mkInstance (state i) ws (container i) (options i)
    (speedConfig i) (skipConfig i) (cleanupFns i) (keydownListener i)
    (invoked i).

Definition set_cleanupFns (l : list CleanupFn) (i : Instance) : Instance :=
  mkInstance (state i) (wavesurfer i) (container i) (options i)
    (speedConfig i) (skipConfig i) l (keydownListener i) (invoked i).

Definition set_keydownListener (k : option NormalizedKeyboardConfig)
  (i : Instance) : Instance :=
  mkInstance (state i) (wavesurfer i) (container i) (options i)
    (speedConfig i) (skipConfig i) (cleanupFns i) k (invoked i).

Definition invoke (c : Callback) (i : Instance) : Instance :=
  mkInstance (state i) (wavesurfer i) (container i) (options i)
    (speedConfig i) (skipConfig i) (cleanupFns i) (keydownListener i)
    (c :: invoked i).

Definition upd_state_env (f : PlayerState -> PlayerState) : Env -> Env :=
  with_inst (upd_state f).

(** ** Accessibility announcer ([accessibility.ts]) *)

Definition ANNOUNCER_ID : string := "wc-player-announcer".

(** [document.body.contains(n)]. *)
Definition contains (w : World) (n : nat) : bool :=
  existsb (fun el => Nat.eqb (node el) n) (body w).

Definition getElementById (w : World) (id : string) : option Element :=
  find (fun el => String.eqb (elementId el) id) (body w).

(** [querySelectorAll('.cls')]. *)
Definition querySelectorAll_class (w : World) (cls : string) : list Element :=
  filter (fun el => includes (classList el) cls) (body w).

(** [querySelector] for the simple selectors [#id] and [.class]; any other
    selector is read as a tag name. *)
Definition querySelector (w : World) (selector : string) : option Element :=
  match selector with
  | String "#" id => find (fun el => String.eqb (elementId el) id) (body w)
  | String "." cls => find (fun el => includes (classList el) cls) (body w)
  | _ => find (fun el => String.eqb (tagName el) selector) (body w)
  end.

Definition set_announcerElement (a : option nat) (w : World) : World :=
  mkWorld (body w) (activeElement w) a (nextNode w) (announced w)
    (detectedTracker w) (analyticsVars w) (tracked w).

Definition set_body (b : list Element) (w : World) : World :=
  mkWorld b (activeElement w) (announcerElement w) (nextNode w)
    (announced w) (detectedTracker w) (analyticsVars w) (tracked w).

Definition set_nextNode (n : nat) (w : World) : World :=
  mkWorld (body w) (activeElement w) (announcerElement w) n
    (announced w) (detectedTracker w) (analyticsVars w) (tracked w).

Definition push_announced (m : string) (w : World) : World :=
  mkWorld (body w) (activeElement w) (announcerElement w) (nextNode w)
    (m :: announced w) (detectedTracker w) (analyticsVars w) (tracked w).

Definition set_analyticsVars (l : list (nat * AnalyticsVars)) (w : World)
  : World :=
  mkWorld (body w) (activeElement w) (announcerElement w) (nextNode w)
    (announced w) (detectedTracker w) l (tracked w).

Definition push_tracked (c : TrackCall) (w : World) : World :=
  mkWorld (body w) (activeElement w) (announcerElement w) (nextNode w)
    (announced w) (detectedTracker w) (analyticsVars w) (c :: tracked w).

(** The cached element when it is still in the document. *)
Definition cachedAnnouncer (w : World) : option nat :=
  match announcerElement w with
  | Some n => if contains w n then Some n else None
  | None => None
  end.

Definition getAnnouncer (w : World) : nat * World :=
  match cachedAnnouncer w with
  | Some n => (n, w)
  | None =>
      match getElementById w ANNOUNCER_ID with
      | Some el => (node el, set_announcerElement (Some (node el)) w)
      | None =>
          let n := nextNode w in
          let announcer := mkElement n "DIV" ANNOUNCER_ID ["sr-only"%string] false in
          (n, set_announcerElement (Some n)
                (set_nextNode (S n) (set_body (body w ++ [announcer]) w)))
      end
  end.

(** The live region is emptied and, one frame and 50 ms later, set to the
    message; the model keeps the message. *)
Definition announceToScreenReader (message : string) (w : World) : World :=
  push_announced message (snd (getAnnouncer w)).

Definition removeNode (n : nat) (w : World) : World :=
  set_body (filter (fun el => negb (Nat.eqb (node el) n)) (body w)) w.

Definition cleanupAnnouncer (w : World) : World :=
  match cachedAnnouncer w with
  | Some n =>
      let otherPlayers := querySelectorAll_class w "wc-audio-player" in
      if Nat.eqb (List.length otherPlayers) 0
      then set_announcerElement None (removeNode n w)
      else w
  | None => w
  end.

(** [el.classList.add(cls)] and [el.classList.remove(cls)] on the element
    with identity [n]. *)
Definition classList_add (n : nat) (cls : string) (w : World) : World :=
  set_body
    (map (fun el =>
            if Nat.eqb (node el) n
            then if includes (classList el) cls then el
                 else mkElement (node el) (tagName el) (elementId el)
                        (classList el ++ [cls]) (isContentEditable el)
            else el) (body w)) w.

Definition classList_remove (n : nat) (cls : string) (w : World) : World :=
  set_body
    (map (fun el =>
            if Nat.eqb (node el) n
            then mkElement (node el) (tagName el) (elementId el)
                   (filter (fun c => negb (String.eqb c cls)) (classList el))
                   (isContentEditable el)
            else el) (body w)) w.

(** ** Player operations ([player.ts], the methods of [player]) *)

(** [wavesurfer?.call(...)]. *)
Definition engine_call (c : EngineCall) (e : Env) : Env :=
  match wavesurfer (inst e) with
  | Some ws => with_inst (set_wavesurfer (Some (engine_do c ws))) e
  | None => e
  end.

Definition positive (x : number) : bool := negb (Qle_bool x 0).

Definition play : Env -> Env := engine_call CallPlay.

Definition pause : Env -> Env := engine_call CallPause.

Definition playPause : Env -> Env := engine_call CallPlayPause.

Definition seekTo (progress : number) : Env -> Env :=
  engine_call (CallSeekTo (clamp01 progress)).

Definition getCurrentTime (e : Env) : number :=
  orNumber (option_map eng_currentTime (wavesurfer (inst e))) 0.

Definition getDuration (e : Env) : number :=
  orNumber (option_map eng_duration (wavesurfer (inst e))) 0.

Definition seekToTime (seconds : number) (e : Env) : Env :=
  let duration := getDuration e in
  if positive duration then seekTo (seconds / duration) e else e.

(** [newTime] of [skipForward] and of [skipBack]: the absolute time the
    method computes before it delegates to [seekTo]. *)
Definition skipForward_newTime (seconds : option number) (e : Env) : number :=
  let skipAmount := nullish seconds (rskip_seconds (skipConfig (inst e))) in
  let current := getCurrentTime e in
  let duration := getDuration e in
  Qmin duration (current + skipAmount).

Definition skipBack_newTime (seconds : option number) (e : Env) : number :=
  let skipAmount := nullish seconds (rskip_seconds (skipConfig (inst e))) in
  let current := getCurrentTime e in
  Qmax 0 (current - skipAmount).

Definition skipForward (seconds : option number) (e : Env) : Env :=
  let duration := getDuration e in
  let newTime := skipForward_newTime seconds e in
  if positive duration then seekTo (newTime / duration) e else e.

Definition skipBack (seconds : option number) (e : Env) : Env :=
  let duration := getDuration e in
  let newTime := skipBack_newTime seconds e in
  if positive duration then seekTo (newTime / duration) e else e.

Definition setSpeed (speed : number) (e : Env) : Env :=
  engine_call (CallSetPlaybackRate speed)
    (upd_state_env (set_currentSpeed speed) e).

Definition setVolume (volume : number) (e : Env) : Env :=
  let clamped := clamp01 volume in
  let e1 := engine_call (CallSetVolume clamped) e in
  if positive clamped
  then upd_state_env (fun s => set_isMuted false (set_previousVolume clamped s)) e1
  else e1.

Definition toggleMute (e : Env) : Env :=
  if isMuted (state (inst e)) then
    let e1 := engine_call (CallSetVolume (previousVolume (state (inst e)))) e in
    let e2 := upd_state_env (set_isMuted false) e1 in
    with_world (announceToScreenReader "Unmuted") e2
  else
    let v := orNumber (option_map eng_volume (wavesurfer (inst e))) 1 in
    let e1 := upd_state_env (set_previousVolume v) e in
    let e2 := engine_call (CallSetVolume 0) e1 in
    let e3 := upd_state_env (set_isMuted true) e2 in
    with_world (announceToScreenReader "Muted") e3.

Definition announce (message : string) : Env -> Env :=
  with_world (announceToScreenReader message).

(** ** The live player object

    The [player] object is a table of methods over the closure state.
    Plugins rebind [setSpeed], [skipForward] and [skipBack] on it, so these
    three are fields holding functions; the other methods are never
    reassigned anywhere in the repository and stay the definitions above.
    Subscriptions made with [wavesurfer.on(name, handler)] are kept beside
    the method table. *)

Record Methods : Type := mkMethods {
  m_setSpeed : number -> Env -> Env;
  m_skipForward : option number -> Env -> Env;
  m_skipBack : option number -> Env -> Env
}.

(** A plugin once registered: what [destroy] still needs of it. *)
Record RegisteredPlugin : Type := mkRegisteredPlugin {
  reg_name : string;
  reg_destroy : option (Env -> Env)
}.

Definition eventName (ev : EngineEvent) : string :=
  match ev with
  | EvReady => "ready"
  | EvPlay => "play"
  | EvPause => "pause"
  | EvFinish => "finish"
  | EvSeeking => "seeking"
  | EvAudioprocess => "audioprocess"
  | EvError => "error"
  end.

Record Player : Type := mkPlayer {
  methods : Methods;
  plugins : list RegisteredPlugin;
  handlers : list (string * (Env -> Env));
  env : Env
}.

Record WCAudioPlayerPlugin : Type := mkPlugin {
  plugin_name : string;
  plugin_init : Player -> Player;
  plugin_destroy : option (Env -> Env)
}.

Definition set_env (e : Env) (p : Player) : Player :=
  mkPlayer (methods p) (plugins p) (handlers p) e.

Definition upd_env (f : Env -> Env) (p : Player) : Player :=
  mkPlayer (methods p) (plugins p) (handlers p) (f (env p)).

Definition set_methods (m : Methods) (p : Player) : Player :=
  mkPlayer m (plugins p) (handlers p) (env p).

Definition set_handlers (h : list (string * (Env -> Env))) (p : Player)
  : Player :=
  mkPlayer (methods p) (plugins p) h (env p).

(** [wavesurfer.on(name, handler)]. *)
Definition on (name : string) (handler : Env -> Env) (p : Player) : Player :=
  set_handlers (handlers p ++ [(name, handler)]) p.

(** The engine emits [ev]: the handlers subscribed to it run in
    subscription order.  An absent engine emits nothing. *)
Definition emit (ev : EngineEvent) (p : Player) : Player :=
  match wavesurfer (inst (env p)) with
  | None => p
  | Some _ =>
      upd_env
        (fun e =>
           fold_left
             (fun acc h =>
                if String.eqb (fst h) (eventName ev) then snd h acc else acc)
             (handlers p) e) p
  end.

Definition baseMethods : Methods :=
  mkMethods setSpeed skipForward skipBack.

(** [cycleSpeed]: [this.setSpeed] is looked up in the method table.  With
    an empty options array the source computes the index [NaN] and stores
    [undefined] as speed, which the number model does not hold: [None]. *)
Definition cycleSpeed (p : Player) : option Player :=
  let options := rspeed_options (speedConfig (inst (env p))) in
  let currentIndex := indexOf options (currentSpeed (state (inst (env p)))) in
  match options with
  | [] => None
  | _ :: _ =>
      let nextIndex :=
        Z.rem (currentIndex + 1) (Z.of_nat (List.length options)) in
      match at_index options nextIndex with
      | Some speed => Some (upd_env (m_setSpeed (methods p) speed) p)
      | None => None
      end
  end.

Definition use (plugin : WCAudioPlayerPlugin) (p : Player) : Player :=
  plugin_init plugin
    (mkPlayer (methods p)
       (plugins p ++ [mkRegisteredPlugin (plugin_name plugin)
                        (plugin_destroy plugin)])
       (handlers p) (env p)).

Definition run_cleanup (fn : CleanupFn) (e : Env) : Env :=
  match fn with
  | CleanupNoop => e
  | CleanupKeydown => with_inst (set_keydownListener None) e
  end.

(** [destroy].  The subscriptions go with the engine they were made on. *)
Definition destroy (p : Player) : Player :=
  let e0 := env p in
  let e1 := fold_left (fun e fn => run_cleanup fn e) (cleanupFns (inst e0)) e0 in
  let e2 :=
    fold_left
      (fun e plugin =>
         match reg_destroy plugin with
         | Some d => d e
         | None => e
         end) (plugins p) e1 in
  let e3 := with_inst (set_wavesurfer None) (engine_call CallDestroy e2) in
  let e4 := with_world cleanupAnnouncer e3 in
  let e5 :=
    with_world
      (classList_remove (container (inst e4)) "wc-audio-player--initialized")
      e4 in
  let e6 := with_inst (invoke (OnError "Player destroyed")) e5 in
  mkPlayer (methods p) (plugins p) [] e6.

(** ** Engine events ([setupWavesurferEvents]) *)

(** [ws.getDuration()] and [ws.getCurrentTime()] inside a handler; the
    handlers only run while the engine is bound. *)
Definition ws_read (f : AudioEngine -> number) (e : Env) : number :=
  match wavesurfer (inst e) with
  | Some ws => f ws
  | None => 0
  end.

Definition onReadyHandler (e : Env) : Env :=
  let e1 := upd_state_env (set_isReady true) e in
  let e2 := upd_state_env (set_duration (ws_read eng_duration e1)) e1 in
  with_inst (invoke OnReady) e2.

Definition onPlayHandler (e : Env) : Env :=
  with_inst (invoke OnPlay) (upd_state_env (set_isPlaying true) e).

Definition onPauseHandler (e : Env) : Env :=
  let e1 := upd_state_env (set_isPlaying false) e in
  let e2 := upd_state_env (set_currentTime (ws_read eng_currentTime e1)) e1 in
  with_inst (invoke (OnPause (currentTime (state (inst e2))))) e2.

Definition onFinishHandler (e : Env) : Env :=
  with_inst (invoke OnFinish) (upd_state_env (set_isPlaying false) e).

Definition onSeekingHandler (e : Env) : Env :=
  let e1 := upd_state_env (set_currentTime (ws_read eng_currentTime e)) e in
  with_inst (invoke (OnSeek (currentTime (state (inst e1))))) e1.

Definition onAudioprocessHandler (e : Env) : Env :=
  upd_state_env (set_currentTime (ws_read eng_currentTime e)) e.

Definition onErrorHandler (e : Env) : Env :=
  with_inst (invoke (OnError "error")) e.

Definition setupWavesurferEvents (p : Player) : Player :=
  on "error" onErrorHandler
    (on "audioprocess" onAudioprocessHandler
       (on "seeking" onSeekingHandler
          (on "finish" onFinishHandler
             (on "pause" onPauseHandler
                (on "play" onPlayHandler
                   (on "ready" onReadyHandler p)))))).

(** ** Keyboard shortcuts ([keyboard.ts]) *)

Definition isInputFocused (w : World) : bool :=
  match activeElement w with
  | None => false
  | Some el =>
      includes ["INPUT"; "TEXTAREA"; "SELECT"]%string (tagName el)
      || isContentEditable el
  end.

Definition getSpeedOptions (p : Player) : list number :=
  match opt_speed (options (inst (env p))) with
  | Some (FeatureObject c) =>
      match speed_options c with
      | Some l => l
      | None => DEFAULT_SPEED_OPTIONS
      end
  | _ => DEFAULT_SPEED_OPTIONS
  end.

Definition getSpeedIndex (p : Player) : Z :=
  let options := getSpeedOptions p in
  let current := currentSpeed (state (inst (env p))) in
  let index := indexOf options current in
  if (0 <=? index)%Z then index else indexOf options 1.

(** A player method called on the live object.  [None] stands for a call
    with [undefined] where the model needs a number. *)
Definition call_setSpeed (speed : option number) (p : Player) : Player :=
  match speed with
  | Some s => upd_env (m_setSpeed (methods p) s) p
  | None => p
  end.

(** [handleKeyDown] over a configuration whose key lists are all
    populated: the player after the key event and whether
    [e.preventDefault()] was called. *)
Definition handleKeyDown (cfg : RequiredKeyboardConfig) (key : string)
  (p : Player) : Player * bool :=
  if isInputFocused (world (env p)) then (p, false)
  else if
    match wavesurfer (inst (env p)) with
    | None => true
    | Some _ => negb (isReady (state (inst (env p))))
    end
  then (p, false)
  else if includes (rkb_playPause cfg) key then
    (upd_env playPause p, true)
  else if includes (rkb_skipBack cfg) key then
    (upd_env (m_skipBack (methods p) None) p, true)
  else if includes (rkb_skipForward cfg) key then
    (upd_env (m_skipForward (methods p) None) p, true)
  else if includes (rkb_speedUp cfg) key then
    let currentIndex := getSpeedIndex p in
    if (currentIndex <? Z.of_nat (List.length (getSpeedOptions p)) - 1)%Z
    then (call_setSpeed (at_index (getSpeedOptions p) (currentIndex + 1)) p,
          true)
    else (p, true)
  else if includes (rkb_speedDown cfg) key then
    let currentIndex := getSpeedIndex p in
    if (0 <? currentIndex)%Z
    then (call_setSpeed (at_index (getSpeedOptions p) (currentIndex - 1)) p,
          true)
    else (p, true)
  else if includes (rkb_mute cfg) key then
    (upd_env toggleMute p, true)
  else if includes (rkb_jumpStart cfg) key then
    (upd_env (fun e => announce "Jumped to start" (seekTo 0 e)) p, true)
  else if includes (rkb_jumpEnd cfg) key then
    (upd_env
       (fun e => announce "Jumped to end" (pause (seekTo (999 # 1000) e))) p,
     true)
  else (p, false).

(** The key lists as the listener gets to read them.  It tests the
    lists in the order given; [includes] read off a list that is
    [undefined] throws a TypeError, which ends the listener before
    anything is dispatched or prevented.  So a list at or behind the first
    [undefined] one matches no key. *)
Fixpoint readableLists (lists : list (option (list string)))
  : list (list string) :=
  match lists with
  | [] => []
  | Some l :: rest => l :: readableLists rest
  | None :: rest => [] :: map (fun _ => []) rest
  end.

Definition listenerConfig (cfg : NormalizedKeyboardConfig)
  : RequiredKeyboardConfig :=
  let lists :=
    readableLists
      [nkb_playPause cfg; nkb_skipBack cfg; nkb_skipForward cfg;
       nkb_speedUp cfg; nkb_speedDown cfg; nkb_mute cfg;
       nkb_jumpStart cfg; nkb_jumpEnd cfg] in
  {| rkb_enabled := truthyFlag (nkb_enabled cfg);
     rkb_playPause := nth 0 lists [];
     rkb_skipBack := nth 1 lists [];
     rkb_skipForward := nth 2 lists [];
     rkb_speedUp := nth 3 lists [];
     rkb_speedDown := nth 4 lists [];
     rkb_mute := nth 5 lists [];
     rkb_jumpStart := nth 6 lists [];
     rkb_jumpEnd := nth 7 lists [];
     rkb_showHints := truthyFlag (nkb_showHints cfg) |}.

(** [setupKeyboardShortcuts]: attaches the listener unless
    [normalizedConfig.enabled] is falsy and returns the cleanup
    function. *)
Definition setupKeyboardShortcuts (config : Feature KeyboardConfig)
  (p : Player) : Player * CleanupFn :=
  let normalizedConfig := normalizeKeyboardConfig config in
  if negb (truthyFlag (nkb_enabled normalizedConfig)) then (p, CleanupNoop)
  else
    (upd_env (with_inst (set_keydownListener (Some normalizedConfig))) p,
     CleanupKeydown).

(** A keydown event on the document reaches the listener of the player,
    when one is attached. *)
Definition keydown (key : string) (p : Player) : Player * bool :=
  match keydownListener (inst (env p)) with
  | Some normalizedConfig =>
      handleKeyDown (listenerConfig normalizedConfig) key p
  | None => (p, false)
  end.

(** ** Construction ([createPlayer], [initializePlayer]) *)

Definition resolveContainer (c : ContainerArg) (w : World) : option nat :=
  match c with
  | ContainerSelector selector => option_map node (querySelector w selector)
  | ContainerElement n => Some n
  end.

(** The closure [createPlayer] builds before it calls
    [initializePlayer]: the engine reference is still [null]. *)
Definition newPlayer (opts : WCAudioPlayerOptions) (container : nat)
  (w : World) : Player :=
  let speedConfig := normalizeSpeedConfig (mergedFeature (opt_speed opts)) in
  let skipConfig := normalizeSkipConfig (mergedFeature (opt_skip opts)) in
  let state :=
    set_currentSpeed (rspeed_defaultSpeed speedConfig) createInitialState in
  mkPlayer baseMethods [] []
    (mkEnv
       (mkInstance state None container opts speedConfig skipConfig
          [] None [])
       w).

(** The keyboard step of [initializePlayer]:
    [if (features.keyboard) cleanupFns.push(setupKeyboardShortcuts(player,
    features.keyboard))].  The condition is a truthiness test, so neither
    [false] nor [undefined] sets the listener up. *)
Definition initKeyboard (p : Player) : Player :=
  match mergedFeature (opt_keyboard (options (inst (env p)))) with
  | FeatureFalse | FeatureUndefined => p
  | keyboard =>
      let (p', cleanup) := setupKeyboardShortcuts keyboard p in
      upd_env
        (with_inst (fun i => set_cleanupFns (cleanupFns i ++ [cleanup]) i)) p'
  end.

(** [initializePlayer] once the peaks, if any, have been awaited: the
    engine is created and bound, the event handlers and the keyboard
    listener are set up, the container is marked.  [peaks] is the duration
    [length / sample_rate] of the peaks file when one was loaded.  The
    discovery and binding of the control elements is rendering and left
    out. *)
Definition initializePlayer (peaks : option number) (p : Player) : Player :=
  let ws :=
    match peaks with
    | Some d =>
        mkAudioEngine false 0 d (eng_volume WaveSurfer_create)
          (eng_playbackRate WaveSurfer_create) []
    | None => WaveSurfer_create
    end in
  let p1 := upd_env (with_inst (set_wavesurfer (Some ws))) p in
  let p2 := setupWavesurferEvents p1 in
  let p3 := initKeyboard p2 in
  upd_env
    (fun e =>
       with_world
         (classList_add (container (inst e)) "wc-audio-player--initialized")
         e) p3.

(** [if (options.peaksUrl)]: an absent URL and the empty string are
    falsy. *)
Definition hasPeaksUrl (opts : WCAudioPlayerOptions) : bool :=
  match opt_peaksUrl opts with
  | Some url => negb (String.eqb url EmptyString)
  | None => false
  end.

(** [createPlayer]; [None] is the thrown "Container element not found".
    [initializePlayer] is an async function called without [await]: it
    runs up to its first [await], the fetch of the peaks.  Without a
    truthy [peaksUrl] there is none and the player is returned
    initialized; with one the player is returned with the engine
    reference still absent, and [initializePlayer] completes later. *)
Definition createPlayer (opts : WCAudioPlayerOptions) (w : World)
  : option Player :=
  match resolveContainer (opt_container opts) w with
  | None => None
  | Some container =>
      if hasPeaksUrl opts
      then Some (newPlayer opts container w)
      else Some (initializePlayer None (newPlayer opts container w))
  end.

(** ** Analytics plugin ([analytics.ts]) *)

Fixpoint lookupVars (closure : nat) (l : list (nat * AnalyticsVars))
  : AnalyticsVars :=
  match l with
  | [] => initialAnalyticsVars
  | (k, v) :: l' => if Nat.eqb k closure then v else lookupVars closure l'
  end.

Definition getVars (closure : nat) (w : World) : AnalyticsVars :=
  lookupVars closure (analyticsVars w).

Definition setVars (closure : nat) (v : AnalyticsVars) (w : World) : World :=
  set_analyticsVars ((closure, v) :: analyticsVars w) w.

(** [track]: the tracker variable of the closure is read at call time;
    without a tracker the event goes to [devLog]. *)
Definition track (closure : nat) (event : string) (data : option number)
  (w : World) : World :=
  push_tracked (mkTrackCall (av_tracker (getVars closure w)) event data) w.

(** [Math.round]. *)
Definition Math_round (x : number) : number :=
  inject_Z (Qfloor (x + (1 # 2))).

Definition analyticsOnPlay (closure : nat) (e : Env) : Env :=
  let v := getVars closure (world e) in
  if av_hasTrackedPlay v then e
  else
    with_world
      (fun w =>
         track closure "play" None
           (setVars closure
              (mkAnalyticsVars (av_hasTrackedView v) true
                 (av_hasTrackedComplete v) (av_tracker v)) w)) e.

Definition analyticsOnPause (closure : nat) (e : Env) : Env :=
  with_world
    (track closure "pause" (Some (Math_round (getCurrentTime e)))) e.

Definition analyticsOnFinish (closure : nat) (e : Env) : Env :=
  let v := getVars closure (world e) in
  if av_hasTrackedComplete v then e
  else
    with_world
      (fun w =>
         track closure "complete" None
           (setVars closure
              (mkAnalyticsVars (av_hasTrackedView v) (av_hasTrackedPlay v)
                 true (av_tracker v)) w)) e.

(** The three rebinding steps of [init]. *)
Definition wrapSetSpeed (closure : nat) (m : Methods) : Methods :=
  let originalSetSpeed := m_setSpeed m in
  mkMethods
    (fun speed e =>
       with_world (track closure "speed_change" (Some speed))
         (originalSetSpeed speed e))
    (m_skipForward m) (m_skipBack m).

Definition wrapSkip (closure : nat) (m : Methods) : Methods :=
  let originalSkipForward := m_skipForward m in
  let originalSkipBack := m_skipBack m in
  mkMethods (m_setSpeed m)
    (fun seconds e =>
       with_world (track closure "skip_forward" (Some (orNumber seconds 15)))
         (originalSkipForward seconds e))
    (fun seconds e =>
       with_world (track closure "skip_back" (Some (orNumber seconds 15)))
         (originalSkipBack seconds e)).

Definition hasEngine (p : Player) : bool :=
  match wavesurfer (inst (env p)) with
  | Some _ => true
  | None => false
  end.

(** [init], statement by statement. *)

(** [tracker = normalizedConfig.tracker || detectTracker()] *)
Definition initTracker (closure : nat) (cfg : NormalizedAnalyticsConfig)
  (p : Player) : Player :=
  upd_env
    (with_world
       (fun w =>
          let v := getVars closure w in
          setVars closure
            (mkAnalyticsVars (av_hasTrackedView v) (av_hasTrackedPlay v)
               (av_hasTrackedComplete v)
               (match ran_tracker cfg with
                | Some t => Some t
                | None => detectedTracker w
                end)) w)) p.

(** Track page view (once per page load). *)
Definition initView (closure : nat) (cfg : NormalizedAnalyticsConfig)
  (p : Player) : Player :=
  if ran_trackView cfg
     && negb (av_hasTrackedView (getVars closure (world (env p))))
  then
    upd_env
      (with_world
         (fun w =>
            let v := getVars closure w in
            track closure "episode_view" None
              (setVars closure
                 (mkAnalyticsVars true (av_hasTrackedPlay v)
                    (av_hasTrackedComplete v) (av_tracker v)) w))) p
  else p.

(** Track play events, pause events, completion. *)
Definition initPlay (closure : nat) (cfg : NormalizedAnalyticsConfig)
  (p : Player) : Player :=
  if ran_trackPlay cfg && hasEngine p
  then on "play" (analyticsOnPlay closure) p else p.

Definition initPause (closure : nat) (cfg : NormalizedAnalyticsConfig)
  (p : Player) : Player :=
  if ran_trackPause cfg && hasEngine p
  then on "pause" (analyticsOnPause closure) p else p.

Definition initComplete (closure : nat) (cfg : NormalizedAnalyticsConfig)
  (p : Player) : Player :=
  if ran_trackComplete cfg && hasEngine p
  then on "finish" (analyticsOnFinish closure) p else p.

(** Extend player with tracking methods for speed/skip. *)
Definition initSpeedChange (closure : nat) (cfg : NormalizedAnalyticsConfig)
  (p : Player) : Player :=
  if ran_trackSpeedChange cfg
  then set_methods (wrapSetSpeed closure (methods p)) p else p.

Definition initSkip (closure : nat) (cfg : NormalizedAnalyticsConfig)
  (p : Player) : Player :=
  if ran_trackSkip cfg
  then set_methods (wrapSkip closure (methods p)) p else p.

Definition analyticsInit (closure : nat) (cfg : NormalizedAnalyticsConfig)
  (p : Player) : Player :=
  if negb (ran_enabled cfg) then p
  else
    initSkip closure cfg
      (initSpeedChange closure cfg
         (initComplete closure cfg
            (initPause closure cfg
               (initPlay closure cfg
                  (initView closure cfg
                     (initTracker closure cfg p)))))).

Definition analyticsDestroy (closure : nat) (e : Env) : Env :=
  with_world
    (fun w =>
       let v := getVars closure w in
       setVars closure
         (mkAnalyticsVars (av_hasTrackedView v) (av_hasTrackedPlay v)
            (av_hasTrackedComplete v) None) w) e.

(** [analyticsPlugin(config)]; [closure] names the closure the call
    creates. *)
Definition analyticsPlugin (closure : nat) (config : Feature AnalyticsConfig)
  : WCAudioPlayerPlugin :=
  mkPlugin "analytics"
    (analyticsInit closure (normalizeAnalyticsConfig config))
    (Some (analyticsDestroy closure)).

(** ** Time utilities ([time.ts]) *)

(** [x % m] on numbers: the quotient is truncated towards zero, so the
    remainder has the sign of the dividend. *)
Definition Qtrunc (x : number) : Z :=
  if Qle_bool 0 x then Qfloor x else Qceiling x.

Definition js_rem (x m : number) : number :=
  x - m * inject_Z (Qtrunc (x / m)).

(** [String(n)] for a natural number [n]: its decimal digits.  (From
    10^21 on JavaScript prints an exponent.) *)
Definition String_of_nat (n : Z) : string :=
  NilEmpty.string_of_uint (N.to_uint (Z.to_N n)).

(** The argument of [formatTime] is tested with [isNaN] and [isFinite],
    so it is a number or one of the three special values. *)
Inductive jsnumber : Type :=
| NaN
| Infinity
| NegInfinity
| Finite (x : number).

(** [safeInteger]: 2^53, below which every integer is a number of the
    language and the quotients and remainders of [formatTime] are the
    exact ones.  From there on the code computes with rounded values and
    the digits printed below are those of the exact ones. *)
Definition safeInteger : number := 9007199254740992.

(** The guard [isNaN(seconds) || !isFinite(seconds) || seconds < 0]
    sends the special values and the negative numbers to ["0:00"]. *)
Definition formatTime (seconds : jsnumber) : string :=
  match seconds with
  | Finite seconds =>
      if negb (Qle_bool 0 seconds) then "0:00"%string
      else
        let hrs := Qfloor (seconds / 3600) in
        let mins := Qfloor (js_rem seconds 3600 / 60) in
        let secs := Qfloor (js_rem seconds 60) in
        let paddedMins :=
          if (0 <? hrs)%Z && (mins <? 10)%Z
          then ("0" ++ String_of_nat mins)%string
          else String_of_nat mins in
        let paddedSecs :=
          if (secs <? 10)%Z
          then ("0" ++ String_of_nat secs)%string
          else String_of_nat secs in
        if (0 <? hrs)%Z
        then
          (String_of_nat hrs ++ ":" ++ paddedMins ++ ":" ++ paddedSecs)%string
        else (String_of_nat mins ++ ":" ++ paddedSecs)%string
  | NaN | Infinity | NegInfinity => "0:00"%string
  end.

(** [s.split(sep)] for a one-character separator: the empty string splits
    into one empty part. *)
Fixpoint split (sep : ascii) (s : string) : list string :=
  match s with
  | EmptyString => [EmptyString]
  | String c rest =>
      if Ascii.eqb c sep then EmptyString :: split sep rest
      else
        match split sep rest with
        | part :: parts => String c part :: parts
        | [] => [String c EmptyString]
        end
  end.

(** [parseTime].  The conversion [Number] of a string to a number is a
    builtin of the language and a parameter here; [None] is [NaN]. *)
Definition parseTime (Number : string -> option number) (timeString : string)
  : number :=
  let parts := map Number (split ":" timeString) in
  if existsb (fun part => match part with None => true | Some _ => false end)
       parts
  then 0
  else
    match parts with
    | [Some hrs; Some mins; Some secs] => hrs * 3600 + mins * 60 + secs
    | [Some mins; Some secs] => mins * 60 + secs
    | _ => 0
    end.

(** [Number] on a string of decimal digits. *)
Definition Number_of_digits (s : string) : option number :=
  option_map (fun d => inject_Z (Z.of_N (N.of_uint d)))
    (NilEmpty.uint_of_string s).

Definition calculateProgress (currentTime duration : number) : number :=
  if negb (truthy duration) || Qle_bool duration 0 then 0
  else Qmin 100 (Qmax 0 (currentTime / duration * 100)).

Definition calculateRemaining (currentTime duration : number) : number :=
  if negb (truthy duration) || Qle_bool duration 0 then 0
  else Qmax 0 (duration - currentTime).

Definition formatTimeDisplay (currentTime duration : jsnumber) : string :=
  (formatTime currentTime ++ " / " ++ formatTime duration)%string.

(** How often the character [c] occurs in [s]. *)
Fixpoint occurrences (c : ascii) (s : string) : nat :=
  match s with
  | EmptyString => 0
  | String a rest =>
      (if Ascii.eqb a c then 1 else 0) + occurrences c rest
  end.

(** * Reference readings and example pages *)

(** The reading of the specification for a partial skip object: the
    defaults with the fields of the object overriding them, [enabled]
    resolving to [object.enabled !== false]. *)
Definition spec_normalizeSkipObject (c : SkipConfig) : RequiredSkipConfig :=
  {| rskip_enabled := notFalse (skip_enabled c);
     rskip_seconds :=
       match skip_seconds c with
       | Some seconds => seconds
       | None => DEFAULT_SKIP_SECONDS
       end |}.

(** The step of [cycleSpeed] as the specification words it: a current
    speed that is not among the options is treated as sitting at the index
    of [1], or at index [0] if [1] is absent, and the cycle advances from
    there. *)
Definition spec_cycleSpeed_next (options : list number) (current : number)
  : option number :=
  let found := indexOf options current in
  let currentIndex :=
    if (0 <=? found)%Z then found
    else if (0 <=? indexOf options 1%Q)%Z then indexOf options 1%Q else 0%Z in
  match options with
  | [] => None
  | _ :: _ =>
      at_index options
        (Z.rem (currentIndex + 1) (Z.of_nat (List.length options)))
  end.

(** The page of the README quick start, twice: two containers
    [<div class="wc-audio-player">], nothing focused, no announcer yet. *)
Definition readmePage : World :=
  mkWorld
    [mkElement 1 "DIV" "" ["wc-audio-player"%string] false;
     mkElement 2 "DIV" "" ["wc-audio-player"%string] false]
    None None 3 [] None [] [].

(** Options as in the README: a container and a [peaksUrl], every
    feature left to its default. *)
Definition readmeOptions (element : nat) : WCAudioPlayerOptions :=
  mkOptions (ContainerElement element) (Some "peaks.json"%string)
    None None None.

(** A player as [createPlayer] returns it on the README page: the peaks
    are being fetched and [initializePlayer] has not bound the engine
    yet. *)
Definition freshPlayer : Player := newPlayer (readmeOptions 1) 1 readmePage.

(** The same player once initialized, and once initialized and
    destroyed. *)
Definition readyPlayer : Player := initializePlayer None freshPlayer.

Definition destroyedPlayer : Player := destroy readyPlayer.

(** An engine with a minute of audio loaded, at position [t] and volume
    [v], and the environment of a player bound to it. *)
Definition loadedEngine (t v : number) : AudioEngine :=
  mkAudioEngine false t 60 v 1 [].

Definition boundTo (ws : AudioEngine) : Env :=
  with_inst (set_wavesurfer (Some ws)) (env freshPlayer).

(** [wavesurfer?.getVolume()] as an observation of the environment. *)
Definition engineVolume (e : Env) : option number :=
  option_map eng_volume (wavesurfer (inst e)).

(** [wavesurfer?.getCurrentTime()] and the calls the engine has received,
    as observations of the environment. *)
Definition engineTime (e : Env) : option number :=
  option_map eng_currentTime (wavesurfer (inst e)).

Definition engineCalls (e : Env) : list EngineCall :=
  match wavesurfer (inst e) with
  | Some ws => eng_calls ws
  | None => []
  end.

(** Players of one page share the [World]: [on_page w p] is the player [p]
    seeing the page as the other players left it. *)
Definition on_page (w : World) (p : Player) : Player :=
  upd_env (fun e => mkEnv (inst e) w) p.

(** Whether the shared live region is in the document. *)
Definition announcerInDocument (w : World) : bool :=
  match getElementById w ANNOUNCER_ID with
  | Some _ => true
  | None => false
  end.

(** Two players on one page, both initialized, after one announcement has
    created the shared live region; each player sees the page as the
    other left it. *)
Definition twoPlayersOn (page : World) : option (Player * Player) :=
  match createPlayer (readmeOptions 1) page with
  | None => None
  | Some a0 =>
      let a := initializePlayer None a0 in
      match createPlayer (readmeOptions 2) (world (env a)) with
      | None => None
      | Some b0 =>
          let b := upd_env (announce "Playing") (initializePlayer None b0) in
          Some (on_page (world (env b)) a, b)
      end
  end.

(** The same two containers without the class [wc-audio-player], as when
    the host page addresses them by id. *)
Definition plainPage : World :=
  mkWorld
    [mkElement 1 "DIV" "player-a" [] false;
     mkElement 2 "DIV" "player-b" [] false]
    None None 3 [] None [] [].

(** An analytics configuration naming its tracker, and the initialized
    player after two such plugins have been registered. *)
Definition trackerConfig (t : AnalyticsTracker) : Feature AnalyticsConfig :=
  FeatureObject
    (mkAnalyticsConfig KeyAbsent (KeyValue t) KeyAbsent KeyAbsent KeyAbsent
       KeyAbsent KeyAbsent KeyAbsent).

Definition twoPluginPlayer : Player :=
  use (analyticsPlugin 2 (trackerConfig 9%nat))
    (use (analyticsPlugin 1 (trackerConfig 7%nat)) readyPlayer).

(** ** The life of one player

    Everything that can happen to a player once [createPlayer] has
    returned it: the completion of [initializePlayer], an event of the
    engine, a key pressed on the page, a call of a public method, the
    registration of an analytics plugin. *)
Inductive Action : Type :=
| DoInitialize (peaks : option number)
| DoEmit (ev : EngineEvent)
| DoKeydown (key : string)
| DoPlay
| DoPause
| DoPlayPause
| DoSeekTo (progress : number)
| DoSeekToTime (seconds : number)
| DoSkipForward (seconds : option number)
| DoSkipBack (seconds : option number)
| DoSetSpeed (speed : number)
| DoCycleSpeed
| DoSetVolume (volume : number)
| DoToggleMute
| DoAnnounce (message : string)
| DoUseAnalytics (closure : nat) (config : Feature AnalyticsConfig)
| DoDestroy.

(** Methods are called on the live object, hence through the method table
    for the three a plugin may have rebound.  [cycleSpeed] on an empty
    options array is outside the number model and leaves the player as it
    is. *)
Definition step (a : Action) (p : Player) : Player :=
  match a with
  | DoInitialize peaks => initializePlayer peaks p
  | DoEmit ev => emit ev p
  | DoKeydown key => fst (keydown key p)
  | DoPlay => upd_env play p
  | DoPause => upd_env pause p
  | DoPlayPause => upd_env playPause p
  | DoSeekTo progress => upd_env (seekTo progress) p
  | DoSeekToTime seconds => upd_env (seekToTime seconds) p
  | DoSkipForward seconds => upd_env (m_skipForward (methods p) seconds) p
  | DoSkipBack seconds => upd_env (m_skipBack (methods p) seconds) p
  | DoSetSpeed speed => upd_env (m_setSpeed (methods p) speed) p
  | DoCycleSpeed =>
      match cycleSpeed p with
      | Some p' => p'
      | None => p
      end
  | DoSetVolume volume => upd_env (setVolume volume) p
  | DoToggleMute => upd_env toggleMute p
  | DoAnnounce message => upd_env (announce message) p
  | DoUseAnalytics closure config => use (analyticsPlugin closure config) p
  | DoDestroy => destroy p
  end.

Definition run (trace : list Action) (p : Player) : Player :=
  fold_left (fun q a => step a q) trace p.

Definition readyOf (p : Player) : bool := isReady (state (inst (env p))).

Definition bound (e : Env) : bool :=
  match wavesurfer (inst e) with
  | Some _ => true
  | None => false
  end.

(** A function of the environment that neither touches [isReady] nor
    binds or releases the engine. *)
Definition tame (f : Env -> Env) : Prop :=
  forall e,
    isReady (state (inst (f e))) = isReady (state (inst e))
    /\ bound (f e) = bound e.

(** The invariant of the live object: its rebindable methods, the
    [destroy] of its plugins and its subscriptions are tame, except for
    the ready handler of [setupWavesurferEvents], which is subscribed
    whenever an engine is bound. *)
Record well_formed (p : Player) : Prop := mkWellFormed {
  wf_setSpeed : forall s, tame (m_setSpeed (methods p) s);
  wf_skipForward : forall s, tame (m_skipForward (methods p) s);
  wf_skipBack : forall s, tame (m_skipBack (methods p) s);
  wf_plugins :
    Forall
      (fun r =>
         match reg_destroy r with
         | Some d => tame d
         | None => True
         end) (plugins p);
  wf_handlers :
    Forall
      (fun h =>
         (fst h = "ready"%string /\ snd h = onReadyHandler) \/ tame (snd h))
      (handlers p);
  wf_ready :
    bound (env p) = true -> In ("ready"%string, onReadyHandler) (handlers p)
}.

(** The initialized player once its engine has signalled ready, and the
    same while the user types in a text input of the page. *)
Definition loadedPlayer : Player := emit EvReady readyPlayer.

Definition searchBox : Element := mkElement 9 "INPUT" "search" [] false.

Definition typingPlayer : Player :=
  on_page
    (mkWorld (body (world (env loadedPlayer))) (Some searchBox)
       (announcerElement (world (env loadedPlayer)))
       (nextNode (world (env loadedPlayer)))
       (announced (world (env loadedPlayer)))
       (detectedTracker (world (env loadedPlayer)))
       (analyticsVars (world (env loadedPlayer)))
       (tracked (world (env loadedPlayer))))
    loadedPlayer.

(** [cycleSpeed()] called [k] times in a row. *)
Fixpoint cycleSpeedTimes (k : nat) (p : Player) : option Player :=
  match k with
  | O => Some p
  | S k' =>
      match cycleSpeed p with
      | Some p' => cycleSpeedTimes k' p'
      | None => None
      end
  end.

(** No two entries of the list are the same number. *)
Definition distinct (l : list number) : Prop :=
  forall i j x y,
    nth_error l i = Some x -> nth_error l j = Some y -> x == y -> i = j.

Fixpoint distinctb (l : list number) : bool :=
  match l with
  | [] => true
  | x :: l' => forallb (fun y => negb (Qeq_bool x y)) l' && distinctb l'
  end.

(** Whether [key] is in one of the eight key lists of the
    configuration. *)
Definition configuredKey (cfg : RequiredKeyboardConfig) (key : string) : bool :=
  includes (rkb_playPause cfg) key || includes (rkb_skipBack cfg) key
  || includes (rkb_skipForward cfg) key || includes (rkb_speedUp cfg) key
  || includes (rkb_speedDown cfg) key || includes (rkb_mute cfg) key
  || includes (rkb_jumpStart cfg) key || includes (rkb_jumpEnd cfg) key.

(** How many elements of the document carry the id of the live region. *)
Definition announcerCount (w : World) : nat :=
  List.length
    (filter (fun el => String.eqb (elementId el) ANNOUNCER_ID) (body w)).

(** The element map of [classList_remove]. *)
Definition dropClass (n : nat) (cls : string) (el : Element) : Element :=
  if Nat.eqb (node el) n
  then mkElement (node el) (tagName el) (elementId el)
         (filter (fun c => negb (String.eqb c cls)) (classList el))
         (isContentEditable el)
  else el.

(** The subscriptions [setupWavesurferEvents] makes, in order. *)
Definition coreHandlers : list (string * (Env -> Env)) :=
  [("ready"%string, onReadyHandler);
   ("play"%string, onPlayHandler);
   ("pause"%string, onPauseHandler);
   ("finish"%string, onFinishHandler);
   ("seeking"%string, onSeekingHandler);
   ("audioprocess"%string, onAudioprocessHandler);
   ("error"%string, onErrorHandler)].

(** The environment of a player configured to skip 30 seconds, bound to
    an engine at second 10 of 60. *)
Definition thirtySecondSkips : Env :=
  mkEnv
    (mkInstance (state (inst (env freshPlayer)))
       (Some (loadedEngine 10 1)) 1 (readmeOptions 1)
       (speedConfig (inst (env freshPlayer)))
       (mkRequiredSkipConfig true 30) [] None [])
    readmePage.

(** Whether a key is written with the value [undefined], and whether a
    field of a normalized configuration is populated. *)
Definition writtenUndefined {A : Type} (k : Key A) : bool :=
  match k with
  | KeyUndefined => true
  | KeyAbsent | KeyValue _ => false
  end.

Definition isPopulated {A : Type} (field : option A) : bool :=
  match field with
  | Some _ => true
  | None => false
  end.

Definition keyboardPopulated (c : NormalizedKeyboardConfig) : bool :=
  isPopulated (nkb_enabled c) && isPopulated (nkb_playPause c)
  && isPopulated (nkb_skipBack c) && isPopulated (nkb_skipForward c)
  && isPopulated (nkb_speedUp c) && isPopulated (nkb_speedDown c)
  && isPopulated (nkb_mute c) && isPopulated (nkb_jumpStart c)
  && isPopulated (nkb_jumpEnd c) && isPopulated (nkb_showHints c).

Definition keyboardWritesUndefined (c : KeyboardConfig) : bool :=
  writtenUndefined (kb_enabled c) || writtenUndefined (kb_playPause c)
  || writtenUndefined (kb_skipBack c) || writtenUndefined (kb_skipForward c)
  || writtenUndefined (kb_speedUp c) || writtenUndefined (kb_speedDown c)
  || writtenUndefined (kb_mute c) || writtenUndefined (kb_jumpStart c)
  || writtenUndefined (kb_jumpEnd c) || writtenUndefined (kb_showHints c).

Definition analyticsFlagsPopulated (c : NormalizedAnalyticsConfig) : bool :=
  isPopulated (nac_trackView c) && isPopulated (nac_trackPlay c)
  && isPopulated (nac_trackPause c) && isPopulated (nac_trackComplete c)
  && isPopulated (nac_trackSpeedChange c) && isPopulated (nac_trackSkip c).

Definition analyticsWritesUndefined (c : AnalyticsConfig) : bool :=
  writtenUndefined (an_trackView c) || writtenUndefined (an_trackPlay c)
  || writtenUndefined (an_trackPause c)
  || writtenUndefined (an_trackComplete c)
  || writtenUndefined (an_trackSpeedChange c)
  || writtenUndefined (an_trackSkip c).

(** The keyboard object [{ enabled: undefined }] and the analytics object
    [{ trackPlay: undefined }]. *)
Definition keyboardEnabledUndefined : KeyboardConfig :=
  mkKeyboardConfig KeyUndefined KeyAbsent KeyAbsent KeyAbsent KeyAbsent
    KeyAbsent KeyAbsent KeyAbsent KeyAbsent KeyAbsent.

Definition analyticsTrackPlayUndefined : AnalyticsConfig :=
  mkAnalyticsConfig KeyAbsent KeyAbsent KeyAbsent KeyUndefined KeyAbsent
    KeyAbsent KeyAbsent KeyAbsent.

(** The keyboard object [{ playPause: undefined }], and a ready player
    created with it on the README page. *)
Definition keyboardPlayPauseUndefined : KeyboardConfig :=
  mkKeyboardConfig KeyAbsent KeyUndefined KeyAbsent KeyAbsent KeyAbsent
    KeyAbsent KeyAbsent KeyAbsent KeyAbsent KeyAbsent.

Definition playPauseUndefinedPlayer : Player :=
  emit EvReady
    (initializePlayer None
       (newPlayer
          (mkOptions (ContainerElement 1) None
             (Some (FeatureObject keyboardPlayPauseUndefined)) None None)
          1 readmePage)).

(** The README player with an analytics plugin reporting to tracker 7. *)
Definition trackedPlayer : Player :=
  use (analyticsPlugin 1 (trackerConfig 7%nat)) readyPlayer.

(** * Properties *)

(** ** Configuration normalizers *)

Lemma isPopulated_spread {A : Type} (d : A) (k : Key A) :
  isPopulated (spread d k) = negb (writtenUndefined k).
Proof. destruct k; reflexivity. Qed.

(** C3, as stated, fails: in [{ enabled: true, seconds: 0 }] the field
    [seconds] does not override the default, the normalizer returns 15;
    the analytics record of [true] has no [tracker]; and the keyboard
    normalizer, a plain spread, copies [enabled: undefined] instead of
    resolving it to [undefined !== false], as the analytics normalizer
    copies [trackPlay: undefined]. *)
Lemma normalizeSkipConfig_zero_not_overriding :
  rskip_seconds
    (normalizeSkipConfig (FeatureObject (mkSkipConfig (Some true) (Some 0))))
  == 15
  /\ ~ rskip_seconds
        (normalizeSkipConfig
           (FeatureObject (mkSkipConfig (Some true) (Some 0))))
      == rskip_seconds
           (spec_normalizeSkipObject (mkSkipConfig (Some true) (Some 0)))
  /\ ran_tracker (normalizeAnalyticsConfig FeatureTrue) = None
  /\ nkb_enabled
       (normalizeKeyboardConfig (FeatureObject keyboardEnabledUndefined))
     = None
  /\ notFalse (readKey (kb_enabled keyboardEnabledUndefined)) = true
  /\ nac_trackPlay
       (normalizeAnalyticsConfig (FeatureObject analyticsTrackPlayUndefined))
     = None.
Proof.
  cbn. split; [reflexivity|]. split; [intros H; discriminate H|].
  repeat split; reflexivity.
Qed.

(** C3 (amended): the four normalizers follow the three-way rule.  [false]
    gives the defaults with [enabled] false; [true] and [undefined] give
    the defaults with [enabled] true.  An object gives the defaults
    overridden key by key, where
    - speed and skip read the keys: [enabled] is
      [object.enabled !== false], and a [defaultSpeed] or [seconds] of
      zero is replaced by the default;
    - keyboard is a plain spread: every key the object has replaces the
      default, [enabled] included (no [!== false]), and a key written
      [undefined] leaves its field [undefined], so the listener is set up
      only when [enabled] is absent or [true];
    - analytics is a spread followed by
      [enabled = (object.enabled !== false)]: a tracking flag written
      [undefined] stays [undefined].
    Every field of the result is populated but the analytics [tracker],
    which is absent unless the object supplies one, and the keyboard
    fields and analytics flags the object writes as [undefined]. *)
Theorem normalizers_three_way_rule :
  (normalizeSpeedConfig FeatureFalse
     = mkRequiredSpeedConfig false DEFAULT_SPEED_OPTIONS 1
   /\ normalizeSkipConfig FeatureFalse
     = mkRequiredSkipConfig false DEFAULT_SKIP_SECONDS
   /\ normalizeKeyboardConfig FeatureFalse
     = mkNormalizedKeyboardConfig (Some false)
         (Some (rkb_playPause DEFAULT_KEYBOARD_CONFIG))
         (Some (rkb_skipBack DEFAULT_KEYBOARD_CONFIG))
         (Some (rkb_skipForward DEFAULT_KEYBOARD_CONFIG))
         (Some (rkb_speedUp DEFAULT_KEYBOARD_CONFIG))
         (Some (rkb_speedDown DEFAULT_KEYBOARD_CONFIG))
         (Some (rkb_mute DEFAULT_KEYBOARD_CONFIG))
         (Some (rkb_jumpStart DEFAULT_KEYBOARD_CONFIG))
         (Some (rkb_jumpEnd DEFAULT_KEYBOARD_CONFIG))
         (Some (rkb_showHints DEFAULT_KEYBOARD_CONFIG))
   /\ normalizeAnalyticsConfig FeatureFalse
     = mkNormalizedAnalyticsConfig false None (Some true) (Some true)
         (Some true) (Some true) (Some true) (Some true))
  /\
  (normalizeSpeedConfig FeatureTrue
     = mkRequiredSpeedConfig true DEFAULT_SPEED_OPTIONS 1
   /\ normalizeSpeedConfig FeatureUndefined
     = mkRequiredSpeedConfig true DEFAULT_SPEED_OPTIONS 1
   /\ normalizeSkipConfig FeatureTrue
     = mkRequiredSkipConfig true DEFAULT_SKIP_SECONDS
   /\ normalizeSkipConfig FeatureUndefined
     = mkRequiredSkipConfig true DEFAULT_SKIP_SECONDS
   /\ normalizeKeyboardConfig FeatureTrue = populated DEFAULT_KEYBOARD_CONFIG
   /\ normalizeKeyboardConfig FeatureUndefined
     = populated DEFAULT_KEYBOARD_CONFIG
   /\ rkb_enabled DEFAULT_KEYBOARD_CONFIG = true
   /\ normalizeAnalyticsConfig FeatureTrue = DEFAULT_ANALYTICS_CONFIG
   /\ normalizeAnalyticsConfig FeatureUndefined = DEFAULT_ANALYTICS_CONFIG
   /\ DEFAULT_ANALYTICS_CONFIG
     = mkNormalizedAnalyticsConfig true None (Some true) (Some true)
         (Some true) (Some true) (Some true) (Some true))
  /\
  (forall c : SpeedConfig,
      normalizeSpeedConfig (FeatureObject c)
      = mkRequiredSpeedConfig
          (notFalse (speed_enabled c))
          (match speed_options c with
           | Some options => options
           | None => DEFAULT_SPEED_OPTIONS
           end)
          (match speed_defaultSpeed c with
           | Some s => if Qeq_bool s 0 then 1 else s
           | None => 1
           end))
  /\
  (forall c : SkipConfig,
      normalizeSkipConfig (FeatureObject c)
      = mkRequiredSkipConfig
          (notFalse (skip_enabled c))
          (match skip_seconds c with
           | Some s => if Qeq_bool s 0 then DEFAULT_SKIP_SECONDS else s
           | None => DEFAULT_SKIP_SECONDS
           end))
  /\
  (forall c : KeyboardConfig,
      normalizeKeyboardConfig (FeatureObject c)
      = mkNormalizedKeyboardConfig
          (spread true (kb_enabled c))
          (spread (rkb_playPause DEFAULT_KEYBOARD_CONFIG) (kb_playPause c))
          (spread (rkb_skipBack DEFAULT_KEYBOARD_CONFIG) (kb_skipBack c))
          (spread (rkb_skipForward DEFAULT_KEYBOARD_CONFIG) (kb_skipForward c))
          (spread (rkb_speedUp DEFAULT_KEYBOARD_CONFIG) (kb_speedUp c))
          (spread (rkb_speedDown DEFAULT_KEYBOARD_CONFIG) (kb_speedDown c))
          (spread (rkb_mute DEFAULT_KEYBOARD_CONFIG) (kb_mute c))
          (spread (rkb_jumpStart DEFAULT_KEYBOARD_CONFIG) (kb_jumpStart c))
          (spread (rkb_jumpEnd DEFAULT_KEYBOARD_CONFIG) (kb_jumpEnd c))
          (spread (rkb_showHints DEFAULT_KEYBOARD_CONFIG) (kb_showHints c))
      /\ truthyFlag (nkb_enabled (normalizeKeyboardConfig (FeatureObject c)))
         = match kb_enabled c with
           | KeyAbsent | KeyValue true => true
           | KeyUndefined | KeyValue false => false
           end
      /\ keyboardPopulated (normalizeKeyboardConfig (FeatureObject c))
         = negb (keyboardWritesUndefined c))
  /\
  (forall c : AnalyticsConfig,
      normalizeAnalyticsConfig (FeatureObject c)
      = mkNormalizedAnalyticsConfig
          (notFalse (readKey (an_enabled c)))
          (readKey (an_tracker c))
          (spread true (an_trackView c))
          (spread true (an_trackPlay c))
          (spread true (an_trackPause c))
          (spread true (an_trackComplete c))
          (spread true (an_trackSpeedChange c))
          (spread true (an_trackSkip c))
      /\ analyticsFlagsPopulated (normalizeAnalyticsConfig (FeatureObject c))
         = negb (analyticsWritesUndefined c)).
Proof.
  repeat match goal with |- _ /\ _ => split end; try reflexivity.
  - intros c. destruct c as [en op ds]; cbn.
    f_equal. destruct ds as [s|]; cbn; [|reflexivity].
    unfold truthy. destruct (Qeq_bool s 0); reflexivity.
  - intros c. destruct c as [en sec]; cbn.
    f_equal. destruct sec as [s|]; cbn; [|reflexivity].
    unfold truthy. destruct (Qeq_bool s 0); reflexivity.
  - intros c. split; [reflexivity|]. split.
    + destruct c as [[| |[|]] ? ? ? ? ? ? ? ? ?]; reflexivity.
    + destruct c as [k0 k1 k2 k3 k4 k5 k6 k7 k8 k9].
      unfold keyboardPopulated, keyboardWritesUndefined. cbn.
      rewrite !isPopulated_spread, !negb_orb. reflexivity.
  - intros c. split; [reflexivity|].
    destruct c as [en tr k1 k2 k3 k4 k5 k6].
    unfold analyticsFlagsPopulated, analyticsWritesUndefined. cbn.
    rewrite !isPopulated_spread, !negb_orb. reflexivity.
Qed.

(** ** Transport without an engine *)

Lemma engine_call_absent (c : EngineCall) (e : Env) :
  wavesurfer (inst e) = None -> engine_call c e = e.
Proof. intros H. unfold engine_call. rewrite H. reflexivity. Qed.

Lemma getDuration_absent (e : Env) :
  wavesurfer (inst e) = None -> getDuration e = 0.
Proof. intros H. unfold getDuration. rewrite H. reflexivity. Qed.

Lemma getCurrentTime_absent (e : Env) :
  wavesurfer (inst e) = None -> getCurrentTime e = 0.
Proof. intros H. unfold getCurrentTime. rewrite H. reflexivity. Qed.

(** While the peaks are being fetched, the player [createPlayer] has
    returned has no engine reference. *)
Lemma createPlayer_engine_absent opts w p :
  hasPeaksUrl opts = true ->
  createPlayer opts w = Some p -> wavesurfer (inst (env p)) = None.
Proof.
  unfold createPlayer. intros ->.
  destruct (resolveContainer _ _); [|discriminate].
  intros H. injection H as <-. reflexivity.
Qed.

(** [destroy] releases the engine reference. *)
Lemma destroy_engine_absent p : wavesurfer (inst (env (destroy p))) = None.
Proof. reflexivity. Qed.

(** C1, as stated, fails: without an engine [setSpeed] and [toggleMute]
    still change the player state (and [toggleMute] announces). *)
Lemma transport_without_engine_not_all_noops :
  wavesurfer (inst (env freshPlayer)) = None /\
  setSpeed 2 (env freshPlayer) <> env freshPlayer /\
  currentSpeed (state (inst (setSpeed 2 (env freshPlayer)))) = 2 /\
  toggleMute (env freshPlayer) <> env freshPlayer /\
  isMuted (state (inst (toggleMute (env freshPlayer)))) = true /\
  announced (world (toggleMute (env freshPlayer))) = ["Muted"%string].
Proof.
  repeat split.
  - intros H.
    apply (f_equal (fun e => currentSpeed (state (inst e)))) in H.
    discriminate H.
  - intros H.
    apply (f_equal (fun e => isMuted (state (inst e)))) in H.
    discriminate H.
Qed.

(** C1 (amended): while the engine reference is absent, every transport
    operation is a total function that issues no engine call; [play],
    [pause], [playPause], [seekTo], [seekToTime], [skipForward] and
    [skipBack] leave the whole environment unchanged; [getCurrentTime] and
    [getDuration] return 0; [setSpeed], [setVolume] and [toggleMute] keep
    the engine absent but still update the player state ([currentSpeed];
    [previousVolume] and [isMuted]), and [toggleMute] announces. *)
Theorem transport_without_engine (e : Env) :
  wavesurfer (inst e) = None ->
  play e = e /\ pause e = e /\ playPause e = e
  /\ (forall progress, seekTo progress e = e)
  /\ (forall seconds, seekToTime seconds e = e)
  /\ (forall seconds, skipForward seconds e = e)
  /\ (forall seconds, skipBack seconds e = e)
  /\ getCurrentTime e = 0 /\ getDuration e = 0
  /\ (forall speed,
         setSpeed speed e = upd_state_env (set_currentSpeed speed) e)
  /\ (forall volume,
         setVolume volume e
         = if positive (clamp01 volume)
           then upd_state_env
                  (fun s =>
                     set_isMuted false (set_previousVolume (clamp01 volume) s))
                  e
           else e)
  /\ toggleMute e
     = (if isMuted (state (inst e))
        then with_world (announceToScreenReader "Unmuted")
               (upd_state_env (set_isMuted false) e)
        else with_world (announceToScreenReader "Muted")
               (upd_state_env
                  (fun s => set_isMuted true (set_previousVolume 1 s)) e))
  /\ (forall speed, wavesurfer (inst (setSpeed speed e)) = None)
  /\ (forall volume, wavesurfer (inst (setVolume volume e)) = None)
  /\ wavesurfer (inst (toggleMute e)) = None.
Proof.
  intros H.
  assert (Hd : getDuration e = 0) by (apply getDuration_absent; exact H).
  assert (Hc : forall c, engine_call c e = e)
    by (intros c; apply engine_call_absent; exact H).
  repeat match goal with |- _ /\ _ => split end.
  - apply Hc.
  - apply Hc.
  - apply Hc.
  - intros progress. apply Hc.
  - intros seconds. unfold seekToTime. rewrite Hd. reflexivity.
  - intros seconds. unfold skipForward. rewrite Hd. reflexivity.
  - intros seconds. unfold skipBack. rewrite Hd. reflexivity.
  - apply getCurrentTime_absent; exact H.
  - exact Hd.
  - intros speed. unfold setSpeed. apply engine_call_absent. exact H.
  - intros volume. unfold setVolume. rewrite Hc. reflexivity.
  - unfold toggleMute. destruct (isMuted (state (inst e))).
    + rewrite Hc. reflexivity.
    + rewrite H. cbn [option_map orNumber].
      rewrite engine_call_absent by exact H. reflexivity.
  - intros speed. unfold setSpeed.
    rewrite engine_call_absent by exact H. exact H.
  - intros volume. unfold setVolume. rewrite Hc.
    destruct (positive (clamp01 volume)); exact H.
  - unfold toggleMute. destruct (isMuted (state (inst e))).
    + rewrite Hc. exact H.
    + rewrite H. cbn [option_map orNumber].
      rewrite engine_call_absent by exact H. exact H.
Qed.

(** The theorem applies to a player whose engine [destroy] has released. *)
Lemma transport_without_engine_after_destroy :
  wavesurfer (inst (env destroyedPlayer)) = None
  /\ play (env destroyedPlayer) = env destroyedPlayer
  /\ getDuration (env destroyedPlayer) = 0.
Proof.
  pose proof (transport_without_engine (env destroyedPlayer) eq_refl) as H.
  split; [reflexivity|]. split; [apply H|]. apply H.
Defined.

(** ** setSpeed *)

(** C10: [setSpeed(s)] stores exactly [s] in [state.currentSpeed] whatever
    the configured options and whether or not an engine is bound; the rate
    is forwarded to the engine when there is one and to nothing
    otherwise; no other part of the state changes. *)
Theorem setSpeed_sets_currentSpeed (s : number) (e : Env) :
  currentSpeed (state (inst (setSpeed s e))) = s
  /\ state (inst (setSpeed s e)) = set_currentSpeed s (state (inst e))
  /\ wavesurfer (inst (setSpeed s e))
     = option_map (engine_do (CallSetPlaybackRate s)) (wavesurfer (inst e))
  /\ world (setSpeed s e) = world e
  /\ setSpeed s (with_inst (set_wavesurfer None) e)
     = upd_state_env (set_currentSpeed s) (with_inst (set_wavesurfer None) e).
Proof.
  unfold setSpeed, engine_call.
  destruct e as [[st ws ct op sc kc cl kd iv] w]; cbn.
  destruct ws; cbn; repeat split; reflexivity.
Qed.

(** A speed outside the configured options is stored as it is, also
    before the engine is bound. *)
Example setSpeed_accepts_unlisted_speed :
  currentSpeed (state (inst (setSpeed (11 # 10) (env freshPlayer))))
  = 11 # 10
  /\ indexOf (rspeed_options (speedConfig (inst (env freshPlayer)))) (11 # 10)
     = (-1)%Z
  /\ engineCalls (setSpeed (11 # 10) (env freshPlayer)) = [].
Proof. repeat split. Qed.

(** ** Mute and unmute *)

(** C2, as stated, fails at the starting volume 0: the mute reads
    [getVolume() || 1], so the unmute sets the engine volume to 1. *)
Lemma toggleMute_twice_from_zero_volume :
  engineVolume (boundTo (loadedEngine 0 0)) = Some 0
  /\ isMuted (state (inst (boundTo (loadedEngine 0 0)))) = false
  /\ engineVolume (toggleMute (boundTo (loadedEngine 0 0))) = Some 0
  /\ engineVolume (toggleMute (toggleMute (boundTo (loadedEngine 0 0))))
     = Some 1
  /\ ~ 1 == 0.
Proof.
  repeat split. intros H; discriminate H.
Qed.

(** C2 (amended): on an unmuted player bound to an engine at volume [v],
    the first [toggleMute] sets the engine volume to 0 and the second sets
    it to exactly [v] when [v] is not zero, and to 1 when [v] is zero.
    The value restored is the one the engine held at mute time: the
    [previousVolume] of the state before the mute plays no part. *)
Theorem toggleMute_twice_restores (e : Env) (ws : AudioEngine) :
  wavesurfer (inst e) = Some ws ->
  isMuted (state (inst e)) = false ->
  engineVolume (toggleMute e) = Some 0
  /\ isMuted (state (inst (toggleMute e))) = true
  /\ engineVolume (toggleMute (toggleMute e))
     = Some (if Qeq_bool (eng_volume ws) 0 then 1 else eng_volume ws)
  /\ isMuted (state (inst (toggleMute (toggleMute e)))) = false.
Proof.
  intros Hws Hm.
  destruct e as [[st w0 ct op sc kc cl kd iv] w].
  destruct st as [r pl m cs pv tm du v1 v2 v3].
  cbn in Hws, Hm. subst w0 m.
  unfold engineVolume, toggleMute; cbn -[Qeq_bool].
  unfold truthy. destruct (Qeq_bool (eng_volume ws) 0); cbn;
    repeat split; reflexivity.
Qed.

Lemma toggleMute_twice_restores_sixty_percent :
  engineVolume (toggleMute (toggleMute (boundTo (loadedEngine 0 (3 # 5)))))
  = Some (3 # 5).
Proof.
  exact (proj1 (proj2 (proj2
    (toggleMute_twice_restores (boundTo (loadedEngine 0 (3 # 5)))
       (loadedEngine 0 (3 # 5)) eq_refl eq_refl)))).
Defined.

(** ** Skipping *)

Lemma clamp01_bounds (x : number) : 0 <= clamp01 x /\ clamp01 x <= 1.
Proof.
  unfold clamp01. split.
  - apply Q.le_max_l.
  - apply Q.max_lub; [lra | apply Q.le_min_l].
Qed.

Lemma positive_true (x : number) : positive x = true -> 0 < x.
Proof.
  unfold positive. intros H. apply negb_true_iff in H.
  apply Qnot_le_lt. intros Hle. apply Qle_bool_iff in Hle. congruence.
Qed.

Lemma positive_truthy (x : number) : positive x = true -> truthy x = true.
Proof.
  intros H. apply positive_true in H. unfold truthy.
  apply negb_true_iff. destruct (Qeq_bool x 0) eqn:E; [|reflexivity].
  apply Qeq_bool_iff in E. lra.
Qed.

Lemma getDuration_bound (e : Env) (ws : AudioEngine) :
  wavesurfer (inst e) = Some ws ->
  positive (getDuration e) = positive (eng_duration ws)
  /\ (positive (eng_duration ws) = true -> getDuration e = eng_duration ws).
Proof.
  intros H. unfold getDuration. rewrite H. cbn [option_map orNumber].
  destruct (truthy (eng_duration ws)) eqn:T.
  - split; [reflexivity | intros _; reflexivity].
  - split.
    + unfold truthy in T. apply negb_false_iff in T.
      apply Qeq_bool_iff in T. unfold positive.
      assert (H0 : Qle_bool 0 0 = true) by reflexivity.
      assert (H1 : Qle_bool (eng_duration ws) 0 = true)
        by (apply Qle_bool_iff; lra).
      rewrite H0, H1. reflexivity.
    + intros P. apply positive_truthy in P. congruence.
Qed.

(** What a guarded [seekTo] does to a bound engine. *)
Lemma seekTo_bound (x : number) (e : Env) (ws : AudioEngine) :
  wavesurfer (inst e) = Some ws ->
  0 < eng_duration ws ->
  exists t p,
    engineTime (seekTo x e) = Some t /\ 0 <= t /\ t <= eng_duration ws
    /\ engineCalls (seekTo x e) = CallSeekTo p :: eng_calls ws
    /\ 0 <= p /\ p <= 1.
Proof.
  intros H Hd. destruct (clamp01_bounds x) as [Hl Hu].
  exists (eng_duration ws * clamp01 x), (clamp01 x).
  unfold seekTo, engine_call, engineTime, engineCalls. rewrite H. cbn.
  repeat split; try assumption; nra.
Qed.

(** C8, as stated, fails in its parenthesis: the new absolute time is not
    clamped to [[0, duration]] before [seekTo] is called.  At position 10
    of 60 seconds, [skipForward(-100)] computes the new time -90, below 0,
    and [skipBack(-100)] computes 110, above the duration: each method
    bounds the new time on one side only, and it is the clamp of the
    progress in [seekTo] that keeps the playback time at 0 and at 60. *)
Lemma skipForward_negative_amount :
  skipForward_newTime (Some (-100)) (boundTo (loadedEngine 10 1)) == -90
  /\ ~ 0 <= skipForward_newTime (Some (-100)) (boundTo (loadedEngine 10 1))
  /\ skipBack_newTime (Some (-100)) (boundTo (loadedEngine 10 1)) == 110
  /\ ~ skipBack_newTime (Some (-100)) (boundTo (loadedEngine 10 1))
       <= getDuration (boundTo (loadedEngine 10 1))
  /\ engineCalls (skipForward (Some (-100)) (boundTo (loadedEngine 10 1)))
     = [CallSeekTo 0]
  /\ engineTime (skipForward (Some (-100)) (boundTo (loadedEngine 10 1)))
     = Some 0
  /\ engineCalls (skipBack (Some (-100)) (boundTo (loadedEngine 10 1)))
     = [CallSeekTo 1]
  /\ engineTime (skipBack (Some (-100)) (boundTo (loadedEngine 10 1)))
     = Some 60.
Proof.
  split; [reflexivity|].
  split; [intros H; vm_compute in H; apply H; reflexivity|].
  split; [reflexivity|].
  split; [intros H; vm_compute in H; apply H; reflexivity|].
  repeat split; reflexivity.
Qed.

(** C8 (amended): whatever the skip amount and the position, [skipForward]
    and [skipBack] leave the engine at a time between 0 and the duration,
    having handed it one seek with a progress in [[0,1]].  Before [seekTo]
    is called the new absolute time is bounded on one side only, by the
    duration in [skipForward] and by 0 in [skipBack]; the clamp of the
    progress in [seekTo] holds the opposite bound.  When the duration is
    not positive, or no engine is bound, both are no-ops: nothing changes
    and the engine receives no call. *)
Theorem skip_within_bounds (seconds : option number) (e : Env) :
  match wavesurfer (inst e) with
  | None => skipForward seconds e = e /\ skipBack seconds e = e
  | Some ws =>
      if positive (eng_duration ws) then
        (exists t p,
            engineTime (skipForward seconds e) = Some t
            /\ 0 <= t /\ t <= eng_duration ws
            /\ engineCalls (skipForward seconds e)
               = CallSeekTo p :: eng_calls ws
            /\ 0 <= p /\ p <= 1)
        /\ (exists t p,
               engineTime (skipBack seconds e) = Some t
               /\ 0 <= t /\ t <= eng_duration ws
               /\ engineCalls (skipBack seconds e)
                  = CallSeekTo p :: eng_calls ws
               /\ 0 <= p /\ p <= 1)
        /\ skipForward_newTime seconds e <= eng_duration ws
        /\ 0 <= skipBack_newTime seconds e
      else skipForward seconds e = e /\ skipBack seconds e = e
  end.
Proof.
  destruct (wavesurfer (inst e)) as [ws|] eqn:H.
  - destruct (getDuration_bound e ws H) as [Hp Hd].
    destruct (positive (eng_duration ws)) eqn:P.
    + pose proof (positive_true _ P) as Hpos.
      specialize (Hd eq_refl).
      repeat match goal with |- _ /\ _ => split end.
      * unfold skipForward. rewrite Hp. apply seekTo_bound; assumption.
      * unfold skipBack. rewrite Hp. apply seekTo_bound; assumption.
      * unfold skipForward_newTime. rewrite Hd. apply Q.le_min_l.
      * apply Q.le_max_l.
    + unfold skipForward, skipBack. rewrite Hp. split; reflexivity.
  - unfold skipForward, skipBack.
    rewrite (getDuration_absent e H). split; reflexivity.
Qed.

(** ** Cycling the speed *)

Lemma setSpeed_currentSpeed (s : number) (e : Env) :
  currentSpeed (state (inst (setSpeed s e))) = s.
Proof.
  unfold setSpeed, engine_call.
  destruct e as [[st ws ct op sc kc cl kd iv] w]; cbn.
  destruct ws; reflexivity.
Qed.

Lemma indexOfFrom_range (x : number) (l : list number) (i : Z) :
  (0 <= i)%Z ->
  indexOfFrom i x l = (-1)%Z
  \/ (i <= indexOfFrom i x l < i + Z.of_nat (List.length l))%Z.
Proof.
  revert i. induction l as [|y l IH]; intros i Hi; cbn [indexOfFrom].
  - left. reflexivity.
  - destruct (Qeq_bool y x).
    + right. cbn [List.length]. lia.
    + destruct (IH (i + 1)%Z ltac:(lia)) as [E | R].
      * left. exact E.
      * right. cbn [List.length]. lia.
Qed.

Lemma indexOf_range (l : list number) (x : number) :
  (-1 <= indexOf l x < Z.of_nat (List.length l))%Z.
Proof.
  unfold indexOf.
  destruct (indexOfFrom_range x l 0%Z ltac:(lia)) as [E | R]; lia.
Qed.

(** [indexOf] finds the first entry equal to [x], and answers [-1] exactly
    when no entry is. *)
Lemma indexOfFrom_found (x : number) (l : list number) (i k : Z) :
  (0 <= i)%Z -> (0 <= k)%Z -> indexOfFrom i x l = k ->
  exists y, nth_error l (Z.to_nat (k - i)) = Some y /\ y == x
            /\ forall j z, (j < Z.to_nat (k - i))%nat ->
                           nth_error l j = Some z -> ~ z == x.
Proof.
  revert i. induction l as [|y l IH]; intros i Hi Hk; cbn [indexOfFrom].
  - intros E. lia.
  - destruct (Qeq_bool y x) eqn:Q.
    + intros <-. rewrite Z.sub_diag. exists y. cbn.
      split; [reflexivity|]. split; [apply Qeq_bool_iff; exact Q|].
      intros j z Hj. lia.
    + intros E.
      destruct (indexOfFrom_range x l (i + 1)%Z ltac:(lia)) as [E1 | R];
        [lia|].
      destruct (IH (i + 1)%Z ltac:(lia) Hk E) as [y' [Hn [Hy Hfirst]]].
      exists y'.
      replace (Z.to_nat (k - i)) with (S (Z.to_nat (k - (i + 1)))) by lia.
      cbn [nth_error]. split; [exact Hn|]. split; [exact Hy|].
      intros [|j] z Hj; cbn [nth_error].
      * intros Hz. injection Hz as <-. intros Hq.
        apply Qeq_bool_iff in Hq. congruence.
      * apply Hfirst. lia.
Qed.

Lemma indexOfFrom_absent (x : number) (l : list number) (i : Z) :
  (0 <= i)%Z ->
  (indexOfFrom i x l = (-1)%Z <-> forall y, In y l -> ~ y == x).
Proof.
  revert i. induction l as [|y l IH]; intros i Hi; cbn [indexOfFrom].
  - split; [intros _ y [] | reflexivity].
  - destruct (Qeq_bool y x) eqn:Q.
    + split; [lia|]. intros H. exfalso.
      apply (H y); [left; reflexivity | apply Qeq_bool_iff; exact Q].
    + rewrite (IH (i + 1)%Z ltac:(lia)). split.
      * intros H z [<- | Hz]; [|apply H; exact Hz].
        intros Hq. apply Qeq_bool_iff in Hq. congruence.
      * intros H z Hz. apply H. right. exact Hz.
Qed.

Lemma at_index_in_range (l : list number) (i : Z) :
  (0 <= i < Z.of_nat (List.length l))%Z ->
  exists v, at_index l i = Some v.
Proof.
  intros H. unfold at_index.
  destruct (i <? 0)%Z eqn:E; [apply Z.ltb_lt in E; lia|].
  destruct (nth_error l (Z.to_nat i)) as [v|] eqn:N; [exists v; reflexivity|].
  apply nth_error_None in N. lia.
Qed.

(** C4, as stated, fails: at the speed 1.1, absent from the default
    options, [cycleSpeed] selects the first option 0.5, where advancing
    from the index of 1 would select 1.25. *)
Lemma cycleSpeed_absent_speed_goes_to_first :
  option_map (fun p => currentSpeed (state (inst (env p))))
    (cycleSpeed (upd_env (setSpeed (11 # 10)) freshPlayer))
  = Some (1 # 2)
  /\ spec_cycleSpeed_next DEFAULT_SPEED_OPTIONS (11 # 10) = Some (5 # 4)
  /\ ~ (1 # 2) == (5 # 4).
Proof.
  split; [reflexivity|]. split; [reflexivity|]. intros H. discriminate H.
Qed.

(** C4 (amended): with a non-empty options sequence, [cycleSpeed] calls
    [setSpeed] with the entry that follows the first occurrence of
    [currentSpeed], wrapping from the last entry to the first; when
    [currentSpeed] is not among the options, [indexOf] answers [-1] and the
    first entry is selected.  It never fails. *)
Theorem cycleSpeed_next_option (p : Player) :
  rspeed_options (speedConfig (inst (env p))) <> [] ->
  exists speed,
    cycleSpeed p = Some (upd_env (m_setSpeed (methods p) speed) p)
    /\ at_index (rspeed_options (speedConfig (inst (env p))))
         (if (indexOf (rspeed_options (speedConfig (inst (env p))))
                (currentSpeed (state (inst (env p)))) + 1
              =? Z.of_nat
                   (List.length (rspeed_options (speedConfig (inst (env p))))))%Z
          then 0%Z
          else (indexOf (rspeed_options (speedConfig (inst (env p))))
                  (currentSpeed (state (inst (env p)))) + 1)%Z)
       = Some speed
    /\ ((forall y, In y (rspeed_options (speedConfig (inst (env p)))) ->
                   ~ y == currentSpeed (state (inst (env p)))) ->
        hd_error (rspeed_options (speedConfig (inst (env p)))) = Some speed)
    /\ (methods p = baseMethods ->
        currentSpeed
          (state (inst (m_setSpeed (methods p) speed (env p)))) = speed).
Proof.
  intros Hne.
  set (options := rspeed_options (speedConfig (inst (env p)))) in *.
  set (current := currentSpeed (state (inst (env p)))).
  pose proof (indexOf_range options current) as Hr.
  assert (Hlen : (0 < Z.of_nat (List.length options))%Z).
  { destruct options; [congruence | cbn [List.length]; lia]. }
  set (i := indexOf options current) in *.
  set (len := Z.of_nat (List.length options)) in *.
  assert (Hnext :
    Z.rem (i + 1) len = if (i + 1 =? len)%Z then 0%Z else (i + 1)%Z).
  { destruct (i + 1 =? len)%Z eqn:E.
    - apply Z.eqb_eq in E. rewrite E. apply Z.rem_same. lia.
    - apply Z.eqb_neq in E. apply Z.rem_small. lia. }
  assert (Hin : (0 <= Z.rem (i + 1) len < len)%Z).
  { rewrite Hnext. destruct (i + 1 =? len)%Z eqn:E; [lia|].
    apply Z.eqb_neq in E. lia. }
  destruct (at_index_in_range options _ Hin) as [speed Hs].
  exists speed. split; [|split; [|split]].
  - unfold cycleSpeed. fold options. fold current. fold i.
    destruct options as [|o os] eqn:Ho; [congruence|].
    fold len. rewrite Hs. reflexivity.
  - rewrite <- Hnext. exact Hs.
  - intros Habs.
    assert (Hi : i = (-1)%Z).
    { unfold i, indexOf. apply indexOfFrom_absent; [lia | exact Habs]. }
    rewrite Hnext, Hi in Hs. cbn [Z.add] in Hs.
    replace (-1 + 1 =? len)%Z with false in Hs
      by (symmetry; apply Z.eqb_neq; lia).
    unfold at_index in Hs. cbn in Hs.
    destruct options; [congruence | exact Hs].
  - intros Hm. rewrite Hm. cbn [m_setSpeed baseMethods].
    apply setSpeed_currentSpeed.
Qed.

Lemma cycleSpeed_wraps_from_two :
  option_map (fun p => currentSpeed (state (inst (env p))))
    (cycleSpeed (upd_env (setSpeed 2) freshPlayer))
  = Some (1 # 2).
Proof.
  destruct (cycleSpeed_next_option (upd_env (setSpeed 2) freshPlayer))
    as [speed [Hc [Hs _]]].
  - simpl. discriminate.
  - rewrite Hc. simpl in Hs. injection Hs as <-. reflexivity.
Defined.

(** ** Plugins wrapping setSpeed *)

Lemma analyticsInit_setSpeed (closure : nat) (cfg : NormalizedAnalyticsConfig)
  (p : Player) (s : number) (e : Env) :
  ran_enabled cfg = true ->
  ran_trackSpeedChange cfg = true ->
  m_setSpeed (methods (analyticsInit closure cfg p)) s e
  = with_world (track closure "speed_change" (Some s))
      (m_setSpeed (methods p) s e).
Proof.
  intros He Hs. unfold analyticsInit. rewrite He. cbn [negb].
  unfold initSkip, initSpeedChange. rewrite Hs.
  unfold initComplete, initPause, initPlay, initView, initTracker.
  repeat match goal with
         | |- context [if ?b then _ else _] => destruct b
         end; reflexivity.
Qed.

Lemma use_analytics_setSpeed closure config p s e :
  ran_enabled (normalizeAnalyticsConfig config) = true ->
  ran_trackSpeedChange (normalizeAnalyticsConfig config) = true ->
  m_setSpeed (methods (use (analyticsPlugin closure config) p)) s e
  = with_world (track closure "speed_change" (Some s))
      (m_setSpeed (methods p) s e).
Proof.
  intros He Hs. unfold use, analyticsPlugin. cbn [plugin_init].
  rewrite analyticsInit_setSpeed by assumption. reflexivity.
Qed.

(** C5: after two analytics plugins, each tracking speed changes, have
    been registered with [use], the [setSpeed] of the player is the
    wrapper of the second plugin around the wrapper of the first around
    the implementation bound before: the most recently registered wrapper
    is outermost and each wrapper chains to the implementation bound when
    it registered.  One call sets the speed once and makes each tracker
    report [speed_change] exactly once; as every wrapper tracks after it
    has chained, the first plugin reports before the second. *)
Theorem two_plugins_wrap_setSpeed (c1 c2 : nat)
  (cfg1 cfg2 : Feature AnalyticsConfig) (p : Player) (s : number) (e : Env) :
  ran_enabled (normalizeAnalyticsConfig cfg1) = true ->
  ran_trackSpeedChange (normalizeAnalyticsConfig cfg1) = true ->
  ran_enabled (normalizeAnalyticsConfig cfg2) = true ->
  ran_trackSpeedChange (normalizeAnalyticsConfig cfg2) = true ->
  m_setSpeed
    (methods (use (analyticsPlugin c2 cfg2) (use (analyticsPlugin c1 cfg1) p)))
    s e
  = with_world (track c2 "speed_change" (Some s))
      (m_setSpeed (methods (use (analyticsPlugin c1 cfg1) p)) s e)
  /\ m_setSpeed (methods (use (analyticsPlugin c1 cfg1) p)) s e
     = with_world (track c1 "speed_change" (Some s))
         (m_setSpeed (methods p) s e)
  /\ (m_setSpeed (methods p) = setSpeed ->
      tracked
        (world
           (m_setSpeed
              (methods
                 (use (analyticsPlugin c2 cfg2)
                    (use (analyticsPlugin c1 cfg1) p))) s e))
      = mkTrackCall (av_tracker (getVars c2 (world e)))
          "speed_change" (Some s)
        :: mkTrackCall (av_tracker (getVars c1 (world e)))
             "speed_change" (Some s)
        :: tracked (world e)
      /\ state
           (inst
              (m_setSpeed
                 (methods
                    (use (analyticsPlugin c2 cfg2)
                       (use (analyticsPlugin c1 cfg1) p))) s e))
         = set_currentSpeed s (state (inst e))
      /\ engineCalls
           (m_setSpeed
              (methods
                 (use (analyticsPlugin c2 cfg2)
                    (use (analyticsPlugin c1 cfg1) p))) s e)
         = match wavesurfer (inst e) with
           | Some ws => CallSetPlaybackRate s :: eng_calls ws
           | None => []
           end).
Proof.
  intros He1 Hs1 He2 Hs2.
  rewrite !use_analytics_setSpeed by assumption.
  split; [reflexivity|]. split; [reflexivity|].
  intros Hm. rewrite Hm.
  unfold setSpeed, engine_call, engineCalls.
  destruct e as [[st ws ct op sc kc cl kd iv] w]; cbn.
  destruct ws; cbn; repeat split; reflexivity.
Qed.

Lemma two_plugins_wrap_setSpeed_on_ready_player :
  tracked
    (world
       (m_setSpeed (methods twoPluginPlayer) (3 # 2) (env twoPluginPlayer)))
  = mkTrackCall (Some 9%nat) "speed_change" (Some (3 # 2))
    :: mkTrackCall (Some 7%nat) "speed_change" (Some (3 # 2))
    :: tracked (world (env twoPluginPlayer)).
Proof.
  exact (proj1 (proj2 (proj2
    (two_plugins_wrap_setSpeed 1 2 (trackerConfig 7%nat) (trackerConfig 9%nat)
       readyPlayer (3 # 2) (env twoPluginPlayer)
       eq_refl eq_refl eq_refl eq_refl))
    eq_refl)).
Defined.

(** ** Keyboard guards *)

(** C9: when the focused element is an input, a textarea, a select or
    content-editable, or when [state.isReady] is false, the keydown
    handler ignores the event whatever the key and the configured key
    lists: the player is unchanged and the default action of the event is
    not prevented. *)
Theorem keyboard_guards (cfg : RequiredKeyboardConfig) (key : string)
  (p : Player) :
  (exists el,
      activeElement (world (env p)) = Some el
      /\ (In (tagName el) ["INPUT"; "TEXTAREA"; "SELECT"]%string
          \/ isContentEditable el = true))
  \/ isReady (state (inst (env p))) = false ->
  handleKeyDown cfg key p = (p, false)
  /\ keydown key p = (p, false).
Proof.
  intros H.
  assert (G : forall c, handleKeyDown c key p = (p, false)).
  { intros c. unfold handleKeyDown.
    destruct H as [[el [Ha Hel]] | Hr].
    - assert (F : isInputFocused (world (env p)) = true).
      { unfold isInputFocused. rewrite Ha. apply orb_true_iff.
        destruct Hel as [Hin | Hce]; [left | right; exact Hce].
        cbn in Hin. cbn.
        destruct Hin as [<- | [<- | [<- | []]]]; cbn;
          rewrite ?orb_true_r; reflexivity. }
      rewrite F. reflexivity.
    - destruct (isInputFocused (world (env p))); [reflexivity|].
      rewrite Hr. destruct (wavesurfer (inst (env p))); reflexivity. }
  split; [apply G|].
  unfold keydown. destruct (keydownListener (inst (env p))); [apply G|].
  reflexivity.
Qed.

(** Without the guards the space key toggles playback; with the focus in
    a text input the same key is ignored. *)
Example keydown_space_dispatches :
  engineCalls (env (fst (keydown " " loadedPlayer))) = [CallPlayPause]
  /\ snd (keydown " " loadedPlayer) = true.
Proof. split; reflexivity. Qed.

Lemma keyboard_guards_in_text_input :
  readyOf typingPlayer = true
  /\ keydown " " typingPlayer = (typingPlayer, false).
Proof.
  split; [reflexivity|].
  apply (keyboard_guards DEFAULT_KEYBOARD_CONFIG " " typingPlayer).
  left. exists searchBox. split; [reflexivity|].
  left. left. reflexivity.
Defined.

(** ** The shared announcer *)

(** As long as the document holds an element of class [wc-audio-player],
    [cleanupAnnouncer] changes nothing. *)
Lemma cleanupAnnouncer_keeps (w : World) (el : Element) :
  In el (body w) ->
  includes (classList el) "wc-audio-player" = true ->
  cleanupAnnouncer w = w.
Proof.
  intros Hin Hcls. unfold cleanupAnnouncer.
  destruct (cachedAnnouncer w); [|reflexivity].
  unfold querySelectorAll_class.
  destruct (filter _ (body w)) as [|x l] eqn:F; [|reflexivity].
  assert (Hf : In el (filter
                        (fun el => includes (classList el) "wc-audio-player")
                        (body w)))
    by (apply filter_In; split; assumption).
  rewrite F in Hf. destruct Hf.
Qed.

(** C6 on the page of the README, two players in two containers
    [<div class="wc-audio-player">]: the shared live region is in the
    document, still there after the first player is destroyed, and still
    there after the second is destroyed too.  [destroy] neither removes
    the container nor its class, so the player being destroyed counts
    among the "other players". *)
Theorem destroy_both_keeps_announcer :
  match twoPlayersOn readmePage with
  | None => False
  | Some (a, b) =>
      announcerInDocument (world (env a)) = true
      /\ announcerInDocument (world (env (destroy a))) = true
      /\ announcerInDocument
           (world (env (destroy (on_page (world (env (destroy a))) b))))
         = true
      /\ wavesurfer (inst (env (destroy a))) = None
      /\ wavesurfer
           (inst (env (destroy (on_page (world (env (destroy a))) b))))
         = None
  end.
Proof. vm_compute. repeat split; reflexivity. Qed.

(** On a page whose containers do not carry the class, destroying the
    first of the two players already removes the shared live region. *)
Lemma destroy_one_removes_announcer_without_class :
  match twoPlayersOn plainPage with
  | None => False
  | Some (a, b) =>
      announcerInDocument (world (env a)) = true
      /\ announcerInDocument (world (env (destroy a))) = false
      /\ wavesurfer (inst (env b)) <> None
  end.
Proof. vm_compute. repeat split; try reflexivity. discriminate. Qed.

(** ** isReady *)

Ltac tame_by_cases :=
  let e := fresh "e" in
  intros e; destruct e as [[? ws ? ? ? ? ? ? ?] ?];
  unfold bound; destruct ws; cbn;
  repeat match goal with
         | |- context [if ?b then _ else _] => destruct b; cbn
         end;
  split; reflexivity.

Lemma tame_compose (f g : Env -> Env) :
  tame f -> tame g -> tame (fun e => g (f e)).
Proof.
  intros Hf Hg e. destruct (Hf e) as [F1 F2], (Hg (f e)) as [G1 G2].
  split; congruence.
Qed.

Lemma tame_engine_call c : tame (engine_call c).
Proof. unfold engine_call. tame_by_cases. Qed.

Lemma tame_with_world (g : World -> World) : tame (with_world g).
Proof. unfold with_world. tame_by_cases. Qed.

Lemma tame_play : tame play.
Proof. apply tame_engine_call. Qed.

Lemma tame_pause : tame pause.
Proof. apply tame_engine_call. Qed.

Lemma tame_playPause : tame playPause.
Proof. apply tame_engine_call. Qed.

Lemma tame_seekTo x : tame (seekTo x).
Proof. apply tame_engine_call. Qed.

Lemma tame_seekToTime x : tame (seekToTime x).
Proof.
  intros e. unfold seekToTime.
  destruct (positive (getDuration e)); [apply tame_seekTo|].
  split; reflexivity.
Qed.

Lemma tame_skipForward s : tame (skipForward s).
Proof.
  intros e. unfold skipForward.
  destruct (positive (getDuration e)); [apply tame_seekTo|].
  split; reflexivity.
Qed.

Lemma tame_skipBack s : tame (skipBack s).
Proof.
  intros e. unfold skipBack.
  destruct (positive (getDuration e)); [apply tame_seekTo|].
  split; reflexivity.
Qed.

Lemma tame_setSpeed s : tame (setSpeed s).
Proof. unfold setSpeed, engine_call, upd_state_env. tame_by_cases. Qed.

Lemma tame_setVolume v : tame (setVolume v).
Proof.
  intros e. unfold setVolume.
  destruct (tame_engine_call (CallSetVolume (clamp01 v)) e) as [H1 H2].
  destruct (positive (clamp01 v)); [|split; assumption].
  revert H1 H2. generalize (engine_call (CallSetVolume (clamp01 v)) e).
  intros e1 H1 H2. rewrite <- H1, <- H2.
  destruct e1 as [[? ws ? ? ? ? ? ? ?] ?]. unfold bound.
  destruct ws; split; reflexivity.
Qed.

Lemma tame_toggleMute : tame toggleMute.
Proof.
  intros e. unfold toggleMute.
  destruct (isMuted (state (inst e))).
  - destruct (tame_engine_call (CallSetVolume (previousVolume (state (inst e)))) e)
      as [H1 H2].
    revert H1 H2.
    generalize (engine_call (CallSetVolume (previousVolume (state (inst e)))) e).
    intros e1 H1 H2. rewrite <- H1, <- H2.
    destruct e1 as [[? ws ? ? ? ? ? ? ?] ?]. unfold bound.
    destruct ws; split; reflexivity.
  - generalize (orNumber (option_map eng_volume (wavesurfer (inst e))) 1).
    intros v.
    destruct e as [[? ws ? ? ? ? ? ? ?] ?]. unfold bound, engine_call.
    destruct ws; split; reflexivity.
Qed.

Lemma tame_announce m : tame (announce m).
Proof. apply tame_with_world. Qed.

Lemma tame_run_cleanup fn : tame (run_cleanup fn).
Proof. destruct fn; cbn [run_cleanup]; tame_by_cases. Qed.

Lemma tame_handlers :
  tame onPlayHandler /\ tame onPauseHandler /\ tame onFinishHandler
  /\ tame onSeekingHandler /\ tame onAudioprocessHandler
  /\ tame onErrorHandler.
Proof.
  repeat match goal with |- _ /\ _ => split end; tame_by_cases.
Qed.

Lemma onReadyHandler_ready e :
  isReady (state (inst (onReadyHandler e))) = true
  /\ bound (onReadyHandler e) = bound e.
Proof.
  destruct e as [[? ws ? ? ? ? ? ? ?] ?]; unfold bound.
  destruct ws; split; reflexivity.
Qed.

Lemma tame_analytics_handlers closure :
  tame (analyticsOnPlay closure) /\ tame (analyticsOnPause closure)
  /\ tame (analyticsOnFinish closure) /\ tame (analyticsDestroy closure).
Proof.
  repeat match goal with |- _ /\ _ => split end.
  - intros e. unfold analyticsOnPlay.
    destruct (av_hasTrackedPlay _); [split; reflexivity|].
    exact (tame_with_world _ e).
  - intros e. exact (tame_with_world _ e).
  - intros e. unfold analyticsOnFinish.
    destruct (av_hasTrackedComplete _); [split; reflexivity|].
    exact (tame_with_world _ e).
  - intros e. exact (tame_with_world _ e).
Qed.

(** The invariant depends on the environment only through the presence of
    the engine. *)
Lemma wf_set_env (p : Player) (e' : Env) :
  well_formed p ->
  (bound e' = true -> bound (env p) = true) ->
  well_formed (set_env e' p).
Proof.
  intros [H1 H2 H3 H4 H5 H6] Hb.
  constructor; cbn; try assumption.
  intros B. apply H6, Hb, B.
Qed.

Lemma wf_upd_env (p : Player) (f : Env -> Env) :
  well_formed p -> tame f -> well_formed (upd_env f p).
Proof.
  intros Hwf Hf. apply (wf_set_env p (f (env p)) Hwf).
  destruct (Hf (env p)) as [_ Hb]. congruence.
Qed.

Lemma ready_upd_env (p : Player) (f : Env -> Env) :
  tame f -> readyOf (upd_env f p) = readyOf p.
Proof. intros Hf. apply (Hf (env p)). Qed.

Lemma wf_on (p : Player) (name : string) (h : Env -> Env) :
  well_formed p ->
  (name = "ready"%string /\ h = onReadyHandler) \/ tame h ->
  well_formed (on name h p).
Proof.
  intros [H1 H2 H3 H4 H5 H6] Hh.
  constructor; cbn; try assumption.
  - apply Forall_app. split; [assumption|].
    constructor; [exact Hh | constructor].
  - intros B. apply in_or_app. left. apply H6, B.
Qed.

(** A wrapper of the analytics plugin only adds a tracker call, which
    touches the page alone. *)
Lemma wf_wrapSetSpeed (p : Player) (closure : nat) :
  well_formed p ->
  well_formed (set_methods (wrapSetSpeed closure (methods p)) p).
Proof.
  intros [H1 H2 H3 H4 H5 H6].
  constructor; cbn; assumption.
Qed.

Lemma wf_wrapSkip (p : Player) (closure : nat) :
  well_formed p ->
  well_formed (set_methods (wrapSkip closure (methods p)) p).
Proof.
  intros [H1 H2 H3 H4 H5 H6].
  constructor; cbn; assumption.
Qed.

Lemma wf_register (p : Player) (name : string) (d : Env -> Env) :
  well_formed p -> tame d ->
  well_formed
    (mkPlayer (methods p) (plugins p ++ [mkRegisteredPlugin name (Some d)])
       (handlers p) (env p)).
Proof.
  intros [H1 H2 H3 H4 H5 H6] Hd.
  constructor; cbn; try assumption.
  apply Forall_app. split; [assumption|].
  constructor; [exact Hd | constructor].
Qed.

(** What [use(analyticsPlugin(...))] keeps. *)
Lemma analyticsInit_keeps (closure : nat) (cfg : NormalizedAnalyticsConfig)
  (p : Player) :
  well_formed p ->
  well_formed (analyticsInit closure cfg p)
  /\ readyOf (analyticsInit closure cfg p) = readyOf p.
Proof.
  intros Hwf. unfold analyticsInit.
  destruct (negb (ran_enabled cfg)); [split; [assumption | reflexivity]|].
  destruct (tame_analytics_handlers closure) as [T1 [T2 [T3 _]]].
  assert (S1 : well_formed (initTracker closure cfg p)
               /\ readyOf (initTracker closure cfg p) = readyOf p).
  { unfold initTracker. split;
      [apply wf_upd_env; [assumption|] | apply ready_upd_env];
      apply tame_with_world. }
  revert S1. generalize (initTracker closure cfg p). intros p1 [W1 R1].
  assert (S2 : well_formed (initView closure cfg p1)
               /\ readyOf (initView closure cfg p1) = readyOf p).
  { unfold initView. destruct (_ && _); [|split; assumption].
    split; [apply wf_upd_env; [assumption|]
           | rewrite ready_upd_env; [assumption|]];
      apply tame_with_world. }
  revert S2. generalize (initView closure cfg p1). intros p2 [W2 R2].
  assert (S3 : well_formed (initPlay closure cfg p2)
               /\ readyOf (initPlay closure cfg p2) = readyOf p).
  { unfold initPlay. destruct (_ && _); [|split; assumption].
    split; [apply wf_on; [assumption | right; exact T1] | exact R2]. }
  revert S3. generalize (initPlay closure cfg p2). intros p3 [W3 R3].
  assert (S4 : well_formed (initPause closure cfg p3)
               /\ readyOf (initPause closure cfg p3) = readyOf p).
  { unfold initPause. destruct (_ && _); [|split; assumption].
    split; [apply wf_on; [assumption | right; exact T2] | exact R3]. }
  revert S4. generalize (initPause closure cfg p3). intros p4 [W4 R4].
  assert (S5 : well_formed (initComplete closure cfg p4)
               /\ readyOf (initComplete closure cfg p4) = readyOf p).
  { unfold initComplete. destruct (_ && _); [|split; assumption].
    split; [apply wf_on; [assumption | right; exact T3] | exact R4]. }
  revert S5. generalize (initComplete closure cfg p4). intros p5 [W5 R5].
  assert (S6 : well_formed (initSpeedChange closure cfg p5)
               /\ readyOf (initSpeedChange closure cfg p5) = readyOf p).
  { unfold initSpeedChange.
    destruct (ran_trackSpeedChange cfg); [|split; assumption].
    split; [apply wf_wrapSetSpeed; assumption | exact R5]. }
  revert S6. generalize (initSpeedChange closure cfg p5). intros p6 [W6 R6].
  unfold initSkip. destruct (ran_trackSkip cfg); [|split; assumption].
  split; [apply wf_wrapSkip; assumption | exact R6].
Qed.

Lemma use_analytics_keeps (closure : nat) (config : Feature AnalyticsConfig)
  (p : Player) :
  well_formed p ->
  well_formed (use (analyticsPlugin closure config) p)
  /\ readyOf (use (analyticsPlugin closure config) p) = readyOf p.
Proof.
  intros Hwf. unfold use, analyticsPlugin.
  cbn [plugin_init plugin_name plugin_destroy].
  apply (analyticsInit_keeps closure (normalizeAnalyticsConfig config)
           (mkPlayer (methods p)
              (plugins p
               ++ [mkRegisteredPlugin "analytics"
                     (Some (analyticsDestroy closure))])
              (handlers p) (env p))).
  apply wf_register; [assumption|].
  apply tame_analytics_handlers.
Qed.

Lemma eventName_ready ev : eventName ev = "ready"%string <-> ev = EvReady.
Proof. destruct ev; cbn; split; intros H; try reflexivity; discriminate H. Qed.

(** Running the handlers subscribed to [name]. *)
Lemma fold_handlers (name : string) (hs : list (string * (Env -> Env))) :
  Forall
    (fun h =>
       (fst h = "ready"%string /\ snd h = onReadyHandler) \/ tame (snd h)) hs ->
  forall e,
    let e' :=
      fold_left
        (fun acc h => if String.eqb (fst h) name then snd h acc else acc)
        hs e in
    bound e' = bound e
    /\ (isReady (state (inst e)) = true -> isReady (state (inst e')) = true)
    /\ (name <> "ready"%string ->
        isReady (state (inst e')) = isReady (state (inst e)))
    /\ (name = "ready"%string -> In ("ready"%string, onReadyHandler) hs ->
        isReady (state (inst e')) = true).
Proof.
  induction 1 as [|h hs Hh Hhs IH]; intros e; cbn [fold_left].
  - repeat split; try reflexivity; try (intros; assumption).
    intros _ [].
  - destruct (String.eqb (fst h) name) eqn:E.
    + apply String.eqb_eq in E.
      destruct (IH (snd h e)) as [B [M [S R]]].
      destruct Hh as [[Hn Hr] | Ht].
      * destruct (onReadyHandler_ready e) as [R1 R2].
        rewrite Hr in *.
        split; [congruence|]. split; [intros _; apply M, R1|].
        split; [intros Hne; congruence|].
        intros _ _. apply M, R1.
      * destruct (Ht e) as [T1 T2].
        split; [congruence|]. split; [intros Hr; apply M; congruence|].
        split; [intros Hne; rewrite (S Hne); exact T1|].
        intros Hn [Hin | Hin]; [|apply R; assumption].
        apply M. rewrite Hin. cbn [snd]. apply onReadyHandler_ready.
    + destruct (IH e) as [B [M [S R]]].
      split; [exact B|]. split; [exact M|]. split; [exact S|].
      intros Hn [Hin | Hin]; [|apply R; assumption].
      rewrite Hin in E. cbn [fst] in E. rewrite Hn in E.
      rewrite String.eqb_refl in E. discriminate E.
Qed.

Lemma emit_keeps (ev : EngineEvent) (p : Player) :
  well_formed p ->
  well_formed (emit ev p)
  /\ (readyOf p = true -> readyOf (emit ev p) = true)
  /\ (ev <> EvReady -> readyOf (emit ev p) = readyOf p)
  /\ (ev = EvReady -> bound (env p) = true -> readyOf (emit ev p) = true).
Proof.
  intros Hwf. unfold emit, bound.
  destruct (wavesurfer (inst (env p))) as [ws|] eqn:W.
  - destruct (fold_handlers (eventName ev) (handlers p) (wf_handlers p Hwf)
                (env p)) as [B [M [S R]]].
    split.
    + apply wf_set_env; [assumption|]. intros H. rewrite <- B. exact H.
    + split; [exact M|]. split.
      * intros Hne. apply S. intros Hn. apply eventName_ready in Hn.
        contradiction.
      * intros He _. apply R; [apply eventName_ready; exact He|].
        apply (wf_ready p Hwf). unfold bound. rewrite W. reflexivity.
  - split; [assumption|]. split; [intros H; exact H|].
    split; [reflexivity|]. intros _ H. discriminate H.
Qed.

Lemma wf_bind (p : Player) (ws : AudioEngine) :
  well_formed p ->
  well_formed
    (on "ready" onReadyHandler
       (upd_env (with_inst (set_wavesurfer (Some ws))) p)).
Proof.
  intros [H1 H2 H3 H4 H5 H6].
  constructor; cbn; try assumption.
  - apply Forall_app. split; [assumption|].
    constructor; [left; split; reflexivity | constructor].
  - intros _. apply in_or_app. right. left. reflexivity.
Qed.

Lemma tame_mark_container (cls : string) :
  tame (fun e => with_world (classList_add (container (inst e)) cls) e).
Proof. intros e. exact (tame_with_world _ e). Qed.

Lemma tame_attach_listener k :
  tame (with_inst (set_keydownListener k)).
Proof. tame_by_cases. Qed.

Lemma tame_push_cleanup c :
  tame (with_inst (fun i => set_cleanupFns (cleanupFns i ++ [c]) i)).
Proof. tame_by_cases. Qed.

Lemma initializePlayer_keeps (peaks : option number) (p : Player) :
  well_formed p ->
  well_formed (initializePlayer peaks p)
  /\ readyOf (initializePlayer peaks p) = readyOf p.
Proof.
  intros Hwf. unfold initializePlayer.
  set (ws := match peaks with Some d => _ | None => _ end).
  destruct tame_handlers as [T1 [T2 [T3 [T4 [T5 T6]]]]].
  assert (S2 : well_formed
                 (setupWavesurferEvents
                    (upd_env (with_inst (set_wavesurfer (Some ws))) p))
               /\ readyOf
                    (setupWavesurferEvents
                       (upd_env (with_inst (set_wavesurfer (Some ws))) p))
                  = readyOf p).
  { split; [|reflexivity]. unfold setupWavesurferEvents.
    repeat (apply wf_on; [|right; assumption]).
    apply wf_bind. exact Hwf. }
  revert S2.
  generalize (setupWavesurferEvents
                (upd_env (with_inst (set_wavesurfer (Some ws))) p)).
  intros p2 [W2 R2].
  assert (S3 : forall keyboard,
             well_formed
               (let (p', cleanup) := setupKeyboardShortcuts keyboard p2 in
                upd_env
                  (with_inst
                     (fun i => set_cleanupFns (cleanupFns i ++ [cleanup]) i))
                  p')
             /\ readyOf
                  (let (p', cleanup) := setupKeyboardShortcuts keyboard p2 in
                   upd_env
                     (with_inst
                        (fun i =>
                           set_cleanupFns (cleanupFns i ++ [cleanup]) i))
                     p')
                = readyOf p).
  { intros keyboard. unfold setupKeyboardShortcuts.
    destruct (negb (truthyFlag (nkb_enabled (normalizeKeyboardConfig keyboard)))).
    - split; [apply wf_upd_env; [assumption | apply tame_push_cleanup]|].
      rewrite ready_upd_env by apply tame_push_cleanup. exact R2.
    - split.
      + apply wf_upd_env; [|apply tame_push_cleanup].
        apply wf_upd_env; [assumption | apply tame_attach_listener].
      + rewrite ready_upd_env by apply tame_push_cleanup.
        rewrite ready_upd_env by apply tame_attach_listener. exact R2. }
  assert (S4 : well_formed (initKeyboard p2)
               /\ readyOf (initKeyboard p2) = readyOf p).
  { unfold initKeyboard.
    destruct (mergedFeature (opt_keyboard (options (inst (env p2)))));
      try apply S3; split; assumption. }
  revert S4. generalize (initKeyboard p2).
  intros p3 [W3 R3].
  split.
  - apply wf_upd_env; [assumption | apply tame_mark_container].
  - rewrite ready_upd_env by apply tame_mark_container. exact R3.
Qed.

Lemma fold_cleanups_ready (fns : list CleanupFn) (e : Env) :
  isReady (state (inst (fold_left (fun e fn => run_cleanup fn e) fns e)))
  = isReady (state (inst e)).
Proof.
  revert e. induction fns as [|fn fns IH]; intros e; cbn [fold_left].
  - reflexivity.
  - rewrite IH. apply tame_run_cleanup.
Qed.

Lemma fold_plugins_ready (ps : list RegisteredPlugin) :
  Forall
    (fun r =>
       match reg_destroy r with
       | Some d => tame d
       | None => True
       end) ps ->
  forall e,
    isReady
      (state
         (inst
            (fold_left
               (fun e plugin =>
                  match reg_destroy plugin with
                  | Some d => d e
                  | None => e
                  end) ps e)))
    = isReady (state (inst e)).
Proof.
  induction 1 as [|r ps Hr Hps IH]; intros e; cbn [fold_left].
  - reflexivity.
  - rewrite IH. destruct (reg_destroy r) as [d|]; [apply Hr | reflexivity].
Qed.

Lemma destroy_keeps (p : Player) :
  well_formed p ->
  well_formed (destroy p) /\ readyOf (destroy p) = readyOf p.
Proof.
  intros Hwf. split.
  - pose proof Hwf as [H1 H2 H3 H4 H5 H6].
    constructor; cbn; try assumption.
    + constructor.
    + intros B. discriminate B.
  - unfold readyOf, destroy. cbn [env].
    cbn [with_inst with_world invoke inst state set_wavesurfer].
    destruct (tame_engine_call CallDestroy
                (fold_left
                   (fun e plugin =>
                      match reg_destroy plugin with
                      | Some d => d e
                      | None => e
                      end) (plugins p)
                   (fold_left (fun e fn => run_cleanup fn e)
                      (cleanupFns (inst (env p))) (env p)))) as [T _].
    rewrite T.
    rewrite (fold_plugins_ready (plugins p) (wf_plugins p Hwf)).
    apply fold_cleanups_ready.
Qed.

Lemma tame_jumpStart :
  tame (fun e => announce "Jumped to start" (seekTo 0 e)).
Proof. apply (tame_compose (seekTo 0) (announce "Jumped to start")).
       - apply tame_seekTo.
       - apply tame_announce.
Qed.

Lemma tame_jumpEnd :
  tame (fun e => announce "Jumped to end" (pause (seekTo (999 # 1000) e))).
Proof.
  apply (tame_compose (fun e => pause (seekTo (999 # 1000) e))
           (announce "Jumped to end")).
  - apply (tame_compose (seekTo (999 # 1000)) pause).
    + apply tame_seekTo.
    + apply tame_pause.
  - apply tame_announce.
Qed.

Lemma handleKeyDown_keeps cfg key (p : Player) :
  well_formed p ->
  well_formed (fst (handleKeyDown cfg key p))
  /\ readyOf (fst (handleKeyDown cfg key p)) = readyOf p.
Proof.
  intros Hwf. pose proof Hwf as [H1 H2 H3 H4 H5 H6].
  unfold handleKeyDown, call_setSpeed.
  repeat match goal with
         | |- context [if ?b then _ else _] => destruct b
         | |- context [match at_index ?l ?i with _ => _ end] =>
             destruct (at_index l i)
         end;
    cbn [fst];
    first
      [ split; [assumption | reflexivity]
      | split; [apply wf_upd_env; [assumption|] | apply ready_upd_env];
        first [ apply tame_playPause | apply H1 | apply H2 | apply H3
              | apply tame_toggleMute | apply tame_jumpStart
              | apply tame_jumpEnd ] ].
Qed.

Lemma keydown_keeps key (p : Player) :
  well_formed p ->
  well_formed (fst (keydown key p))
  /\ readyOf (fst (keydown key p)) = readyOf p.
Proof.
  intros Hwf. unfold keydown.
  destruct (keydownListener (inst (env p)));
    [apply handleKeyDown_keeps; assumption|].
  split; [assumption | reflexivity].
Qed.

Lemma cycleSpeed_keeps (p : Player) :
  well_formed p ->
  well_formed (match cycleSpeed p with Some p' => p' | None => p end)
  /\ readyOf (match cycleSpeed p with Some p' => p' | None => p end)
     = readyOf p.
Proof.
  intros Hwf. unfold cycleSpeed.
  destruct (rspeed_options (speedConfig (inst (env p))));
    [split; [assumption | reflexivity]|].
  destruct (at_index _ _); [|split; [assumption | reflexivity]].
  split; [apply wf_upd_env; [assumption|] | apply ready_upd_env];
    apply (wf_setSpeed p Hwf).
Qed.

(** One step of the life of a player keeps the invariant; it keeps
    [isReady] as it is unless it is the ready event, which sets it. *)
Lemma step_keeps (a : Action) (p : Player) :
  well_formed p ->
  well_formed (step a p)
  /\ (readyOf p = true -> readyOf (step a p) = true)
  /\ (a <> DoEmit EvReady -> readyOf (step a p) = readyOf p).
Proof.
  intros Hwf.
  assert (G : forall q,
             well_formed q /\ readyOf q = readyOf p ->
             well_formed q
             /\ (readyOf p = true -> readyOf q = true)
             /\ (a <> DoEmit EvReady -> readyOf q = readyOf p)).
  { intros q [W R]. split; [exact W|]. split; [congruence|].
    intros _. exact R. }
  assert (U : forall f, tame f ->
             well_formed (upd_env f p)
             /\ readyOf (upd_env f p) = readyOf p).
  { intros f Hf.
    split; [apply wf_upd_env | apply ready_upd_env]; assumption. }
  destruct a; cbn [step];
    try (apply G;
         first [ apply initializePlayer_keeps; assumption
               | apply keydown_keeps; assumption
               | apply cycleSpeed_keeps; assumption
               | apply use_analytics_keeps; assumption
               | apply destroy_keeps; assumption
               | apply U;
                 first [ apply tame_play | apply tame_pause
                       | apply tame_playPause | apply tame_seekTo
                       | apply tame_seekToTime
                       | apply (wf_skipForward p Hwf)
                       | apply (wf_skipBack p Hwf)
                       | apply (wf_setSpeed p Hwf)
                       | apply tame_setVolume | apply tame_toggleMute
                       | apply tame_announce ] ]).
  destruct (emit_keeps ev p Hwf) as [W [M [S _]]].
  split; [exact W|]. split; [exact M|].
  intros Hne. apply S. intros He. apply Hne. rewrite He. reflexivity.
Qed.

Lemma run_app (t1 t2 : list Action) (p : Player) :
  run (t1 ++ t2) p = run t2 (run t1 p).
Proof. unfold run. apply fold_left_app. Qed.

Lemma run_keeps (trace : list Action) (p : Player) :
  well_formed p ->
  well_formed (run trace p)
  /\ (readyOf p = true -> readyOf (run trace p) = true).
Proof.
  revert p. induction trace as [|a trace IH]; intros p Hwf.
  - split; [assumption | intros H; exact H].
  - destruct (step_keeps a p Hwf) as [W [M _]].
    destruct (IH (step a p) W) as [W' M'].
    split; [exact W'|]. intros H. apply M', M, H.
Qed.

Lemma newPlayer_well_formed opts container w :
  well_formed (newPlayer opts container w)
  /\ readyOf (newPlayer opts container w) = false.
Proof.
  split; [|reflexivity].
  constructor; cbn.
  - apply tame_setSpeed.
  - apply tame_skipForward.
  - apply tame_skipBack.
  - constructor.
  - constructor.
  - intros B. discriminate B.
Qed.

Lemma createPlayer_well_formed opts w p :
  createPlayer opts w = Some p ->
  well_formed p /\ readyOf p = false.
Proof.
  unfold createPlayer.
  destruct (resolveContainer _ _) as [container|]; [|discriminate].
  destruct (newPlayer_well_formed opts container w) as [W R].
  destruct (hasPeaksUrl opts); intros H; injection H as <-.
  - split; assumption.
  - destruct (initializePlayer_keeps None _ W) as [W' R'].
    split; [exact W' | congruence].
Qed.

(** C7: for a player returned by [createPlayer] and any sequence of
    engine events, key presses, method calls, plugin registrations,
    initialization and destruction: [state.isReady] starts false; once
    true it is true after whatever follows; a step that turns it from
    false to true is the ready event of the engine; and the ready event of
    a bound engine leaves it true. *)
Theorem isReady_monotonic (opts : WCAudioPlayerOptions) (w : World)
  (p0 : Player) (trace : list Action) :
  createPlayer opts w = Some p0 ->
  readyOf p0 = false
  /\ (forall rest,
         readyOf (run trace p0) = true ->
         readyOf (run (trace ++ rest) p0) = true)
  /\ (forall a,
         readyOf (run trace p0) = false ->
         readyOf (run (trace ++ [a]) p0) = true ->
         a = DoEmit EvReady)
  /\ (bound (env (run trace p0)) = true ->
      readyOf (run (trace ++ [DoEmit EvReady]) p0) = true).
Proof.
  intros Hc. destruct (createPlayer_well_formed opts w p0 Hc) as [W0 R0].
  destruct (run_keeps trace p0 W0) as [W _].
  split; [exact R0|]. split; [|split].
  - intros rest H. rewrite run_app. apply run_keeps; assumption.
  - intros a Hf Ht. rewrite run_app in Ht. cbn in Ht.
    destruct (step_keeps a (run trace p0) W) as [_ [_ S]].
    destruct a; try (rewrite S in Ht by discriminate; congruence).
    destruct ev; try (rewrite S in Ht by discriminate; congruence).
    reflexivity.
  - intros B. rewrite run_app. cbn.
    apply (emit_keeps EvReady (run trace p0) W); [reflexivity | exact B].
Qed.

Lemma isReady_monotonic_on_readme_page :
  readyOf freshPlayer = false
  /\ readyOf (run [DoInitialize None; DoEmit EvReady] freshPlayer) = true
  /\ readyOf
       (run ([DoInitialize None; DoEmit EvReady]
             ++ [DoEmit EvError; DoToggleMute; DoDestroy]) freshPlayer)
     = true.
Proof.
  pose proof (isReady_monotonic (readmeOptions 1) readmePage freshPlayer
                [DoInitialize None; DoEmit EvReady] eq_refl) as [H0 [H1 _]].
  split; [exact H0|]. split; [reflexivity|].
  apply H1. reflexivity.
Defined.

(** * Further properties of the code *)

(** ** Time utilities *)

Lemma Qfloor_unique (z : Z) (x : Q) :
  inject_Z z <= x -> x < inject_Z (z + 1) -> Qfloor x = z.
Proof.
  intros Hl Hu.
  pose proof (Qfloor_le x) as F1. pose proof (Qlt_floor x) as F2.
  assert (A : (z < Qfloor x + 1)%Z).
  { rewrite Zlt_Qlt. apply Qle_lt_trans with x; assumption. }
  assert (B : (Qfloor x < z + 1)%Z).
  { rewrite Zlt_Qlt. apply Qle_lt_trans with x; assumption. }
  lia.
Qed.

Lemma Qfloor_bounds (x : Q) :
  inject_Z (Qfloor x) <= x /\ x < inject_Z (Qfloor x) + 1.
Proof.
  split; [apply Qfloor_le|].
  pose proof (Qlt_floor x) as H. rewrite inject_Z_plus in H. exact H.
Qed.

Lemma inject_Z_pos (k : Z) : (0 < k)%Z -> 0 < inject_Z k.
Proof. intros H. unfold Qlt. simpl. lia. Qed.

Lemma inject_Z_nonneg (k : Z) : (0 <= k)%Z -> 0 <= inject_Z k.
Proof. intros H. unfold Qle. simpl. lia. Qed.

(** The floor of a quotient by a positive integer. *)
Lemma Qfloor_div (x : Q) (k : Z) :
  (0 < k)%Z -> Qfloor (x / inject_Z k) = (Qfloor x / k)%Z.
Proof.
  intros Hk. destruct (Qfloor_bounds x) as [Hl Hu].
  set (n := Qfloor x) in *.
  pose proof (Z.div_mod n k ltac:(lia)) as Hdm.
  pose proof (Z.mod_pos_bound n k Hk) as Hm.
  assert (Kq : 0 < inject_Z k) by (apply inject_Z_pos; exact Hk).
  assert (E : inject_Z n
              == inject_Z k * inject_Z (n / k) + inject_Z (n mod k)).
  { rewrite <- inject_Z_mult, <- inject_Z_plus. rewrite <- Hdm. reflexivity. }
  assert (M0 : 0 <= inject_Z (n mod k))
    by (apply inject_Z_nonneg; lia).
  assert (M1 : inject_Z (n mod k) + 1 <= inject_Z k).
  { rewrite <- (inject_Z_plus _ 1). rewrite <- Zle_Qle. lia. }
  apply Qfloor_unique.
  - apply Qle_shift_div_l; [exact Kq|]. nra.
  - apply Qlt_shift_div_r; [exact Kq|].
    rewrite inject_Z_plus. change (inject_Z 1) with 1. nra.
Qed.

Lemma Qfloor_sub_Z (x : Q) (m : Z) :
  Qfloor (x - inject_Z m) = (Qfloor x - m)%Z.
Proof.
  destruct (Qfloor_bounds x) as [Hl Hu].
  apply Qfloor_unique.
  - unfold Z.sub. rewrite inject_Z_plus, inject_Z_opp. lra.
  - replace (Qfloor x - m + 1)%Z with (Qfloor x + 1 + - m)%Z by lia.
    rewrite !inject_Z_plus, inject_Z_opp. change (inject_Z 1) with 1. lra.
Qed.

Lemma Qtrunc_nonneg (x : Q) : 0 <= x -> Qtrunc x = Qfloor x.
Proof.
  intros H. unfold Qtrunc.
  apply Qle_bool_iff in H. rewrite H. reflexivity.
Qed.

(** The remainder of a non-negative number by a positive integer. *)
Lemma js_rem_nonneg (x : Q) (k : Z) :
  0 <= x -> (0 < k)%Z ->
  js_rem x (inject_Z k) == x - inject_Z (k * (Qfloor x / k)).
Proof.
  intros Hx Hk. unfold js_rem.
  assert (Kq : 0 < inject_Z k) by (apply inject_Z_pos; exact Hk).
  rewrite Qtrunc_nonneg.
  - rewrite Qfloor_div by exact Hk. rewrite inject_Z_mult. reflexivity.
  - apply Qle_shift_div_l; [exact Kq | lra].
Qed.

Lemma Qfloor_js_rem (x : Q) (k : Z) :
  0 <= x -> (0 < k)%Z ->
  Qfloor (js_rem x (inject_Z k)) = (Qfloor x mod k)%Z.
Proof.
  intros Hx Hk.
  rewrite (Qfloor_comp _ _ (js_rem_nonneg x k Hx Hk)).
  rewrite Qfloor_sub_Z.
  pose proof (Z.div_mod (Qfloor x) k ltac:(lia)). lia.
Qed.

(** The three fields [formatTime] prints. *)
Lemma formatTime_fields (s : Q) :
  0 <= s ->
  Qfloor (s / 3600) = (Qfloor s / 3600)%Z
  /\ Qfloor (js_rem s 3600 / 60) = (Qfloor s mod 3600 / 60)%Z
  /\ Qfloor (js_rem s 60) = (Qfloor s mod 60)%Z.
Proof.
  intros Hs. split; [|split].
  - apply (Qfloor_div s 3600). lia.
  - change 60 with (inject_Z 60). rewrite Qfloor_div by lia.
    change 3600 with (inject_Z 3600). rewrite Qfloor_js_rem by (assumption || lia).
    reflexivity.
  - change 60 with (inject_Z 60). apply Qfloor_js_rem; [assumption | lia].
Qed.

Lemma digits_without_colon (d : Decimal.uint) :
  occurrences ":" (NilEmpty.string_of_uint d) = 0%nat.
Proof. induction d; simpl; trivial. Qed.

Lemma split_without_sep (sep : ascii) (a : string) :
  occurrences sep a = 0%nat -> split sep a = [a].
Proof.
  induction a as [|c a IH]; cbn; [reflexivity|].
  destruct (Ascii.eqb c sep); [discriminate|].
  cbn. intros H. rewrite (IH H). reflexivity.
Qed.

Lemma split_at_sep (sep : ascii) (a b : string) :
  occurrences sep a = 0%nat ->
  split sep (a ++ String sep b) = a :: split sep b.
Proof.
  induction a as [|c a IH]; cbn.
  - intros _. rewrite Ascii.eqb_refl. reflexivity.
  - destruct (Ascii.eqb c sep); [discriminate|].
    cbn. intros H. rewrite (IH H). reflexivity.
Qed.

Lemma length_split (sep : ascii) (s : string) :
  List.length (split sep s) = S (occurrences sep s).
Proof.
  induction s as [|c s IH]; cbn; [reflexivity|].
  destruct (Ascii.eqb c sep); cbn.
  - rewrite IH. reflexivity.
  - destruct (split sep s) as [|part parts]; cbn in *; [discriminate|].
    exact IH.
Qed.

(** What [String] prints of a natural number reads back as that number,
    also behind a padding zero. *)
Lemma printed_digits (z : Z) (pad : bool) :
  (0 <= z)%Z ->
  exists d,
    (if pad then ("0" ++ String_of_nat z)%string else String_of_nat z)
    = NilEmpty.string_of_uint d
    /\ Z.of_N (N.of_uint d) = z.
Proof.
  intros Hz. unfold String_of_nat.
  assert (E : Z.of_N (N.of_uint (N.to_uint (Z.to_N z))) = z).
  { rewrite DecimalN.Unsigned.of_to. apply Z2N.id. exact Hz. }
  destruct pad.
  - exists (Decimal.D0 (N.to_uint (Z.to_N z))). split; [reflexivity|].
    exact E.
  - exists (N.to_uint (Z.to_N z)). split; [reflexivity | exact E].
Qed.

Section ParseFormat.

Variable Number : string -> option number.

(** [Number] reads a string of decimal digits as its value; this is
    asked of values below 2^53 only, where every integer is a number of
    the language. *)
Hypothesis Number_digits :
  forall d,
    inject_Z (Z.of_N (N.of_uint d)) < safeInteger ->
    Number (NilEmpty.string_of_uint d)
    = Some (inject_Z (Z.of_N (N.of_uint d))).

Lemma parseTime_two (a b : Decimal.uint) :
  inject_Z (Z.of_N (N.of_uint a)) < safeInteger ->
  inject_Z (Z.of_N (N.of_uint b)) < safeInteger ->
  parseTime Number
    (NilEmpty.string_of_uint a ++ ":" ++ NilEmpty.string_of_uint b)
  = inject_Z (Z.of_N (N.of_uint a)) * 60 + inject_Z (Z.of_N (N.of_uint b)).
Proof.
  intros Ha Hb. unfold parseTime. cbn [append].
  rewrite split_at_sep by apply digits_without_colon.
  rewrite split_without_sep by apply digits_without_colon.
  cbn [map]. rewrite (Number_digits a Ha), (Number_digits b Hb). reflexivity.
Qed.

Lemma parseTime_three (a b c : Decimal.uint) :
  inject_Z (Z.of_N (N.of_uint a)) < safeInteger ->
  inject_Z (Z.of_N (N.of_uint b)) < safeInteger ->
  inject_Z (Z.of_N (N.of_uint c)) < safeInteger ->
  parseTime Number
    (NilEmpty.string_of_uint a ++ ":" ++ NilEmpty.string_of_uint b
     ++ ":" ++ NilEmpty.string_of_uint c)
  = inject_Z (Z.of_N (N.of_uint a)) * 3600
    + inject_Z (Z.of_N (N.of_uint b)) * 60
    + inject_Z (Z.of_N (N.of_uint c)).
Proof.
  intros Ha Hb Hc. unfold parseTime. cbn [append].
  rewrite split_at_sep by apply digits_without_colon.
  rewrite split_at_sep by apply digits_without_colon.
  rewrite split_without_sep by apply digits_without_colon.
  cbn [map].
  rewrite (Number_digits a Ha), (Number_digits b Hb), (Number_digits c Hc).
  reflexivity.
Qed.

(** X1: parsing what [formatTime] printed gives back the whole seconds:
    [parseTime(formatTime(s))] is the floor of [s] for every
    non-negative [s] below 2^53, with or without an hours part. *)
Theorem parseTime_formatTime (s : number) :
  0 <= s -> s < safeInteger ->
  parseTime Number (formatTime (Finite s)) == inject_Z (Qfloor s).
Proof.
  intros Hs Hsafe. unfold formatTime.
  assert (B : Qle_bool 0 s = true) by (apply Qle_bool_iff; exact Hs).
  rewrite B. cbn [negb].
  destruct (formatTime_fields s Hs) as [Fh [Fm Fs]].
  rewrite Fh, Fm, Fs.
  assert (Hn : (0 <= Qfloor s)%Z).
  { rewrite <- (Qfloor_Z 0). apply Qfloor_resp_le. exact Hs. }
  assert (Hsafe' : (Qfloor s < 9007199254740992)%Z).
  { rewrite Zlt_Qlt. apply Qle_lt_trans with s; [apply Qfloor_le|].
    exact Hsafe. }
  set (n := Qfloor s) in *.
  assert (Hh : (0 <= n / 3600)%Z) by (apply Z.div_pos; lia).
  assert (Hm : (0 <= n mod 3600 / 60)%Z).
  { apply Z.div_pos; [|lia]. apply Z.mod_pos_bound. lia. }
  assert (Hc : (0 <= n mod 60)%Z) by (apply Z.mod_pos_bound; lia).
  assert (Sh : inject_Z (n / 3600) < safeInteger).
  { unfold safeInteger. change 9007199254740992 with (inject_Z 9007199254740992).
    rewrite <- Zlt_Qlt. clear - Hn Hsafe'.
    Z.to_euclidean_division_equations. lia. }
  assert (Sm : inject_Z (n mod 3600 / 60) < safeInteger).
  { unfold safeInteger. change 9007199254740992 with (inject_Z 9007199254740992).
    rewrite <- Zlt_Qlt. clear.
    Z.to_euclidean_division_equations. lia. }
  assert (Sc : inject_Z (n mod 60) < safeInteger).
  { unfold safeInteger. change 9007199254740992 with (inject_Z 9007199254740992).
    rewrite <- Zlt_Qlt. clear.
    Z.to_euclidean_division_equations. lia. }
  destruct (printed_digits (n / 3600) false Hh) as [dh [Eh Vh]].
  destruct (printed_digits (n mod 3600 / 60) false Hm) as [dm0 [Em0 Vm0]].
  destruct (printed_digits (n mod 3600 / 60)
              ((0 <? n / 3600)%Z && (n mod 3600 / 60 <? 10)%Z) Hm)
    as [dm [Em Vm]].
  destruct (printed_digits (n mod 60) (n mod 60 <? 10)%Z Hc)
    as [dc [Ec Vc]].
  replace (if ((0 <? n / 3600)%Z && (n mod 3600 / 60 <? 10)%Z)%bool
           then ("0" ++ String_of_nat (n mod 3600 / 60))%string
           else String_of_nat (n mod 3600 / 60))
    with (NilEmpty.string_of_uint dm).
  replace (if (n mod 60 <? 10)%Z
           then ("0" ++ String_of_nat (n mod 60))%string
           else String_of_nat (n mod 60))
    with (NilEmpty.string_of_uint dc).
  cbv beta in Eh, Em0. rewrite Eh, Em0.
  destruct (0 <? n / 3600)%Z eqn:H0.
  - rewrite parseTime_three by (rewrite ?Vh, ?Vm, ?Vc; assumption).
    rewrite Vh, Vm, Vc.
    change 3600 with (inject_Z 3600). change 60 with (inject_Z 60).
    rewrite <- !inject_Z_mult, <- !inject_Z_plus.
    apply inject_Z_injective.
    pose proof (Z.div_mod n 3600 ltac:(lia)).
    pose proof (Z.div_mod (n mod 3600) 60 ltac:(lia)).
    assert ((n mod 3600) mod 60 = n mod 60)%Z.
    { clear. Z.to_euclidean_division_equations. lia. }
    lia.
  - rewrite parseTime_two by (rewrite ?Vm0, ?Vc; assumption).
    rewrite Vm0, Vc.
    change 60 with (inject_Z 60).
    rewrite <- !inject_Z_mult, <- !inject_Z_plus.
    apply inject_Z_injective.
    apply Z.ltb_ge in H0.
    assert (n / 3600 = 0)%Z by lia.
    pose proof (Z.div_mod n 3600 ltac:(lia)).
    pose proof (Z.div_mod (n mod 3600) 60 ltac:(lia)).
    assert ((n mod 3600) mod 60 = n mod 60)%Z.
    { clear. Z.to_euclidean_division_equations. lia. }
    lia.
Qed.

End ParseFormat.

Lemma Number_of_digits_reads (d : Decimal.uint) :
  inject_Z (Z.of_N (N.of_uint d)) < safeInteger ->
  Number_of_digits (NilEmpty.string_of_uint d)
  = Some (inject_Z (Z.of_N (N.of_uint d))).
Proof.
  intros _. unfold Number_of_digits. rewrite NilEmpty.usu. reflexivity.
Qed.

Lemma parseTime_formatTime_of_an_hour_and_a_bit :
  parseTime Number_of_digits (formatTime (Finite (7325 # 2))) == 3662.
Proof.
  apply (parseTime_formatTime Number_of_digits Number_of_digits_reads
           (7325 # 2)).
  - unfold Qle. simpl. lia.
  - unfold Qlt. simpl. lia.
Defined.

(** X2: a string that does not hold exactly one or two colons parses to
    0, whatever its parts are: [parseTime("65")] is 0, not 65. *)
Theorem parseTime_needs_one_or_two_colons
  (Number : string -> option number) (timeString : string) :
  occurrences ":" timeString <> 1%nat ->
  occurrences ":" timeString <> 2%nat ->
  parseTime Number timeString = 0.
Proof.
  intros H1 H2. unfold parseTime.
  pose proof (length_split ":" timeString) as L.
  assert (Lm : List.length (map Number (split ":" timeString))
               = S (occurrences ":" timeString))
    by (rewrite length_map; exact L).
  destruct (existsb _ _); [reflexivity|].
  destruct (map Number (split ":" timeString))
    as [|[a|] [|[b|] [|[c|] [|d l]]]]; try reflexivity;
    cbn in Lm; exfalso; lia.
Qed.

Lemma parseTime_of_plain_seconds :
  parseTime Number_of_digits "65" = 0.
Proof.
  apply (parseTime_needs_one_or_two_colons Number_of_digits "65");
    simpl; lia.
Defined.

Lemma occurrences_app (c : ascii) (a b : string) :
  occurrences c (a ++ b) = (occurrences c a + occurrences c b)%nat.
Proof.
  induction a as [|x a IH]; cbn; [reflexivity|].
  rewrite IH. lia.
Qed.

Lemma String_of_nat_without_colon (z : Z) :
  occurrences ":" (String_of_nat z) = 0%nat.
Proof. apply digits_without_colon. Qed.

(** X3: [formatTime] prints an hours part exactly from one hour on: the
    result holds two colons when [seconds >= 3600] and one otherwise;
    negative input, NaN and the infinities are printed as 0:00. *)
Theorem formatTime_hours_part (seconds : jsnumber) :
  occurrences ":" (formatTime seconds)
  = match seconds with
    | Finite x => if Qle_bool 3600 x then 2%nat else 1%nat
    | NaN | Infinity | NegInfinity => 1%nat
    end
  /\ formatTime NaN = "0:00"%string
  /\ formatTime Infinity = "0:00"%string
  /\ formatTime NegInfinity = "0:00"%string
  /\ match seconds with
     | Finite x =>
         if Qle_bool 0 x then True else formatTime seconds = "0:00"%string
     | _ => True
     end.
Proof.
  split; [|repeat split].
  2:{ destruct seconds as [| | |x]; trivial. cbn.
      destruct (Qle_bool 0 x); [trivial | reflexivity]. }
  destruct seconds as [| | |seconds]; try reflexivity.
  unfold formatTime.
  destruct (Qle_bool 0 seconds) eqn:B; cbn [negb].
  - apply Qle_bool_iff in B.
    destruct (formatTime_fields seconds B) as [Fh _]. rewrite Fh.
    assert (Hn : (0 <= Qfloor seconds)%Z).
    { rewrite <- (Qfloor_Z 0). apply Qfloor_resp_le. exact B. }
    assert (P : forall (b : bool) z,
               occurrences ":"
                 (if b then ("0" ++ String_of_nat z)%string
                  else String_of_nat z) = 0%nat).
    { intros b z. destruct b; [|apply String_of_nat_without_colon].
      cbn. apply String_of_nat_without_colon. }
    destruct (0 <? Qfloor seconds / 3600)%Z eqn:H0.
    + rewrite !occurrences_app, P, P, String_of_nat_without_colon.
      apply Z.ltb_lt in H0.
      assert (L : 3600 <= seconds).
      { apply Qle_trans with (inject_Z (Qfloor seconds));
          [|apply Qfloor_le].
        change 3600 with (inject_Z 3600). rewrite <- Zle_Qle.
        Z.to_euclidean_division_equations. lia. }
      apply Qle_bool_iff in L. rewrite L. reflexivity.
    + rewrite !occurrences_app, P, String_of_nat_without_colon.
      apply Z.ltb_ge in H0.
      destruct (Qle_bool 3600 seconds) eqn:L; [|reflexivity].
      apply Qle_bool_iff in L.
      apply Qfloor_resp_le in L. change 3600 with (inject_Z 3600) in L.
      rewrite Qfloor_Z in L. exfalso.
      revert H0 L. generalize (Qfloor seconds). intros n H0 L.
      Z.to_euclidean_division_equations. lia.
  - destruct (Qle_bool 3600 seconds) eqn:L; [|reflexivity].
    apply Qle_bool_iff in L.
    assert (0 <= seconds) by lra.
    apply Qle_bool_iff in H. congruence.
Qed.

(** X4: [calculateProgress] is always a percentage between 0 and 100 and
    [calculateRemaining] is never negative; both are 0 when the duration
    is not positive. *)
Theorem progress_and_remaining_ranges (currentTime duration : number) :
  0 <= calculateProgress currentTime duration
  /\ calculateProgress currentTime duration <= 100
  /\ 0 <= calculateRemaining currentTime duration
  /\ (if Qle_bool duration 0
      then calculateProgress currentTime duration = 0
           /\ calculateRemaining currentTime duration = 0
      else True).
Proof.
  unfold calculateProgress, calculateRemaining.
  destruct (negb (truthy duration) || Qle_bool duration 0) eqn:G.
  - repeat split; try lra. destruct (Qle_bool duration 0); [split|]; trivial.
  - apply orb_false_iff in G. destruct G as [_ G]. rewrite G.
    repeat split.
    + apply Q.min_glb; [lra | apply Q.le_max_l].
    + apply Q.le_min_l.
    + apply Q.le_max_l.
Qed.

Lemma guard_of_positive (duration : number) :
  0 < duration -> negb (truthy duration) || Qle_bool duration 0 = false.
Proof.
  intros Hd.
  assert (T : truthy duration = true).
  { unfold truthy. apply negb_true_iff.
    destruct (Qeq_bool duration 0) eqn:E; [|reflexivity].
    apply Qeq_bool_iff in E. lra. }
  assert (L : Qle_bool duration 0 = false).
  { destruct (Qle_bool duration 0) eqn:E; [|reflexivity].
    apply Qle_bool_iff in E. lra. }
  rewrite T, L. reflexivity.
Qed.

(** X5: for a positive duration the progress never decreases and the
    remaining time never increases as the position moves on; the progress
    is exactly 0 up to the start and exactly 100 from the end on, where
    the remaining time is exactly 0. *)
Theorem progress_and_remaining_monotone (earlier later duration : number) :
  0 < duration -> earlier <= later ->
  calculateProgress earlier duration <= calculateProgress later duration
  /\ calculateRemaining later duration <= calculateRemaining earlier duration
  /\ (if Qle_bool later 0
      then calculateProgress later duration == 0 else True)
  /\ (if Qle_bool duration earlier
      then calculateProgress earlier duration == 100
           /\ calculateRemaining earlier duration == 0
      else True).
Proof.
  intros Hd Hle.
  unfold calculateProgress, calculateRemaining.
  rewrite (guard_of_positive duration Hd).
  assert (Q1 : earlier / duration <= later / duration).
  { apply Qle_shift_div_l; [exact Hd|].
    assert (E : earlier / duration * duration == earlier) by (field; lra).
    rewrite E. exact Hle. }
  split; [|split; [|split]].
  - apply Q.min_le_compat_l. apply Q.max_le_compat_l. lra.
  - apply Q.max_le_compat_l. lra.
  - destruct (Qle_bool later 0) eqn:L; [|trivial].
    apply Qle_bool_iff in L.
    assert (R : later / duration <= 0).
    { apply Qle_shift_div_r; [exact Hd | lra]. }
    rewrite Q.max_l by lra. apply Q.min_r. lra.
  - destruct (Qle_bool duration earlier) eqn:L; [|trivial].
    apply Qle_bool_iff in L.
    assert (R : 1 <= earlier / duration).
    { apply Qle_shift_div_l; [exact Hd | lra]. }
    split.
    + rewrite Q.max_r by lra. apply Q.min_l. lra.
    + apply Q.max_l. lra.
Qed.

Lemma progress_and_remaining_monotone_past_the_end :
  calculateProgress 15 60 <= calculateProgress 75 60
  /\ calculateRemaining 75 60 <= calculateRemaining 15 60.
Proof.
  destruct (progress_and_remaining_monotone 15 75 60) as [P [R _]].
  - unfold Qlt. simpl. lia.
  - unfold Qle. simpl. lia.
  - split; [exact P | exact R].
Defined.

(** ** Seeking and volume *)

Lemma clamp01_inside (x : number) : 0 <= x -> x <= 1 -> clamp01 x == x.
Proof.
  intros H0 H1. unfold clamp01.
  rewrite (Q.min_r 1 x) by exact H1. apply Q.max_r. exact H0.
Qed.

Lemma clamp01_below (x : number) : x <= 0 -> clamp01 x == 0.
Proof.
  intros H. unfold clamp01. apply Q.max_l.
  apply Qle_trans with x; [apply Q.le_min_r | exact H].
Qed.

Lemma clamp01_above (x : number) : 1 <= x -> clamp01 x == 1.
Proof.
  intros H. unfold clamp01.
  rewrite (Q.min_l 1 x) by exact H. apply Q.max_r. lra.
Qed.

Lemma orNumber_zero (x : number) : orNumber (Some x) 0 == x.
Proof.
  unfold orNumber, truthy. destruct (Qeq_bool x 0) eqn:E; cbn.
  - apply Qeq_bool_iff in E. symmetry. exact E.
  - reflexivity.
Qed.

(** X6: the engine never receives an out-of-range seek: [seekTo] hands on
    a progress within [[0,1]], the argument itself when it lies there, 0
    below and 1 above. *)
Theorem seekTo_clamps (progress : number) (e : Env) (ws : AudioEngine) :
  wavesurfer (inst e) = Some ws ->
  exists q,
    engineCalls (seekTo progress e) = CallSeekTo q :: eng_calls ws
    /\ 0 <= q /\ q <= 1
    /\ q == (if Qle_bool progress 0 then 0
             else if Qle_bool 1 progress then 1 else progress).
Proof.
  intros H. exists (clamp01 progress).
  destruct (clamp01_bounds progress) as [B0 B1].
  split; [|split; [exact B0 | split; [exact B1|]]].
  - unfold seekTo, engine_call, engineCalls. rewrite H. reflexivity.
  - destruct (Qle_bool progress 0) eqn:L0.
    + apply clamp01_below, Qle_bool_iff, L0.
    + destruct (Qle_bool 1 progress) eqn:L1.
      * apply clamp01_above, Qle_bool_iff, L1.
      * apply clamp01_inside.
        -- destruct (Qlt_le_dec progress 0) as [Hlt | Hge]; [|exact Hge].
           assert (Hle : progress <= 0) by lra.
           apply Qle_bool_iff in Hle. congruence.
        -- destruct (Qlt_le_dec 1 progress) as [Hlt | Hge]; [|exact Hge].
           assert (Hle : 1 <= progress) by lra.
           apply Qle_bool_iff in Hle. congruence.
Qed.

Lemma seekTo_clamps_negative_and_large :
  engineCalls (seekTo (-1 # 2) (boundTo (loadedEngine 0 1))) = [CallSeekTo 0]
  /\ engineCalls (seekTo (17 # 10) (boundTo (loadedEngine 0 1)))
     = [CallSeekTo 1].
Proof.
  destruct (seekTo_clamps (-1 # 2) (boundTo (loadedEngine 0 1))
              (loadedEngine 0 1) eq_refl) as [q [Hq _]].
  split; reflexivity.
Defined.

Lemma seek_lands (x : number) (d : number) :
  0 < d -> d * clamp01 (x / d) == Qmax 0 (Qmin d x).
Proof.
  intros Hd. destruct (Qlt_le_dec x 0) as [Hneg | Hpos].
  - rewrite clamp01_below.
    + rewrite (Q.min_r d x) by lra. rewrite Q.max_l by lra. ring.
    + apply Qle_shift_div_r; [exact Hd | lra].
  - destruct (Qlt_le_dec d x) as [Hbig | Hin].
    + rewrite clamp01_above.
      * rewrite (Q.min_l d x) by lra. rewrite Q.max_r by lra. ring.
      * apply Qle_shift_div_l; [exact Hd | lra].
    + rewrite clamp01_inside.
      * rewrite (Q.min_r d x) by lra. rewrite Q.max_r by lra.
        field. lra.
      * apply Qle_shift_div_l; [exact Hd | lra].
      * apply Qle_shift_div_r; [exact Hd | lra].
Qed.

(** X7: with a positive duration, [seekToTime(seconds)] leaves the engine
    within [[0, duration]]: exactly at 0 when [seconds] is not positive
    and exactly at the duration when [seconds] reaches it. *)
Theorem seekToTime_lands (seconds : number) (e : Env) (ws : AudioEngine) :
  wavesurfer (inst e) = Some ws ->
  0 < eng_duration ws ->
  exists t,
    engineTime (seekToTime seconds e) = Some t
    /\ 0 <= t /\ t <= eng_duration ws
    /\ (if Qle_bool seconds 0 then t == 0 else True)
    /\ (if Qle_bool (eng_duration ws) seconds
        then t == eng_duration ws else True).
Proof.
  intros H Hd.
  assert (P : positive (eng_duration ws) = true).
  { unfold positive. apply negb_true_iff.
    destruct (Qle_bool (eng_duration ws) 0) eqn:E; [|reflexivity].
    apply Qle_bool_iff in E. lra. }
  destruct (getDuration_bound e ws H) as [Hp Hg].
  specialize (Hg P).
  exists (eng_duration ws * clamp01 (seconds / eng_duration ws)).
  split.
  { unfold seekToTime. rewrite Hp, P, Hg.
    unfold seekTo, engine_call, engineTime. rewrite H. reflexivity. }
  pose proof (seek_lands seconds (eng_duration ws) Hd) as L.
  set (d := eng_duration ws) in *.
  split; [|split; [|split]].
  - rewrite L. apply Q.le_max_l.
  - rewrite L. apply Q.max_lub; [lra | apply Q.le_min_l].
  - destruct (Qle_bool seconds 0) eqn:B; [|trivial].
    apply Qle_bool_iff in B. rewrite L.
    apply Q.max_l. apply Qle_trans with seconds; [apply Q.le_min_r | exact B].
  - destruct (Qle_bool d seconds) eqn:B; [|trivial].
    apply Qle_bool_iff in B. rewrite L.
    rewrite (Q.min_l d seconds) by exact B. apply Q.max_r. lra.
Qed.

Lemma seekToTime_lands_at_the_end :
  exists t,
    engineTime (seekToTime 90 (boundTo (loadedEngine 0 1))) = Some t
    /\ t == 60.
Proof.
  destruct (seekToTime_lands 90 (boundTo (loadedEngine 0 1))
              (loadedEngine 0 1) eq_refl) as [t [Ht [_ [_ [_ Hv]]]]].
  - unfold Qlt. simpl. lia.
  - exists t. split; [exact Ht | exact Hv].
Defined.

(** X8: [setVolume] hands the engine a volume within [[0,1]].  A positive
    volume is also remembered as [previousVolume] and clears the mute
    flag, so setting the volume of a muted player unmutes it; a volume
    that clamps to 0 silences the engine but leaves the flag and
    [previousVolume] as they were. *)
Theorem setVolume_clamps_and_unmutes (volume : number) (e : Env)
  (ws : AudioEngine) :
  wavesurfer (inst e) = Some ws ->
  engineVolume (setVolume volume e) = Some (clamp01 volume)
  /\ 0 <= clamp01 volume /\ clamp01 volume <= 1
  /\ (if positive (clamp01 volume)
      then isMuted (state (inst (setVolume volume e))) = false
           /\ previousVolume (state (inst (setVolume volume e)))
              = clamp01 volume
      else state (inst (setVolume volume e)) = state (inst e)
           /\ clamp01 volume == 0).
Proof.
  intros H. destruct (clamp01_bounds volume) as [B0 B1].
  destruct e as [[st w0 ct op sc kc cl kd iv] w]. cbn in H. subst w0.
  unfold setVolume, engine_call, engineVolume. cbn.
  destruct (positive (clamp01 volume)) eqn:P; cbn.
  - repeat split; assumption.
  - repeat split; try assumption.
    unfold positive in P. apply negb_false_iff in P.
    apply Qle_bool_iff in P. lra.
Qed.

Lemma setVolume_unmutes_a_muted_player :
  isMuted (state (inst (toggleMute (boundTo (loadedEngine 0 1))))) = true
  /\ isMuted
       (state
          (inst (setVolume (2 # 5) (toggleMute (boundTo (loadedEngine 0 1))))))
     = false.
Proof.
  split; [reflexivity|].
  pose proof (setVolume_clamps_and_unmutes (2 # 5)
                (toggleMute (boundTo (loadedEngine 0 1)))
                (engine_do (CallSetVolume 0) (loadedEngine 0 1)) eq_refl)
    as [_ [_ [_ H]]].
  exact (proj1 H).
Defined.

(** ** Skipping forth and back *)

Lemma positive_of_lt (x : number) : 0 < x -> positive x = true.
Proof.
  intros H. unfold positive. apply negb_true_iff.
  destruct (Qle_bool x 0) eqn:E; [|reflexivity].
  apply Qle_bool_iff in E. lra.
Qed.

Lemma seekTo_inst (x : number) (e : Env) (ws : AudioEngine) :
  wavesurfer (inst e) = Some ws ->
  inst (seekTo x e)
  = set_wavesurfer (Some (engine_do (CallSeekTo (clamp01 x)) ws)) (inst e).
Proof.
  intros H. unfold seekTo, engine_call. rewrite H. reflexivity.
Qed.

(** Where a skip leaves a bound engine with a positive duration. *)
Lemma skipForward_step (seconds : option number) (e : Env) (ws : AudioEngine) :
  wavesurfer (inst e) = Some ws ->
  0 < eng_duration ws ->
  exists ws',
    wavesurfer (inst (skipForward seconds e)) = Some ws'
    /\ eng_duration ws' = eng_duration ws
    /\ skipConfig (inst (skipForward seconds e)) = skipConfig (inst e)
    /\ eng_currentTime ws'
       == Qmax 0
            (Qmin (eng_duration ws)
               (eng_currentTime ws
                + nullish seconds (rskip_seconds (skipConfig (inst e))))).
Proof.
  intros H Hd.
  pose proof (positive_of_lt _ Hd) as P.
  destruct (getDuration_bound e ws H) as [Hp Hg]. specialize (Hg P).
  unfold skipForward. rewrite Hp, P, Hg.
  rewrite (seekTo_inst _ e ws H).
  eexists. split; [reflexivity|]. split; [reflexivity|].
  split; [reflexivity|].
  cbn [engine_do eng_currentTime].
  rewrite seek_lands by exact Hd.
  unfold skipForward_newTime. rewrite Hg.
  unfold getCurrentTime. rewrite H. cbn [option_map].
  pose proof (orNumber_zero (eng_currentTime ws)) as O.
  revert O. generalize (orNumber (Some (eng_currentTime ws)) 0).
  intros c O.
  set (a := nullish seconds (rskip_seconds (skipConfig (inst e)))).
  set (d := eng_duration ws) in *.
  destruct (Q.min_spec d (c + a)) as [[? E1] | [? E1]];
    destruct (Q.min_spec d (eng_currentTime ws + a)) as [[? E2] | [? E2]];
    destruct (Q.min_spec d (Qmin d (c + a))) as [[? E3] | [? E3]];
    destruct (Q.max_spec 0 (Qmin d (Qmin d (c + a)))) as [[? E4] | [? E4]];
    destruct (Q.max_spec 0 (Qmin d (eng_currentTime ws + a)))
      as [[? E5] | [? E5]];
    lra.
Qed.

Lemma skipBack_step (seconds : option number) (e : Env) (ws : AudioEngine) :
  wavesurfer (inst e) = Some ws ->
  0 < eng_duration ws ->
  exists ws',
    wavesurfer (inst (skipBack seconds e)) = Some ws'
    /\ eng_duration ws' = eng_duration ws
    /\ skipConfig (inst (skipBack seconds e)) = skipConfig (inst e)
    /\ eng_currentTime ws'
       == Qmin (eng_duration ws)
            (Qmax 0
               (eng_currentTime ws
                - nullish seconds (rskip_seconds (skipConfig (inst e))))).
Proof.
  intros H Hd.
  pose proof (positive_of_lt _ Hd) as P.
  destruct (getDuration_bound e ws H) as [Hp Hg]. specialize (Hg P).
  unfold skipBack. rewrite Hp, P, Hg.
  rewrite (seekTo_inst _ e ws H).
  eexists. split; [reflexivity|]. split; [reflexivity|].
  split; [reflexivity|].
  cbn [engine_do eng_currentTime].
  rewrite seek_lands by exact Hd.
  unfold skipBack_newTime.
  unfold getCurrentTime. rewrite H. cbn [option_map].
  pose proof (orNumber_zero (eng_currentTime ws)) as O.
  revert O. generalize (orNumber (Some (eng_currentTime ws)) 0).
  intros c O.
  set (a := nullish seconds (rskip_seconds (skipConfig (inst e)))).
  set (d := eng_duration ws) in *.
  destruct (Q.max_spec 0 (c - a)) as [[? E1] | [? E1]];
    destruct (Q.max_spec 0 (eng_currentTime ws - a)) as [[? E2] | [? E2]];
    destruct (Q.min_spec d (Qmax 0 (c - a))) as [[? E3] | [? E3]];
    destruct (Q.max_spec 0 (Qmin d (Qmax 0 (c - a)))) as [[? E4] | [? E4]];
    destruct (Q.min_spec d (Qmax 0 (eng_currentTime ws - a)))
      as [[? E5] | [? E5]];
    lra.
Qed.

(** X9: skipping saturates at the ends of the audio: a skip forward that
    reaches the duration leaves the engine exactly at the duration, a
    skip back that reaches the start leaves it exactly at 0. *)
Theorem skip_saturates (seconds : option number) (e : Env)
  (ws : AudioEngine) :
  wavesurfer (inst e) = Some ws ->
  0 < eng_duration ws ->
  (if Qle_bool (eng_duration ws)
        (eng_currentTime ws
         + nullish seconds (rskip_seconds (skipConfig (inst e))))
   then exists t,
          engineTime (skipForward seconds e) = Some t
          /\ t == eng_duration ws
   else True)
  /\ (if Qle_bool
           (eng_currentTime ws
            - nullish seconds (rskip_seconds (skipConfig (inst e)))) 0
      then exists t,
             engineTime (skipBack seconds e) = Some t /\ t == 0
      else True).
Proof.
  intros H Hd.
  destruct (skipForward_step seconds e ws H Hd) as [ws1 [W1 [_ [_ T1]]]].
  destruct (skipBack_step seconds e ws H Hd) as [ws2 [W2 [_ [_ T2]]]].
  set (a := nullish seconds (rskip_seconds (skipConfig (inst e)))) in *.
  set (d := eng_duration ws) in *.
  split.
  - destruct (Qle_bool d (eng_currentTime ws + a)) eqn:B; [|trivial].
    apply Qle_bool_iff in B.
    exists (eng_currentTime ws1).
    split; [unfold engineTime; rewrite W1; reflexivity|].
    rewrite T1. rewrite (Q.min_l d _) by exact B. apply Q.max_r. lra.
  - destruct (Qle_bool (eng_currentTime ws - a) 0) eqn:B; [|trivial].
    apply Qle_bool_iff in B.
    exists (eng_currentTime ws2).
    split; [unfold engineTime; rewrite W2; reflexivity|].
    rewrite T2. rewrite (Q.max_l 0 _) by exact B. apply Q.min_r. lra.
Qed.

Lemma skip_saturates_near_the_ends :
  (exists t,
      engineTime (skipForward None (boundTo (loadedEngine 50 1))) = Some t
      /\ t == 60)
  /\ (exists t,
         engineTime (skipBack None (boundTo (loadedEngine 10 1))) = Some t
         /\ t == 0).
Proof.
  split.
  - exact (proj1 (skip_saturates None (boundTo (loadedEngine 50 1))
                    (loadedEngine 50 1) eq_refl eq_refl)).
  - exact (proj2 (skip_saturates None (boundTo (loadedEngine 10 1))
                    (loadedEngine 10 1) eq_refl eq_refl)).
Defined.

(** ** A full cycle of speeds *)

Lemma indexOf_nth (l : list number) (j : nat) (y : number) :
  distinct l -> nth_error l j = Some y -> indexOf l y = Z.of_nat j.
Proof.
  intros Hd Hn.
  pose proof (indexOf_range l y) as R.
  destruct (Z.eq_dec (indexOf l y) (-1)) as [E | E].
  - exfalso. unfold indexOf in E.
    pose proof (proj1 (indexOfFrom_absent y l 0%Z ltac:(lia)) E) as A.
    apply (A y); [eapply nth_error_In; exact Hn | reflexivity].
  - destruct (indexOfFrom_found y l 0%Z (indexOf l y) ltac:(lia) ltac:(lia)
                eq_refl) as [y' [Hy' [Q' _]]].
    rewrite Z.sub_0_r in Hy'.
    pose proof (Hd _ _ _ _ Hy' Hn Q'). lia.
Qed.

Lemma setSpeed_keeps_config (s : number) (e : Env) :
  speedConfig (inst (setSpeed s e)) = speedConfig (inst e).
Proof.
  unfold setSpeed, engine_call.
  destruct e as [[st ws ct op sc kc cl kd iv] w]; cbn.
  destruct ws; reflexivity.
Qed.

Lemma distinctb_sound (l : list number) : distinctb l = true -> distinct l.
Proof.
  induction l as [|a l IH]; intros H i j x y Hi Hj E.
  - destruct i; discriminate Hi.
  - cbn in H. apply andb_true_iff in H. destruct H as [Ha Hl].
    rewrite forallb_forall in Ha.
    destruct i as [|i], j as [|j]; cbn in Hi, Hj.
    + reflexivity.
    + injection Hi as <-. exfalso.
      pose proof (Ha y (nth_error_In _ _ Hj)) as N.
      apply negb_true_iff in N.
      apply Qeq_bool_iff in E. congruence.
    + injection Hj as <-. exfalso.
      pose proof (Ha x (nth_error_In _ _ Hi)) as N.
      apply negb_true_iff in N.
      symmetry in E. apply Qeq_bool_iff in E. congruence.
    + f_equal. apply (IH Hl i j x y Hi Hj E).
Qed.

(** One [cycleSpeed] of a player with the original [setSpeed], seen on
    the index of the current speed. *)
Lemma cycleSpeed_index (p : Player) (i : Z) :
  m_setSpeed (methods p) = setSpeed ->
  distinct (rspeed_options (speedConfig (inst (env p)))) ->
  indexOf (rspeed_options (speedConfig (inst (env p))))
    (currentSpeed (state (inst (env p)))) = i ->
  (0 <= i)%Z ->
  exists p',
    cycleSpeed p = Some p'
    /\ m_setSpeed (methods p') = setSpeed
    /\ rspeed_options (speedConfig (inst (env p')))
       = rspeed_options (speedConfig (inst (env p)))
    /\ indexOf (rspeed_options (speedConfig (inst (env p))))
         (currentSpeed (state (inst (env p'))))
       = ((i + 1)
          mod Z.of_nat
                (List.length (rspeed_options (speedConfig (inst (env p))))))%Z.
Proof.
  intros Hm Hd Hi Hpos.
  set (options := rspeed_options (speedConfig (inst (env p)))) in *.
  pose proof (indexOf_range options (currentSpeed (state (inst (env p)))))
    as R.
  rewrite Hi in R.
  set (len := Z.of_nat (List.length options)) in *.
  assert (Hin : (0 <= (i + 1) mod len < len)%Z)
    by (apply Z.mod_pos_bound; lia).
  assert (Hrem : Z.rem (i + 1) len = ((i + 1) mod len)%Z)
    by (apply Z.rem_mod_nonneg; lia).
  destruct (at_index_in_range options _ Hin) as [speed Hs].
  exists (upd_env (m_setSpeed (methods p) speed) p).
  split; [|split; [exact Hm | split]].
  - unfold cycleSpeed. fold options. rewrite Hi.
    destruct options as [|o os] eqn:Ho; [cbn in R; lia|].
    fold len. rewrite Hrem, Hs. reflexivity.
  - cbn [upd_env env]. rewrite Hm. rewrite setSpeed_keeps_config.
    reflexivity.
  - cbn [upd_env env]. rewrite Hm, setSpeed_currentSpeed.
    unfold at_index in Hs.
    destruct ((i + 1) mod len <? 0)%Z eqn:E;
      [apply Z.ltb_lt in E; lia|].
    rewrite (indexOf_nth options _ speed Hd Hs). lia.
Qed.

Lemma cycleSpeedTimes_index (k : nat) :
  forall (p : Player) (i : Z),
    m_setSpeed (methods p) = setSpeed ->
    distinct (rspeed_options (speedConfig (inst (env p)))) ->
    indexOf (rspeed_options (speedConfig (inst (env p))))
      (currentSpeed (state (inst (env p)))) = i ->
    (0 <= i)%Z ->
    exists p',
      cycleSpeedTimes k p = Some p'
      /\ indexOf (rspeed_options (speedConfig (inst (env p))))
           (currentSpeed (state (inst (env p'))))
         = ((i + Z.of_nat k)
            mod Z.of_nat
                  (List.length
                     (rspeed_options (speedConfig (inst (env p))))))%Z.
Proof.
  induction k as [|k IH]; intros p i Hm Hd Hi Hpos.
  - exists p. split; [reflexivity|].
    pose proof (indexOf_range (rspeed_options (speedConfig (inst (env p))))
                  (currentSpeed (state (inst (env p))))) as R.
    rewrite Hi in *. rewrite Z.add_0_r. symmetry. apply Z.mod_small. lia.
  - destruct (cycleSpeed_index p i Hm Hd Hi Hpos) as [p1 [C [M1 [O1 I1]]]].
    set (options := rspeed_options (speedConfig (inst (env p)))) in *.
    pose proof (indexOf_range options (currentSpeed (state (inst (env p)))))
      as R.
    rewrite Hi in R.
    assert (B : (0 <= (i + 1) mod Z.of_nat (List.length options))%Z)
      by (apply Z.mod_pos_bound; lia).
    destruct (IH p1 ((i + 1) mod Z.of_nat (List.length options))%Z M1)
      as [p' [Ck Ik]].
    + rewrite O1. exact Hd.
    + rewrite O1. exact I1.
    + exact B.
    + exists p'. cbn [cycleSpeedTimes]. rewrite C.
      split; [exact Ck|].
      rewrite O1 in Ik. fold options in Ik. rewrite Ik.
      rewrite Zplus_mod_idemp_l. f_equal. lia.
Qed.

(** X10: with the original [setSpeed] and options that are all different,
    calling [cycleSpeed()] as many times as there are options brings a
    speed taken from the options back to itself. *)
Theorem cycleSpeed_full_cycle (p : Player) :
  m_setSpeed (methods p) = setSpeed ->
  distinct (rspeed_options (speedConfig (inst (env p)))) ->
  (0 <= indexOf (rspeed_options (speedConfig (inst (env p))))
          (currentSpeed (state (inst (env p)))))%Z ->
  exists p',
    cycleSpeedTimes
      (List.length (rspeed_options (speedConfig (inst (env p))))) p
    = Some p'
    /\ currentSpeed (state (inst (env p')))
       == currentSpeed (state (inst (env p))).
Proof.
  intros Hm Hd Hpos.
  set (options := rspeed_options (speedConfig (inst (env p)))) in *.
  set (current := currentSpeed (state (inst (env p)))) in *.
  destruct (cycleSpeedTimes_index (List.length options) p
              (indexOf options current) Hm Hd eq_refl Hpos)
    as [p' [C I]].
  exists p'. split; [exact C|].
  fold options in I.
  pose proof (indexOf_range options current) as R.
  assert (E : indexOf options (currentSpeed (state (inst (env p'))))
              = indexOf options current).
  { rewrite I.
    replace (indexOf options current + Z.of_nat (List.length options))%Z
      with (indexOf options current
            + 1 * Z.of_nat (List.length options))%Z by lia.
    rewrite Z.mod_add by lia. apply Z.mod_small. lia. }
  destruct (indexOfFrom_found current options 0%Z (indexOf options current)
              ltac:(lia) Hpos eq_refl) as [y [Hy [Qy _]]].
  destruct (indexOfFrom_found (currentSpeed (state (inst (env p')))) options
              0%Z (indexOf options current) ltac:(lia) Hpos E)
    as [y' [Hy' [Qy' _]]].
  rewrite Hy in Hy'. injection Hy' as <-.
  rewrite <- Qy', Qy. reflexivity.
Qed.

Lemma cycleSpeed_full_cycle_of_the_defaults :
  exists p',
    cycleSpeedTimes 7 (upd_env (setSpeed (5 # 4)) freshPlayer) = Some p'
    /\ currentSpeed (state (inst (env p'))) == 5 # 4.
Proof.
  apply (cycleSpeed_full_cycle (upd_env (setSpeed (5 # 4)) freshPlayer)).
  - reflexivity.
  - apply distinctb_sound. reflexivity.
  - vm_compute. intros H. discriminate H.
Defined.

(** ** Keyboard dispatch *)

(** X11: on a ready player with nothing being typed, the keydown handler
    prevents the default action of exactly the configured keys; any other
    key leaves the player untouched and the event to the page. *)
Theorem handleKeyDown_prevents_default_of_configured_keys
  (cfg : RequiredKeyboardConfig) (key : string) (p : Player)
  (ws : AudioEngine) :
  isInputFocused (world (env p)) = false ->
  wavesurfer (inst (env p)) = Some ws ->
  isReady (state (inst (env p))) = true ->
  snd (handleKeyDown cfg key p) = configuredKey cfg key
  /\ (if configuredKey cfg key then True
      else fst (handleKeyDown cfg key p) = p).
Proof.
  intros Hf Hw Hr. unfold handleKeyDown, configuredKey.
  rewrite Hf, Hw, Hr. cbn [negb].
  repeat match goal with
         | |- context [includes ?l key] => destruct (includes l key)
         end;
    cbn [orb];
    repeat match goal with
           | |- context [if ?b then _ else _] => destruct b
           end;
    split; trivial.
Qed.

Lemma handleKeyDown_leaves_other_keys_alone :
  snd (handleKeyDown DEFAULT_KEYBOARD_CONFIG "x" loadedPlayer) = false.
Proof.
  exact (proj1
           (handleKeyDown_prevents_default_of_configured_keys
              DEFAULT_KEYBOARD_CONFIG "x" loadedPlayer WaveSurfer_create
              eq_refl eq_refl eq_refl)).
Defined.

Lemma getSpeedIndex_range (p : Player) :
  (-1 <= getSpeedIndex p < Z.of_nat (List.length (getSpeedOptions p)))%Z.
Proof.
  unfold getSpeedIndex.
  destruct (0 <=? indexOf (getSpeedOptions p) _)%Z; apply indexOf_range.
Qed.

(** X12: the speed-up key never wraps around: at the last option (or with
    no options) it changes nothing, otherwise it sets the option that
    follows the resolved index. *)
Theorem speedUp_key_does_not_wrap (cfg : RequiredKeyboardConfig)
  (key : string) (p : Player) (ws : AudioEngine) :
  isInputFocused (world (env p)) = false ->
  wavesurfer (inst (env p)) = Some ws ->
  isReady (state (inst (env p))) = true ->
  includes (rkb_playPause cfg) key = false ->
  includes (rkb_skipBack cfg) key = false ->
  includes (rkb_skipForward cfg) key = false ->
  includes (rkb_speedUp cfg) key = true ->
  m_setSpeed (methods p) = setSpeed ->
  if (getSpeedIndex p <? Z.of_nat (List.length (getSpeedOptions p)) - 1)%Z
  then exists speed,
      at_index (getSpeedOptions p) (getSpeedIndex p + 1) = Some speed
      /\ currentSpeed (state (inst (env (fst (handleKeyDown cfg key p)))))
         = speed
      /\ engineCalls (env (fst (handleKeyDown cfg key p)))
         = CallSetPlaybackRate speed :: eng_calls ws
  else fst (handleKeyDown cfg key p) = p.
Proof.
  intros Hf Hw Hr K1 K2 K3 K4 Hm.
  unfold handleKeyDown. rewrite Hf, Hw, Hr, K1, K2, K3, K4. cbn [negb].
  pose proof (getSpeedIndex_range p) as R.
  destruct (getSpeedIndex p <? Z.of_nat (List.length (getSpeedOptions p)) - 1)%Z
    eqn:E; [|reflexivity].
  apply Z.ltb_lt in E.
  destruct (at_index_in_range (getSpeedOptions p) (getSpeedIndex p + 1)
              ltac:(lia)) as [speed Hs].
  exists speed. rewrite Hs. cbn [fst call_setSpeed upd_env env].
  rewrite Hm. split; [reflexivity|].
  split; [apply setSpeed_currentSpeed|].
  unfold setSpeed, engine_call, engineCalls.
  destruct (env p) as [[st w0 ct op sc kc cl kd iv] w]. cbn in Hw.
  subst w0. reflexivity.
Qed.

Lemma speedUp_key_at_the_fastest_speed :
  fst (handleKeyDown DEFAULT_KEYBOARD_CONFIG "ArrowUp"
         (upd_env (setSpeed 2) loadedPlayer))
  = upd_env (setSpeed 2) loadedPlayer.
Proof.
  exact (speedUp_key_does_not_wrap DEFAULT_KEYBOARD_CONFIG "ArrowUp"
           (upd_env (setSpeed 2) loadedPlayer)
           (engine_do (CallSetPlaybackRate 2) WaveSurfer_create)
           eq_refl eq_refl eq_refl eq_refl eq_refl eq_refl eq_refl eq_refl).
Defined.

(** X13: the speed-down key never wraps around either: at the first
    option, or when neither the current speed nor 1 is among the options,
    it changes nothing, otherwise it sets the option before the resolved
    index. *)
Theorem speedDown_key_does_not_wrap (cfg : RequiredKeyboardConfig)
  (key : string) (p : Player) (ws : AudioEngine) :
  isInputFocused (world (env p)) = false ->
  wavesurfer (inst (env p)) = Some ws ->
  isReady (state (inst (env p))) = true ->
  includes (rkb_playPause cfg) key = false ->
  includes (rkb_skipBack cfg) key = false ->
  includes (rkb_skipForward cfg) key = false ->
  includes (rkb_speedUp cfg) key = false ->
  includes (rkb_speedDown cfg) key = true ->
  m_setSpeed (methods p) = setSpeed ->
  if (0 <? getSpeedIndex p)%Z
  then exists speed,
      at_index (getSpeedOptions p) (getSpeedIndex p - 1) = Some speed
      /\ currentSpeed (state (inst (env (fst (handleKeyDown cfg key p)))))
         = speed
      /\ engineCalls (env (fst (handleKeyDown cfg key p)))
         = CallSetPlaybackRate speed :: eng_calls ws
  else fst (handleKeyDown cfg key p) = p.
Proof.
  intros Hf Hw Hr K1 K2 K3 K4 K5 Hm.
  unfold handleKeyDown. rewrite Hf, Hw, Hr, K1, K2, K3, K4, K5. cbn [negb].
  pose proof (getSpeedIndex_range p) as R.
  destruct (0 <? getSpeedIndex p)%Z eqn:E; [|reflexivity].
  apply Z.ltb_lt in E.
  destruct (at_index_in_range (getSpeedOptions p) (getSpeedIndex p - 1)
              ltac:(lia)) as [speed Hs].
  exists speed. rewrite Hs. cbn [fst call_setSpeed upd_env env].
  rewrite Hm. split; [reflexivity|].
  split; [apply setSpeed_currentSpeed|].
  unfold setSpeed, engine_call, engineCalls.
  destruct (env p) as [[st w0 ct op sc kc cl kd iv] w]. cbn in Hw.
  subst w0. reflexivity.
Qed.

Lemma speedDown_key_at_the_slowest_speed :
  fst (handleKeyDown DEFAULT_KEYBOARD_CONFIG "ArrowDown"
         (upd_env (setSpeed (1 # 2)) loadedPlayer))
  = upd_env (setSpeed (1 # 2)) loadedPlayer.
Proof.
  exact (speedDown_key_does_not_wrap DEFAULT_KEYBOARD_CONFIG "ArrowDown"
           (upd_env (setSpeed (1 # 2)) loadedPlayer)
           (engine_do (CallSetPlaybackRate (1 # 2)) WaveSurfer_create)
           eq_refl eq_refl eq_refl eq_refl eq_refl eq_refl eq_refl eq_refl
           eq_refl).
Defined.

(** ** Attaching and detaching the keyboard listener *)

Lemma initializePlayer_listener (opts : WCAudioPlayerOptions)
  (container : nat) (w : World) (peaks : option number) :
  keydownListener
    (inst (env (initializePlayer peaks (newPlayer opts container w))))
  = match opt_keyboard opts with
    | None | Some FeatureTrue => Some (populated DEFAULT_KEYBOARD_CONFIG)
    | Some FeatureFalse | Some FeatureUndefined => None
    | Some (FeatureObject c) =>
        match kb_enabled c with
        | KeyAbsent | KeyValue true =>
            Some (normalizeKeyboardConfig (FeatureObject c))
        | KeyUndefined | KeyValue false => None
        end
    end.
Proof.
  unfold initializePlayer, initKeyboard, newPlayer.
  cbn [env inst options upd_env setupWavesurferEvents on set_handlers
       with_inst set_wavesurfer].
  destruct (opt_keyboard opts) as [[| | |c]|]; try reflexivity.
  unfold setupKeyboardShortcuts, mergedFeature.
  destruct c as [[| |[|]] k1 k2 k3 k4 k5 k6 k7 k8 k9]; reflexivity.
Qed.

(** X14: [initializePlayer] attaches the keydown listener when the
    [keyboard] feature is absent from the options or [true] (with the
    default keys), or an object whose [enabled] is absent or [true] (with
    the object spread over the defaults).  It attaches none for [false],
    for a [keyboard] key written [undefined], and for an object whose
    [enabled] is [false] or written [undefined]. *)
Theorem initializePlayer_attaches_listener (opts : WCAudioPlayerOptions)
  (container : nat) (w : World) (peaks : option number) :
  keydownListener
    (inst (env (initializePlayer peaks (newPlayer opts container w))))
  = match opt_keyboard opts with
    | None | Some FeatureTrue => Some (populated DEFAULT_KEYBOARD_CONFIG)
    | Some FeatureFalse | Some FeatureUndefined => None
    | Some (FeatureObject c) =>
        match kb_enabled c with
        | KeyAbsent | KeyValue true =>
            Some (normalizeKeyboardConfig (FeatureObject c))
        | KeyUndefined | KeyValue false => None
        end
    end
  /\ listenerConfig (populated DEFAULT_KEYBOARD_CONFIG)
     = DEFAULT_KEYBOARD_CONFIG.
Proof.
  split; [apply initializePlayer_listener | reflexivity].
Qed.

(** With [{ playPause: undefined }] the listener is attached, and every
    key that passes the guards ends in the TypeError of
    [undefined.includes]: the key [j], which skips back under the default
    configuration, does nothing. *)
Example keydown_with_undefined_key_list :
  keydownListener (inst (env playPauseUndefinedPlayer))
  = Some (normalizeKeyboardConfig (FeatureObject keyboardPlayPauseUndefined))
  /\ nkb_playPause
       (normalizeKeyboardConfig (FeatureObject keyboardPlayPauseUndefined))
     = None
  /\ snd (handleKeyDown DEFAULT_KEYBOARD_CONFIG "j" playPauseUndefinedPlayer)
     = true
  /\ snd (keydown "j" playPauseUndefinedPlayer) = false
  /\ engineCalls (env (fst (keydown "j" playPauseUndefinedPlayer))) = [].
Proof. repeat split; reflexivity. Qed.

(** X15: after [destroy], a player that was created and initialized has
    no keydown listener left, and no key has any effect on it. *)
Theorem destroy_detaches_listener (opts : WCAudioPlayerOptions)
  (container : nat) (w : World) (peaks : option number) (key : string) :
  keydownListener
    (inst
       (env (destroy (initializePlayer peaks (newPlayer opts container w)))))
  = None
  /\ keydown key (destroy (initializePlayer peaks (newPlayer opts container w)))
     = (destroy (initializePlayer peaks (newPlayer opts container w)), false).
Proof.
  assert (L : keydownListener
                (inst
                   (env
                      (destroy
                         (initializePlayer peaks
                            (newPlayer opts container w))))) = None).
  { unfold initializePlayer, initKeyboard, newPlayer.
    cbn [env inst options upd_env setupWavesurferEvents on set_handlers
         with_inst set_wavesurfer].
    destruct (opt_keyboard opts) as [[| | |c]|]; try reflexivity.
    unfold setupKeyboardShortcuts, mergedFeature.
    destruct c as [[| |[|]] k1 k2 k3 k4 k5 k6 k7 k8 k9]; reflexivity. }
  split; [exact L|]. unfold keydown. rewrite L. reflexivity.
Qed.

(** ** The live region *)

Lemma contains_node_of (w : World) (el : Element) :
  In el (body w) -> contains w (node el) = true.
Proof.
  intros H. unfold contains. apply existsb_exists.
  exists el. split; [exact H | apply Nat.eqb_refl].
Qed.

Lemma cachedAnnouncer_contains (w : World) (n : nat) :
  cachedAnnouncer w = Some n ->
  announcerElement w = Some n /\ contains w n = true.
Proof.
  unfold cachedAnnouncer. destruct (announcerElement w) as [m|]; [|discriminate].
  destruct (contains w m) eqn:C; [|discriminate].
  intros H. injection H as <-. split; [reflexivity | exact C].
Qed.

(** X16: [getAnnouncer] returns an element that is in the document, and
    asking again returns the same element without touching the page: the
    live region is created at most once. *)
Theorem getAnnouncer_idempotent (w : World) :
  contains (snd (getAnnouncer w)) (fst (getAnnouncer w)) = true
  /\ getAnnouncer (snd (getAnnouncer w)) = getAnnouncer w.
Proof.
  unfold getAnnouncer at 1 2 4 5.
  destruct (cachedAnnouncer w) as [n|] eqn:C.
  - cbn [fst snd]. split; [apply (cachedAnnouncer_contains w n C)|].
    unfold getAnnouncer. rewrite C. reflexivity.
  - destruct (getElementById w ANNOUNCER_ID) as [el|] eqn:G; cbn [fst snd].
    + assert (Hin : In el (body w)).
      { unfold getElementById in G. apply find_some in G. apply G. }
      pose proof (contains_node_of w el Hin) as Hc.
      split; [exact Hc|].
      unfold getAnnouncer, cachedAnnouncer. cbn [announcerElement
        set_announcerElement].
      change (contains (set_announcerElement (Some (node el)) w) (node el))
        with (contains w (node el)).
      rewrite Hc. reflexivity.
    + assert (Hc : contains
                     (set_announcerElement (Some (nextNode w))
                        (set_nextNode (S (nextNode w))
                           (set_body
                              (body w
                               ++ [mkElement (nextNode w) "DIV" ANNOUNCER_ID
                                     ["sr-only"%string] false]) w)))
                     (nextNode w) = true).
      { unfold contains. cbn [body set_announcerElement set_nextNode set_body].
        rewrite existsb_app. cbn [existsb node].
        rewrite Nat.eqb_refl. rewrite orb_true_r. reflexivity. }
      split; [exact Hc|].
      unfold getAnnouncer at 1. unfold cachedAnnouncer at 1.
      cbn [announcerElement set_announcerElement]. rewrite Hc. reflexivity.
Qed.

Lemma find_none_filter {A : Type} (f : A -> bool) (l : list A) :
  find f l = None -> filter f l = [].
Proof.
  induction l as [|a l IH]; cbn; [reflexivity|].
  destruct (f a); [discriminate | exact IH].
Qed.

Lemma find_some_filter {A : Type} (f : A -> bool) (l : list A) (a : A) :
  find f l = Some a -> (1 <= List.length (filter f l))%nat.
Proof.
  induction l as [|b l IH]; cbn; [discriminate|].
  destruct (f b); cbn; [lia | exact IH].
Qed.

(** X17: [getAnnouncer] never adds a second live region: the number of
    elements with the announcer id stays as it is when there is one to
    reuse, and becomes 1 when there was none. *)
Theorem getAnnouncer_adds_at_most_one (w : World) :
  announcerCount (snd (getAnnouncer w))
  = match cachedAnnouncer w with
    | Some _ => announcerCount w
    | None => Nat.max 1 (announcerCount w)
    end.
Proof.
  unfold getAnnouncer.
  destruct (cachedAnnouncer w) as [n|]; [reflexivity|].
  unfold getElementById.
  destruct (find _ (body w)) as [el|] eqn:G; cbn [snd].
  - apply find_some_filter in G.
    change (announcerCount (set_announcerElement (Some (node el)) w))
      with (announcerCount w).
    unfold announcerCount. lia.
  - apply find_none_filter in G.
    unfold announcerCount. cbn [body set_announcerElement set_nextNode
      set_body].
    rewrite filter_app, length_app, G. reflexivity.
Qed.

(** ** Destroying twice *)

Lemma fold_cleanups (fns : list CleanupFn) (e : Env) :
  fold_left (fun e fn => run_cleanup fn e) fns e
  = if existsb
         (fun fn =>
            match fn with
            | CleanupKeydown => true
            | CleanupNoop => false
            end) fns
    then with_inst (set_keydownListener None) e
    else e.
Proof.
  revert e. induction fns as [|fn fns IH]; intros e; cbn [fold_left existsb].
  - reflexivity.
  - rewrite IH. destruct fn; cbn [run_cleanup orb]; [reflexivity|].
    destruct (existsb _ fns); reflexivity.
Qed.

Lemma filter_map_commute {A : Type} (g : A -> bool) (f : A -> A)
  (l : list A) :
  (forall x, g (f x) = g x) -> filter g (map f l) = map f (filter g l).
Proof.
  intros H. induction l as [|a l IH]; cbn; [reflexivity|].
  rewrite H. destruct (g a); cbn; rewrite IH; reflexivity.
Qed.

Lemma existsb_map_same {A : Type} (g : A -> bool) (f : A -> A) (l : list A) :
  (forall x, g (f x) = g x) -> existsb g (map f l) = existsb g l.
Proof.
  intros H. induction l as [|a l IH]; cbn; [reflexivity|].
  rewrite H, IH. reflexivity.
Qed.

Lemma includes_filter_other (l : list string) (x cls : string) :
  x <> cls ->
  includes (filter (fun c => negb (String.eqb c cls)) l) x = includes l x.
Proof.
  intros Hne. unfold includes.
  induction l as [|c l IH]; cbn; [reflexivity|].
  destruct (String.eqb c cls) eqn:E; cbn.
  - apply String.eqb_eq in E. subst c.
    destruct (String.eqb x cls) eqn:X; [apply String.eqb_eq in X; contradiction|].
    cbn. exact IH.
  - rewrite IH. reflexivity.
Qed.

Lemma dropClass_node n cls el : node (dropClass n cls el) = node el.
Proof. unfold dropClass. destruct (Nat.eqb (node el) n); reflexivity. Qed.

Lemma dropClass_twice n cls el :
  dropClass n cls (dropClass n cls el) = dropClass n cls el.
Proof.
  unfold dropClass. destruct (Nat.eqb (node el) n) eqn:E; cbn.
  - rewrite E. f_equal.
    induction (classList el) as [|c l IH]; cbn; [reflexivity|].
    destruct (String.eqb c cls) eqn:C; cbn; [exact IH|].
    rewrite C. cbn. rewrite IH. reflexivity.
  - rewrite E. reflexivity.
Qed.

Lemma classList_remove_as_map n cls w :
  classList_remove n cls w = set_body (map (dropClass n cls) (body w)) w.
Proof. reflexivity. Qed.

Lemma cleanupAnnouncer_after_remove (n : nat) (cls : string) (w : World) :
  cls <> "wc-audio-player"%string ->
  cleanupAnnouncer (classList_remove n cls w)
  = classList_remove n cls (cleanupAnnouncer w).
Proof.
  intros Hne. rewrite !classList_remove_as_map.
  unfold cleanupAnnouncer, cachedAnnouncer, contains, querySelectorAll_class.
  cbn [announcerElement body set_body].
  destruct (announcerElement w) as [a|]; [|reflexivity].
  rewrite existsb_map_same
    by (intros x; rewrite dropClass_node; reflexivity).
  destruct (existsb _ (body w)); [|reflexivity].
  rewrite filter_map_commute.
  - rewrite length_map.
    destruct (Nat.eqb (List.length _) 0); [|reflexivity].
    unfold removeNode, set_announcerElement, set_body. cbn.
    f_equal. apply filter_map_commute.
    intros x. rewrite dropClass_node. reflexivity.
  - intros x. unfold dropClass.
    destruct (Nat.eqb (node x) n); [|reflexivity].
    cbn [classList]. apply includes_filter_other.
    intros E. apply Hne. symmetry. exact E.
Qed.

Lemma cleanupAnnouncer_twice (w : World) :
  cleanupAnnouncer (cleanupAnnouncer w) = cleanupAnnouncer w.
Proof.
  unfold cleanupAnnouncer at 2 3.
  destruct (cachedAnnouncer w) as [n|] eqn:C.
  - destruct (Nat.eqb _ 0) eqn:L.
    + reflexivity.
    + unfold cleanupAnnouncer. rewrite C, L. reflexivity.
  - unfold cleanupAnnouncer. rewrite C. reflexivity.
Qed.

Lemma classList_remove_twice n cls w :
  classList_remove n cls (classList_remove n cls w)
  = classList_remove n cls w.
Proof.
  rewrite !classList_remove_as_map. unfold set_body. cbn. f_equal.
  rewrite map_map. apply map_ext. intros el. apply dropClass_twice.
Qed.

(** X18: a second [destroy()] changes nothing but the callback log: it
    reaches no engine, keeps the page as the first call left it, and
    invokes [onError] with "Player destroyed" once more. *)
Theorem destroy_twice (p : Player) :
  plugins p = [] ->
  env (destroy (destroy p))
  = with_inst (invoke (OnError "Player destroyed")) (env (destroy p)).
Proof.
  intros Hp. unfold destroy. rewrite Hp. cbn [fold_left plugins env].
  rewrite !fold_cleanups.
  destruct (env p) as [[st ws ct op sc kc cl kd iv] w].
  cbn [inst cleanupFns].
  destruct (existsb _ cl) eqn:X;
    destruct ws; cbn;
    rewrite ?X; cbn;
    unfold with_inst, with_world; cbn; f_equal;
    rewrite cleanupAnnouncer_after_remove by discriminate;
    rewrite cleanupAnnouncer_twice;
    apply classList_remove_twice.
Qed.

Lemma destroy_twice_on_readme_page :
  invoked (inst (env (destroy (destroy readyPlayer))))
  = [OnError "Player destroyed"; OnError "Player destroyed"]
  /\ engineCalls (env (destroy (destroy readyPlayer))) = [].
Proof.
  rewrite (destroy_twice readyPlayer eq_refl). split; reflexivity.
Defined.

(** ** Engine events *)

Lemma initializePlayer_handlers opts container w peaks :
  handlers (initializePlayer peaks (newPlayer opts container w))
  = coreHandlers.
Proof.
  unfold initializePlayer, initKeyboard, newPlayer.
  cbn [env inst options upd_env setupWavesurferEvents on set_handlers
       with_inst set_wavesurfer].
  destruct (opt_keyboard opts) as [[| | |c]|]; try reflexivity.
  unfold setupKeyboardShortcuts, mergedFeature.
  destruct c as [[| |[|]] k1 k2 k3 k4 k5 k6 k7 k8 k9]; reflexivity.
Qed.

(** X19: the transition table of the player.  On a player with the
    subscriptions of [setupWavesurferEvents], each engine event runs its
    own handler only: ready sets [isReady] and captures the duration, play
    sets [isPlaying], pause and finish clear it, pause, seeking and
    audioprocess copy the engine position into [currentTime], error
    changes no state; every event but audioprocess invokes its
    callback once. *)
Theorem engine_event_transitions (ev : EngineEvent) (p : Player)
  (ws : AudioEngine) :
  handlers p = coreHandlers ->
  wavesurfer (inst (env p)) = Some ws ->
  state (inst (env (emit ev p)))
  = (match ev with
     | EvReady =>
         set_duration (eng_duration ws) (set_isReady true (state (inst (env p))))
     | EvPlay => set_isPlaying true (state (inst (env p)))
     | EvPause =>
         set_currentTime (eng_currentTime ws)
           (set_isPlaying false (state (inst (env p))))
     | EvFinish => set_isPlaying false (state (inst (env p)))
     | EvSeeking | EvAudioprocess =>
         set_currentTime (eng_currentTime ws) (state (inst (env p)))
     | EvError => state (inst (env p))
     end)
  /\ invoked (inst (env (emit ev p)))
     = (match ev with
        | EvReady => [OnReady]
        | EvPlay => [OnPlay]
        | EvPause => [OnPause (eng_currentTime ws)]
        | EvFinish => [OnFinish]
        | EvSeeking => [OnSeek (eng_currentTime ws)]
        | EvAudioprocess => []
        | EvError => [OnError "error"]
        end) ++ invoked (inst (env p))
  /\ wavesurfer (inst (env (emit ev p))) = Some ws
  /\ world (env (emit ev p)) = world (env p).
Proof.
  intros Hh Hw. unfold emit. rewrite Hw, Hh.
  destruct p as [m pl hs [[st w0 ct op sc kc cl kd iv] w]].
  cbn in Hw. subst w0.
  destruct ev; cbn; repeat split; try reflexivity;
    destruct st; reflexivity.
Qed.

Lemma engine_event_transitions_on_pause :
  isPlaying (state (inst (env (emit EvPause (emit EvPlay readyPlayer)))))
  = false
  /\ isPlaying (state (inst (env (emit EvPlay readyPlayer)))) = true.
Proof.
  pose proof (engine_event_transitions EvPause (emit EvPlay readyPlayer)
                WaveSurfer_create eq_refl eq_refl) as [H _].
  split; [rewrite H|]; reflexivity.
Defined.

(** ** Analytics *)

Lemma getVars_setVars closure v w :
  getVars closure (setVars closure v w) = v.
Proof. unfold getVars. cbn. rewrite Nat.eqb_refl. reflexivity. Qed.


(** On the README player with the plugin registered, two play events, a
    pause and two finish events of the engine are reported as one
    ["play"], one ["pause"] and one ["complete"], after the
    ["episode_view"] of the registration. *)
Example analytics_reports_on_the_readme_player :
  tracked
    (world
       (env
          (emit EvFinish
             (emit EvFinish
                (emit EvPause (emit EvPlay (emit EvPlay trackedPlayer)))))))
  = [mkTrackCall (Some 7%nat) "complete" None;
     mkTrackCall (Some 7%nat) "pause" (Some 0);
     mkTrackCall (Some 7%nat) "play" None;
     mkTrackCall (Some 7%nat) "episode_view" None].
Proof. vm_compute. reflexivity. Qed.

Ltac unfold_analytics_init :=
  unfold use, analyticsPlugin; cbn [plugin_init plugin_name plugin_destroy];
  unfold analyticsInit, initSkip, initSpeedChange, initComplete, initPause,
    initPlay, initView, initTracker.

(** X21: the analytics plugin is transparent for playback: whatever its
    configuration, the rebound [setSpeed], [skipForward] and [skipBack]
    leave the player state and the engine exactly as the implementations
    they wrap do. *)
Theorem analytics_wrappers_are_transparent (closure : nat)
  (config : Feature AnalyticsConfig) (p : Player) (e : Env) :
  (forall speed,
      inst (m_setSpeed (methods (use (analyticsPlugin closure config) p))
              speed e)
      = inst (m_setSpeed (methods p) speed e))
  /\ (forall seconds,
         inst (m_skipForward
                 (methods (use (analyticsPlugin closure config) p)) seconds e)
         = inst (m_skipForward (methods p) seconds e))
  /\ (forall seconds,
         inst (m_skipBack
                 (methods (use (analyticsPlugin closure config) p)) seconds e)
         = inst (m_skipBack (methods p) seconds e)).
Proof.
  unfold_analytics_init.
  repeat match goal with
         | |- context [if ?b then _ else _] => destruct b
         end;
    repeat split; intros; reflexivity.
Qed.

(** X22: the skip events carry [seconds || 15]: a skip by the configured
    default is reported with 15 seconds whatever amount the player is
    configured to skip. *)
Theorem analytics_reports_default_skip_as_15 (closure : nat)
  (config : Feature AnalyticsConfig) (p : Player) (e : Env) :
  ran_enabled (normalizeAnalyticsConfig config) = true ->
  ran_trackSkip (normalizeAnalyticsConfig config) = true ->
  tracked
    (world
       (m_skipForward (methods (use (analyticsPlugin closure config) p))
          None e))
  = mkTrackCall
      (av_tracker
         (getVars closure (world (m_skipForward (methods p) None e))))
      "skip_forward" (Some 15)
    :: tracked (world (m_skipForward (methods p) None e))
  /\ tracked
       (world
          (m_skipBack (methods (use (analyticsPlugin closure config) p))
             None e))
     = mkTrackCall
         (av_tracker
            (getVars closure (world (m_skipBack (methods p) None e))))
         "skip_back" (Some 15)
       :: tracked (world (m_skipBack (methods p) None e)).
Proof.
  intros He Hs. unfold_analytics_init. rewrite He, Hs. cbn [negb].
  repeat match goal with
         | |- context [if ?b then _ else _] => destruct b
         end;
    split; reflexivity.
Qed.

Lemma analytics_reports_default_skip_as_15_for_30_second_skips :
  (exists t,
      engineTime (skipForward None thirtySecondSkips) = Some t /\ t == 40)
  /\ tracked
       (world
          (m_skipForward
             (methods (use (analyticsPlugin 1 FeatureTrue) freshPlayer))
             None thirtySecondSkips))
     = [mkTrackCall None "skip_forward" (Some 15)].
Proof.
  split; [eexists; split; [reflexivity | reflexivity]|].
  exact (proj1
           (analytics_reports_default_skip_as_15 1 FeatureTrue freshPlayer
              thirtySecondSkips eq_refl eq_refl)).
Defined.

(** X23: an enabled plugin sends its events to the tracker of its
    configuration when there is one, otherwise to the tracker detected on
    the page, otherwise to the development log; and the [destroy] of the
    plugin falls back to the development log. *)
Theorem analytics_tracker_resolution (closure : nat)
  (config : Feature AnalyticsConfig) (p : Player) :
  ran_enabled (normalizeAnalyticsConfig config) = true ->
  av_tracker
    (getVars closure (world (env (use (analyticsPlugin closure config) p))))
  = match ran_tracker (normalizeAnalyticsConfig config) with
    | Some t => Some t
    | None => detectedTracker (world (env p))
    end
  /\ forall e, av_tracker (getVars closure (world (analyticsDestroy closure e)))
               = None.
Proof.
  intros He. split.
  - unfold_analytics_init. rewrite He. cbn [negb].
    repeat match goal with
           | |- context [if ?b then _ else _] => destruct b
           end;
      cbn; rewrite ?Nat.eqb_refl; reflexivity.
  - intros e. unfold analyticsDestroy. cbn [world with_world].
    rewrite getVars_setVars. reflexivity.
Qed.

Lemma analytics_tracker_resolution_with_configured_tracker :
  av_tracker
    (getVars 1
       (world (env (use (analyticsPlugin 1 (trackerConfig 7%nat))
                      readyPlayer))))
  = Some 7%nat.
Proof.
  exact (proj1
           (analytics_tracker_resolution 1 (trackerConfig 7%nat) readyPlayer
              eq_refl)).
Defined.
